(** * Frog: a REST facade over a brokerage API (main.js and its two later variants)

    Shallow embedding of the three server variants of the repository and of
    the numeric helpers they share, followed by the properties of the
    specification that were checked against them.

    - [MainJs]   : src/main.js (Deno, one global cache object)
    - [Part000]  : src/unnamed/part_000 (Deno, per-ticker maps)
    - [ServerJs] : src/unnamed/part_001 (Express + SDK, header comment "server.js")
*)

From stdpp Require Import gmap strings pretty.
From Stdlib Require Import ZArith QArith Qabs Qround Qpower Qreduction Lia Lqa.
From Stdlib Require Import String Ascii List Bool.
From Stdlib Require Import PrimFloat FloatOps SpecFloat.
Import ListNotations.

Set Warnings "-inexact-float".

Local Open Scope Z_scope.

(* ================================================================== *)
(** * Part I. JavaScript numbers                                        *)
(* ================================================================== *)

(** A JS number is an IEEE-754 binary64.  The finite ones are modelled by the
    rational they denote; every arithmetic operation computes the exact
    rational result and rounds it to the binary64 grid (round to nearest,
    ties to even, overflow to infinity), which is what IEEE-754 prescribes.
    The two zeros are identified: the program never divides by a zero, never
    inspects a sign of zero, and JSON prints both as 0. *)

Module Num.

(** 2^e for any integer exponent. *)
Definition pow2 (e : Z) : Q := Qpower 2 e.

(** floor (log2 |x|) for x <> 0. *)
Definition ilog2 (x : Q) : Z :=
  let k := Z.log2 (Z.abs (Qnum x)) - Z.log2 (Zpos (Qden x)) in
  if Qle_bool (pow2 k) (Qabs x) then k else k - 1.

(** Nearest integer, ties to even. *)
Definition rne (x : Q) : Z :=
  let f := Qfloor x in
  match Qcompare (x - inject_Z f) (1 # 2) with
  | Lt => f
  | Gt => f + 1
  | Eq => if Z.even f then f else f + 1
  end.

(** binary64: 53 significant bits, least exponent -1074, overflow at 2^1024. *)
Definition prec : Z := 53.
Definition emin : Z := -1074.
Definition emax : Z := 1024.

(** Exponent of the unit in the last place of the binade of x. *)
Definition fexp (x : Q) : Z := Z.max (ilog2 x - (prec - 1)) emin.

(** Nearest point of the binary64 grid (exponent range unbounded above). *)
Definition round_grid (x : Q) : Q :=
  if Qeq_bool x 0 then 0%Q
  else (inject_Z (rne (x / pow2 (fexp x))) * pow2 (fexp x))%Q.

Inductive number : Type :=
| NaN
| Inf (negative : bool)
| Fin (q : Q).

Definition Qneg_bool (x : Q) : bool := negb (Qle_bool 0 x).

(** The number a real result is delivered as. *)
Definition of_real (x : Q) : number :=
  let r := round_grid x in
  if Qle_bool (pow2 emax) (Qabs r) then Inf (Qneg_bool x) else Fin (Qred r).

(** A rational that is a finite binary64 value. *)
Definition is_binary64 (x : Q) : bool :=
  Qeq_bool (round_grid x) x && negb (Qle_bool (pow2 emax) (Qabs x)).

Definition is_zero (x : Q) : bool := Qeq_bool x 0.

(** a + b *)
Definition add (a b : number) : number :=
  match a, b with
  | NaN, _ | _, NaN => NaN
  | Inf s, Inf t => if Bool.eqb s t then Inf s else NaN
  | Inf s, Fin _ | Fin _, Inf s => Inf s
  | Fin x, Fin y => of_real (x + y)
  end.

Definition neg (a : number) : number :=
  match a with
  | NaN => NaN
  | Inf s => Inf (negb s)
  | Fin x => Fin (- x)
  end.

(** a - b *)
Definition sub (a b : number) : number := add a (neg b).

(** a * b *)
Definition mul (a b : number) : number :=
  match a, b with
  | NaN, _ | _, NaN => NaN
  | Inf s, Inf t => Inf (xorb s t)
  | Inf s, Fin y | Fin y, Inf s =>
      if is_zero y then NaN else Inf (xorb s (Qneg_bool y))
  | Fin x, Fin y => of_real (x * y)
  end.

(** a / b; a zero divisor is read as +0 (the program divides by the
    literal 1_000_000_000 only). *)
Definition div (a b : number) : number :=
  match a, b with
  | NaN, _ | _, NaN => NaN
  | Inf _, Inf _ => NaN
  | Inf s, Fin y => Inf (xorb s (Qneg_bool y))
  | Fin _, Inf _ => Fin 0
  | Fin x, Fin y =>
      if is_zero y then (if is_zero x then NaN else Inf (Qneg_bool x))
      else of_real (x / y)
  end.

(** Integer part of a rational, toward zero. *)
Definition Qtrunc (x : Q) : Z := Z.quot (Qnum x) (Zpos (Qden x)).

(** Math.trunc *)
Definition trunc (a : number) : number :=
  match a with
  | Fin x => Fin (inject_Z (Qtrunc x))
  | _ => a
  end.

(** Math.round: the nearest integer, ties toward +infinity. *)
Definition round (a : number) : number :=
  match a with
  | Fin x => Fin (inject_Z (Qfloor (x + (1 # 2))))
  | _ => a
  end.

(** ToBoolean on a number: 0 and NaN are falsy. *)
Definition truthy (a : number) : bool :=
  match a with
  | NaN => false
  | Inf _ => true
  | Fin x => negb (is_zero x)
  end.

(** [a || 0] on an optional numeric field (undefined when absent). *)
Definition or_zero (a : option number) : number :=
  match a with
  | Some n => if truthy n then n else Fin 0
  | None => Fin 0
  end.

(** The literal 1_000_000_000. *)
Definition billion : number := Fin 1000000000.

(** |a - b| <= tol over the reals; false as soon as a NaN or an infinity
    is involved (no distance is defined then). *)
Definition within (tol : Q) (a b : number) : bool :=
  match a, b with
  | Fin x, Fin y => Qle_bool (Qabs (x - y)) tol
  | _, _ => false
  end.

(** lo <= a <= hi, false for NaN and the infinities. *)
Definition between (lo hi : Q) (a : number) : bool :=
  match a with
  | Fin x => Qle_bool lo x && Qle_bool x hi
  | _ => false
  end.

End Num.

(** ** Quotations (all three variants define the same two helpers) *)

(** The upstream fixed-point price: whole units and billionths.  [nano] is
    optional because [quotationToFloat] reads [quotation.nano || 0]. *)
Record Quotation : Type := mkQuotation {
  units : Num.number;
  nano : option Num.number
}.

(** function quotationToFloat(quotation) {
      if (!quotation) return 0;
      return quotation.units + (quotation.nano || 0) / 1_000_000_000; } *)
Definition quotationToFloat (quotation : option Quotation) : Num.number :=
  match quotation with
  | None => Num.Fin 0
  | Some q => Num.add (units q) (Num.div (Num.or_zero (nano q)) Num.billion)
  end.

(** function floatToQuotation(value) {
      const units = Math.trunc(value);
      const nano = Math.round((value - units) * 1_000_000_000);
      return { units, nano }; } *)
Definition floatToQuotation (value : Num.number) : Quotation :=
  let units := Num.trunc value in
  let nano := Num.round (Num.mul (Num.sub value units) Num.billion) in
  {| units := units; nano := Some nano |}.

(** moneyValueToFloat has the body of quotationToFloat. *)
Definition moneyValueToFloat (moneyValue : option Quotation) : Num.number :=
  match moneyValue with
  | None => Num.Fin 0
  | Some q => Num.add (units q) (Num.div (Num.or_zero (nano q)) Num.billion)
  end.


(* ================================================================== *)
(** * Part II. Values, the host, the upstream API, effects              *)
(* ================================================================== *)

(** ** JSON values, as a request body carries them *)

#[warnings="-register-all"]
Inductive value : Type :=
| VUndefined
| VNull
| VBool (b : bool)
| VNum (n : Num.number)
| VStr (s : string)
| VArr (items : list value)
| VObj (fields : list (string * value)).

(** ToBoolean: what [!x] and [x || y] test. *)
Definition truthy (v : value) : bool :=
  match v with
  | VUndefined | VNull => false
  | VBool b => b
  | VNum n => Num.truthy n
  | VStr s => negb (String.eqb s "")
  | VArr _ | VObj _ => true
  end.

Fixpoint lookup_field (k : string) (fs : list (string * value)) : value :=
  match fs with
  | [] => VUndefined
  | (k', v) :: rest => if String.eqb k k' then v else lookup_field k rest
  end.

(** [v.k] for a value that is neither null nor undefined.  Of the names the
    program reads off a request body (ticker, quantity, price, direction)
    none is a property of a string, number, boolean or array. *)
Definition get_prop (v : value) (k : string) : value :=
  match v with
  | VObj fs => lookup_field k fs
  | _ => VUndefined
  end.

(** [v === 'literal'] *)
Definition is_string (v : value) (literal : string) : bool :=
  match v with
  | VStr s => String.eqb s literal
  | _ => false
  end.

Definition lower_ascii (c : ascii) : ascii :=
  let n := N_of_ascii c in
  if ((65 <=? n) && (n <=? 90))%N then ascii_of_N (n + 32) else c.

(** String.prototype.toLowerCase on the ASCII letters.  That is exact for
    the one use the program makes of it, the comparison with 'buy': no
    other character lower-cases to b, u or y. *)
Fixpoint toLowerCase (s : string) : string :=
  match s with
  | EmptyString => EmptyString
  | String c rest => String (lower_ascii c) (toLowerCase rest)
  end.

(** ** Errors and results *)

Record error : Type := Err { message : string }.

Inductive result (A : Type) : Type :=
| Ok (a : A)
| Throw (e : error).
Arguments Ok {A} a.
Arguments Throw {A} e.

(** ** The upstream API *)

Record Instrument : Type := mkInstrument {
  figi : string;
  ticker_of : string;        (* inst.ticker *)
  instrumentType : string
}.

Record Account : Type := mkAccount {
  id : string;
  type : string
}.

Inductive OrderDirection : Type := ORDER_DIRECTION_BUY | ORDER_DIRECTION_SELL.
Inductive OrderType : Type := ORDER_TYPE_LIMIT.

(** order_${Date.now()}_${Math.random().toString(36).substring(2, n)} kept
    as its three ingredients. *)
Record OrderId : Type := mkOrderId {
  stamp : Z;
  entropy : Num.number;
  last_char : nat
}.

Record Order : Type := mkOrder {
  o_figi : string;
  o_quantity : value;
  o_price : Quotation;
  o_direction : OrderDirection;
  o_accountId : string;
  o_orderType : OrderType;
  o_orderId : OrderId
}.

(** An outbound call: the endpoint with the body sent to it (server.js
    passes the same bodies to the SDK's methods; the constant
    instrumentIdType it adds to a search is left out). *)
Inductive call : Type :=
| FindInstrument (query : value)
| GetOrderBook (figi : string) (depth : Z)
| GetLastPrices (figis : list string)
| GetAccounts
| GetPortfolio (accountId : string)
| PostOrder (order : Order).

(** A parsed reply, by the fields the program reads off it; a field the
    reply does not carry is [None] (undefined). *)
Inductive payload : Type :=
| Instruments (instruments : option (list Instrument))
| OrderBook (lastPrice : option Quotation)
| LastPrices (lastPrices : option (list (option Quotation)))
| Accounts (accounts : option (list Account))
| Portfolio (totalAmountPortfolio : option Quotation) (positions : option (list value))
| PostedOrder (orderId : option string) (executionReportStatus : option string).

Definition instruments_of (p : payload) : option (list Instrument) :=
  match p with Instruments l => l | _ => None end.
Definition lastPrice_of (p : payload) : option Quotation :=
  match p with OrderBook q => q | _ => None end.
Definition lastPrices_of (p : payload) : option (list (option Quotation)) :=
  match p with LastPrices l => l | _ => None end.
Definition accounts_of (p : payload) : option (list Account) :=
  match p with Accounts l => l | _ => None end.
Definition totalAmountPortfolio_of (p : payload) : option Quotation :=
  match p with Portfolio t _ => t | _ => None end.
Definition positions_of (p : payload) : option (list value) :=
  match p with Portfolio _ ps => ps | _ => None end.
Definition orderId_of (p : payload) : option string :=
  match p with PostedOrder i _ => i | _ => None end.
Definition executionReportStatus_of (p : payload) : option string :=
  match p with PostedOrder _ s => s | _ => None end.

(** How a call fails. *)
Inductive failure : Type :=
| NetworkError (message : string)   (* fetch, or the SDK call, rejected *)
| HttpError (status : Z)            (* response.ok is false *)
| DecodeError (message : string).   (* response.json() rejected *)

(** throw new Error(`HTTP error! status: ${response.status}`) for a
    response that is not ok; the runtime's own error otherwise. *)
Definition failure_error (f : failure) : error :=
  match f with
  | NetworkError m => Err m
  | HttpError status => Err ("HTTP error! status: " +:+ pretty status)
  | DecodeError m => Err m
  end.

Inductive reply : Type :=
| Failed (f : failure)
| Replied (p : payload).

Definition exchange : Type := call * reply.

Definition failed (x : exchange) : bool :=
  match snd x with Failed _ => true | Replied _ => false end.

Definition is_order (x : exchange) : bool :=
  match fst x with PostOrder _ => true | _ => false end.

(** What is outside the program: the upstream API, which answers a call
    knowing the exchanges so far and takes some milliseconds to do so, and
    the random source. *)
Record Env : Type := mkEnv {
  upstream : list exchange -> call -> Z * reply;
  random : nat -> Num.number
}.

(** The JavaScript runtime's part in the conversions the program asks for,
    and the two settings the program reads from outside the repository. *)
Record Host : Type := mkHost {
  stringToNumber : string -> Num.number;     (* ToNumber on a string *)
  parseFloatString : string -> Num.number;   (* parseFloat on a string *)
  parseIntString : string -> Num.number;     (* parseInt on a string *)
  toString : value -> string;                (* ToString off the strings *)
  type_error : string -> string;             (* message of the TypeError for an expression *)
  API_TOKEN : option string;                 (* the TINKOFF_API_TOKEN variable *)
  main_account : Account -> bool             (* server.js: the SDK's two account types *)
}.

Section Conversions.
Context (host : Host).

(** `${v}` *)
Definition display (v : value) : string :=
  match v with
  | VStr s => s
  | _ => toString host v
  end.

(** parseInt(v): v is turned into a string and its integer prefix read. *)
Definition parseInt (v : value) : Num.number := parseIntString host (display v).

(** parseFloat(v); on a number the result is the number itself. *)
Definition parseFloat (v : value) : Num.number :=
  match v with
  | VNum n => n
  | _ => parseFloatString host (display v)
  end.

(** ToNumber(v), applied by Math.trunc and by the operator - . *)
Definition toNumber (v : value) : Num.number :=
  match v with
  | VUndefined => Num.NaN
  | VNull => Num.Fin 0
  | VBool b => if b then Num.Fin 1 else Num.Fin 0
  | VNum n => n
  | VStr s => stringToNumber host s
  | VArr _ | VObj _ => stringToNumber host (toString host v)
  end.

(** !!API_TOKEN *)
Definition hasToken : bool :=
  match API_TOKEN host with
  | Some t => negb (String.eqb t "")
  | None => false
  end.

End Conversions.

(** ** What the server answers *)

Record PriceData : Type := mkPriceData {
  price : Num.number;
  timestamp : Z;
  price_figi : option string;
  price_ticker : option string;
  isMock : bool
}.

Inductive data : Type :=
| DPrice (p : PriceData)
| DRaw (p : payload)
| DPortfolio (totalAmount : Num.number) (positions : list value) (mock : bool)
| DOrder (orderId : option string) (status : option string) (message : string)
| DStatus (status : string) (timestamp : Z) (hasToken : bool)
    (message error accountId : option string).

Inductive body : Type :=
| NoBody
| Envelope (success : bool) (d : option data) (error : option string)
| Health (timestamp : Z).

Record response : Type := mkResponse {
  status : Z;
  content : body
}.

Definition success_of (r : response) : option bool :=
  match content r with Envelope s _ _ => Some s | _ => None end.
Definition data_of (r : response) : option data :=
  match content r with Envelope _ d _ => d | _ => None end.
Definition error_of (r : response) : option string :=
  match content r with Envelope _ _ e => e | _ => None end.
Definition price_of (r : response) : option PriceData :=
  match data_of r with Some (DPrice p) => Some p | _ => None end.

(** new Response(JSON.stringify({ success: true, data }), { headers }) *)
Definition json_ok (d : data) : response :=
  {| status := 200; content := Envelope true (Some d) None |}.
(** { success: false, error } with a status *)
Definition json_error (code : Z) (msg : string) : response :=
  {| status := code; content := Envelope false None (Some msg) |}.

(** ** A request, as the handlers read it *)

Inductive Body : Type :=
| Parsed (v : value)               (* request.json() resolved *)
| Unparsable (message : string).   (* request.json() rejected *)

Record Request : Type := mkRequest {
  method : string;
  path : string;
  ticker_param : option string;    (* url.searchParams.get('ticker') *)
  json : Body
}.

(** ** State and effects *)

(** The clock, the outbound traffic so far, the random numbers drawn so
    far, and the caches of the variant. *)
Record World (C : Type) : Type := mkWorld {
  now : Z;
  sent : list exchange;
  draws : nat;
  cache : C
}.
Arguments mkWorld {C} now sent draws cache.
Arguments now {C} w.
Arguments sent {C} w.
Arguments draws {C} w.
Arguments cache {C} w.

Definition M (C A : Type) : Type := World C -> result A * World C.

Section Effects.
Context {C : Type}.

Definition ret {A} (a : A) : M C A := fun w => (Ok a, w).

Definition bind {A B} (m : M C A) (k : A -> M C B) : M C B :=
  fun w =>
    match m w with
    | (Ok a, w') => k a w'
    | (Throw e, w') => (Throw e, w')
    end.

Definition throw {A} (e : error) : M C A := fun w => (Throw e, w).

(** try { m } catch (error) { h error } *)
Definition try_catch {A} (m : M C A) (h : error -> M C A) : M C A :=
  fun w =>
    match m w with
    | (Ok a, w') => (Ok a, w')
    | (Throw e, w') => h e w'
    end.

(** Date.now() *)
Definition date_now : M C Z := fun w => (Ok (now w), w).

Definition get_cache : M C C := fun w => (Ok (cache w), w).

Definition modify_cache (f : C -> C) : M C unit :=
  fun w => (Ok tt, mkWorld (now w) (sent w) (draws w) (f (cache w))).

Context (env : Env).

(** Math.random() *)
Definition math_random : M C Num.number :=
  fun w => (Ok (random env (draws w)), mkWorld (now w) (sent w) (S (draws w)) (cache w)).

(** One call to the upstream API: it is recorded with its reply, the clock
    advances by the time it took, and a failure is thrown. *)
Definition remote (c : call) : M C payload :=
  fun w =>
    let '(latency, r) := upstream env (sent w) c in
    let w' := mkWorld (now w + latency) (sent w ++ [(c, r)]) (draws w) (cache w) in
    match r with
    | Replied p => (Ok p, w')
    | Failed f => (Throw (failure_error f), w')
    end.

End Effects.

Notation "'await' x <- m ; k" := (bind m (fun x => k))
  (at level 10, x name, m at level 100, k at level 200).
Notation "'await' ' p <- m ; k" := (bind m (fun x => match x with p => k end))
  (at level 10, p pattern, m at level 100, k at level 200).
Notation "'run' m ; k" := (bind m (fun _ => k))
  (at level 10, m at level 100, k at level 200).

(** The clock moved to [t] between two requests. *)
Definition at_time {C} (t : Z) (w : World C) : World C :=
  mkWorld t (sent w) (draws w) (cache w).

(** null and undefined: the two values no property can be read off. *)
Definition nullish (v : value) : bool :=
  match v with
  | VUndefined | VNull => true
  | _ => false
  end.

(** const { ticker, quantity, price, direction } = body; *)
Definition destructure {C} (host : Host) (body : value)
  : M C (value * value * value * value) :=
  if nullish body then throw (Err (type_error host "body"))
  else ret (get_prop body "ticker", get_prop body "quantity",
            get_prop body "price", get_prop body "direction").

(** await request.json() *)
Definition request_json {C} (request : Request) : M C value :=
  match json request with
  | Parsed v => ret v
  | Unparsable m => throw (Err m)
  end.

(** url.searchParams.get('ticker') || 'SBER' *)
Definition ticker_or_SBER (request : Request) : string :=
  match ticker_param request with
  | Some t => if String.eqb t "" then "SBER" else t
  | None => "SBER"
  end.

(* ================================================================== *)
(** * Part III. The three servers                                       *)
(* ================================================================== *)

(** ** src/main.js *)

Module MainJs.

(** let cache = { prices: {}, portfolio: null, lastUpdate: 0 };
    [prices] is an object used as a map from ticker to price data.  The
    model reads a ticker with no entry as undefined.  That leaves out the
    tickers that name a member of Object.prototype (constructor, toString,
    ...): for these, with no entry of their own, cache.prices[ticker] is
    the inherited function, and within the 5000 ms window main.js answers
    with it (200, success true, and no data once serialised) and asks
    nothing.  None of the properties below depends on what such a request
    is answered. *)
Record Cache : Type := mkCache {
  prices : gmap string PriceData;
  portfolio : option payload;
  lastUpdate : Z
}.

Definition initial : Cache :=
  {| prices := ∅; portfolio := None; lastUpdate := 0 |}.

Section Server.
Context (host : Host) (env : Env).

(** async function tinkoffRequest(endpoint, body = {}): one POST; a
    response that is not ok, a rejected fetch and an unreadable body are
    logged and thrown again. *)
Definition tinkoffRequest (endpoint : call) : M Cache payload :=
  try_catch (remote env endpoint) (fun error => throw error).

(** async function getCurrentPrice(ticker = 'SBER') *)
Definition getCurrentPrice (ticker : string) : M Cache PriceData :=
  try_catch
    (await now <- date_now ;
     await c <- get_cache ;
     match (if now - lastUpdate c <? 5000 then prices c !! ticker else None) with
     | Some cached => ret cached
     | None =>
       await searchResult <- tinkoffRequest (FindInstrument (VStr ticker)) ;
       match instruments_of searchResult with
       | None | Some [] => throw (Err ("Instrument not found: " +:+ ticker))
       | Some (instrument :: _) =>
         let figi := figi instrument in
         await orderbook <- tinkoffRequest (GetOrderBook figi 1) ;
         let priceData :=
           {| price := quotationToFloat (lastPrice_of orderbook);
              price_figi := Some figi;
              price_ticker := Some ticker;
              timestamp := now;
              isMock := false |} in
         run modify_cache (fun c =>
               {| prices := <[ticker := priceData]> (prices c);
                  portfolio := portfolio c;
                  lastUpdate := now |}) ;
         ret priceData
       end
     end)
    (fun error =>
       await r <- math_random env ;
       await t <- date_now ;
       ret {| price := Num.add (Num.Fin 190) (Num.mul r (Num.Fin 2));
              price_ticker := Some ticker;
              timestamp := t;
              isMock := true;
              price_figi := None |}).

(** async function getPortfolio() *)
Definition getPortfolio : M Cache payload :=
  try_catch
    (await accounts <- tinkoffRequest GetAccounts ;
     match accounts_of accounts with
     | None | Some [] => throw (Err "No accounts found")
     | Some (account :: _) =>
       let accountId := id account in
       await portfolio <- tinkoffRequest (GetPortfolio accountId) ;
       ret portfolio
     end)
    (fun error =>
       ret (Portfolio (Some {| units := Num.Fin 0; nano := Some (Num.Fin 0) |}) (Some []))).

(** async function placeLimitOrder(ticker, quantity, price, direction) *)
Definition placeLimitOrder (ticker quantity price direction : value) : M Cache payload :=
  try_catch
    (await searchResult <- tinkoffRequest (FindInstrument ticker) ;
     match instruments_of searchResult with
     | None | Some [] => throw (Err ("Instrument not found: " +:+ display host ticker))
     | Some (instrument :: _) =>
       let figi := figi instrument in
       await accounts <- tinkoffRequest GetAccounts ;
       match accounts_of accounts with
       | None => throw (Err (type_error host "accounts.accounts[0]"))
       | Some [] => throw (Err (type_error host "accounts.accounts[0].id"))
       | Some (account :: _) =>
         let accountId := id account in
         await t <- date_now ;
         await r <- math_random env ;
         await orderResult <- tinkoffRequest (PostOrder
           {| o_figi := figi;
              o_quantity := VNum (parseInt host quantity);
              o_price := floatToQuotation (parseFloat host price);
              o_direction := if is_string direction "buy"
                             then ORDER_DIRECTION_BUY else ORDER_DIRECTION_SELL;
              o_accountId := accountId;
              o_orderType := ORDER_TYPE_LIMIT;
              o_orderId := mkOrderId t r 9 |}) ;
         ret orderResult
       end
     end)
    (fun error => throw error).

(** async function handler(request) *)
Definition handler (request : Request) : M Cache response :=
  if String.eqb (method request) "OPTIONS" then
    ret {| status := 200; content := NoBody |}
  else
    try_catch
      (if String.eqb (path request) "/api/price" && String.eqb (method request) "GET" then
         let ticker := ticker_or_SBER request in
         await priceData <- getCurrentPrice ticker ;
         ret (json_ok (DPrice priceData))
       else if String.eqb (path request) "/api/portfolio" && String.eqb (method request) "GET" then
         await portfolio <- getPortfolio ;
         ret (json_ok (DRaw portfolio))
       else if String.eqb (path request) "/api/order/limit" && String.eqb (method request) "POST" then
         await body <- request_json request ;
         await '(ticker, quantity, price, direction) <- destructure host body ;
         if negb (truthy ticker) || negb (truthy quantity)
            || negb (truthy price) || negb (truthy direction) then
           ret (json_error 400 "Missing required fields: ticker, quantity, price, direction")
         else
           await result <- placeLimitOrder ticker quantity price direction ;
           ret (json_ok (DRaw result))
       else if String.eqb (path request) "/api/status" && String.eqb (method request) "GET" then
         await t <- date_now ;
         ret (json_ok (DStatus "online" t (hasToken host)
                    (Some "Tinkoff API server is running") None None))
       else if String.eqb (path request) "/health" && String.eqb (method request) "GET" then
         await t <- date_now ;
         ret {| status := 200; content := Health t |}
       else
         ret (json_error 404 "Route not found"))
      (fun error => ret (json_error 500 (message error))).

End Server.
End MainJs.

(** ** The two variants that keep per-ticker maps *)

(** let cachedAccountId = null; const tickerFigiMap = new Map();
    const priceCache = new Map();
    Every key that reaches [tickerFigiMap] is a string: an entry is stored
    only for a ticker that is === to the ticker of an upstream instrument. *)
Record Maps : Type := mkMaps {
  cachedAccountId : option string;
  tickerFigiMap : gmap string string;
  priceCache : gmap string PriceData
}.

Definition no_maps : Maps :=
  {| cachedAccountId := None; tickerFigiMap := ∅; priceCache := ∅ |}.

(** tickerFigiMap.get(ticker), undefined when tickerFigiMap.has(ticker) is false *)
Definition figi_get (ticker : value) (m : Maps) : option string :=
  match ticker with
  | VStr t => tickerFigiMap m !! t
  | _ => None
  end.

(** tickerFigiMap.set(ticker, figi) *)
Definition figi_set (ticker : value) (figi : string) (m : Maps) : Maps :=
  match ticker with
  | VStr t =>
      {| cachedAccountId := cachedAccountId m;
         tickerFigiMap := <[t := figi]> (tickerFigiMap m);
         priceCache := priceCache m |}
  | _ => m
  end.

(** cachedAccountId = id *)
Definition account_set (accountId : string) (m : Maps) : Maps :=
  {| cachedAccountId := Some accountId;
     tickerFigiMap := tickerFigiMap m;
     priceCache := priceCache m |}.

(** priceCache.set(ticker, priceData) *)
Definition price_set (ticker : string) (priceData : PriceData) (m : Maps) : Maps :=
  {| cachedAccountId := cachedAccountId m;
     tickerFigiMap := tickerFigiMap m;
     priceCache := <[ticker := priceData]> (priceCache m) |}.

(** if (cachedAccountId): null, undefined and the empty string are falsy *)
Definition cached_account (m : Maps) : option string :=
  match cachedAccountId m with
  | Some a => if String.eqb a "" then None else Some a
  | None => None
  end.

Definition CACHE_TTL_MS : Z := 5000.

(** cachedPrice && Date.now() - cachedPrice.timestamp < CACHE_TTL_MS *)
Definition fresh (now : Z) (ticker : string) (m : Maps) : option PriceData :=
  match priceCache m !! ticker with
  | Some cachedPrice =>
      if now - timestamp cachedPrice <? CACHE_TTL_MS then Some cachedPrice else None
  | None => None
  end.

(** ** src/unnamed/part_000 *)

Module Part000.

Section Server.
Context (host : Host) (env : Env).

Definition tinkoffRequest (endpoint : call) : M Maps payload :=
  try_catch (remote env endpoint) (fun error => throw error).

(** function generateOrderId() *)
Definition generateOrderId : M Maps OrderId :=
  await t <- date_now ;
  await r <- math_random env ;
  ret (mkOrderId t r 11).

(** async function getFigiForTicker(ticker) *)
Definition getFigiForTicker (ticker : value) : M Maps string :=
  await m <- get_cache ;
  match figi_get ticker m with
  | Some figi => ret figi
  | None =>
    try_catch
      (await reply <- tinkoffRequest (FindInstrument ticker) ;
       match instruments_of reply with
       | None => throw (Err (type_error host "instruments.find"))
       | Some instruments =>
         match List.find (fun inst => is_string ticker (ticker_of inst)) instruments with
         | None => throw (Err ("Instrument not found for ticker: " +:+ display host ticker))
         | Some instrument =>
           run modify_cache (figi_set ticker (figi instrument)) ;
           ret (figi instrument)
         end
       end)
      (fun error => throw error)
  end.

(** async function getAccountId() *)
Definition getAccountId : M Maps string :=
  await m <- get_cache ;
  match cached_account m with
  | Some accountId => ret accountId
  | None =>
    try_catch
      (await reply <- tinkoffRequest GetAccounts ;
       match accounts_of reply with
       | None | Some [] => throw (Err "No accounts found")
       | Some (account :: _) =>
         run modify_cache (account_set (id account)) ;
         ret (id account)
       end)
      (fun error => throw error)
  end.

(** GET /api/price?ticker=SBER *)
Definition get_price (request : Request) : M Maps response :=
  let ticker := ticker_or_SBER request in
  await t0 <- date_now ;
  await m <- get_cache ;
  match fresh t0 ticker m with
  | Some cachedPrice => ret (json_ok (DPrice cachedPrice))
  | None =>
    try_catch
      (await figi <- getFigiForTicker (VStr ticker) ;
       await orderbook <- tinkoffRequest (GetOrderBook figi 1) ;
       await t <- date_now ;
       let priceData :=
         {| price := quotationToFloat (lastPrice_of orderbook);
            timestamp := t;
            price_figi := Some figi;
            price_ticker := Some ticker;
            isMock := false |} in
       run modify_cache (price_set ticker priceData) ;
       ret (json_ok (DPrice priceData)))
      (fun error =>
         await r <- math_random env ;
         await t <- date_now ;
         let mockPrice :=
           {| price := Num.add (Num.Fin 190) (Num.mul r (Num.Fin 2));
              timestamp := t;
              price_ticker := Some ticker;
              isMock := true;
              price_figi := None |} in
         ret (json_ok (DPrice mockPrice)))
  end.

(** GET /api/portfolio *)
Definition get_portfolio : M Maps response :=
  try_catch
    (await accountId <- getAccountId ;
     await portfolio <- tinkoffRequest (GetPortfolio accountId) ;
     ret (json_ok (DPortfolio (moneyValueToFloat (totalAmountPortfolio_of portfolio))
                (match positions_of portfolio with Some ps => ps | None => [] end)
                false)))
    (fun error => ret (json_ok (DPortfolio (Num.Fin 0) [] true))).

(** direction.toLowerCase() === 'buy' ? 'ORDER_DIRECTION_BUY' : 'ORDER_DIRECTION_SELL';
    only a string has the method. *)
Definition order_direction (direction : value) : M Maps OrderDirection :=
  match direction with
  | VStr d =>
      ret (if String.eqb (toLowerCase d) "buy"
           then ORDER_DIRECTION_BUY else ORDER_DIRECTION_SELL)
  | _ => throw (Err (type_error host "direction.toLowerCase"))
  end.

(** POST /api/order/limit *)
Definition post_order_limit (request : Request) : M Maps response :=
  try_catch
    (await body <- request_json request ;
     await '(ticker, quantity, price, direction) <- destructure host body ;
     if negb (truthy ticker) || negb (truthy quantity)
        || negb (truthy price) || negb (truthy direction) then
       ret (json_error 400 "Missing required fields: ticker, quantity, price, direction")
     else
       await figi <- getFigiForTicker ticker ;
       await accountId <- getAccountId ;
       let quantity' := VNum (parseInt host quantity) in
       let price' := floatToQuotation (parseFloat host price) in
       await direction' <- order_direction direction ;
       await orderId <- generateOrderId ;
       await orderResponse <- tinkoffRequest (PostOrder
         {| o_figi := figi;
            o_quantity := quantity';
            o_price := price';
            o_direction := direction';
            o_accountId := accountId;
            o_orderType := ORDER_TYPE_LIMIT;
            o_orderId := orderId |}) ;
       ret (json_ok (DOrder (orderId_of orderResponse)
                  (executionReportStatus_of orderResponse)
                  "Order placed successfully")))
    (fun error => ret (json_error 500 (message error))).

(** GET /api/status *)
Definition get_status : M Maps response :=
  try_catch
    (run getAccountId ;
     await t <- date_now ;
     ret (json_ok (DStatus "online" t (hasToken host)
                (Some "Tinkoff API connected successfully") None None)))
    (fun error =>
       await t <- date_now ;
       ret (json_ok (DStatus "limited" t (hasToken host)
                  (Some "API available in limited mode") (Some (message error)) None))).

(** async function handler(request) *)
Definition handler (request : Request) : M Maps response :=
  if String.eqb (method request) "OPTIONS" then
    ret {| status := 200; content := NoBody |}
  else
    try_catch
      (if String.eqb (path request) "/api/price" && String.eqb (method request) "GET" then
         get_price request
       else if String.eqb (path request) "/api/portfolio" && String.eqb (method request) "GET" then
         get_portfolio
       else if String.eqb (path request) "/api/order/limit" && String.eqb (method request) "POST" then
         post_order_limit request
       else if String.eqb (path request) "/api/status" && String.eqb (method request) "GET" then
         get_status
       else if String.eqb (path request) "/health" && String.eqb (method request) "GET" then
         await t <- date_now ;
         ret {| status := 200; content := Health t |}
       else
         ret (json_error 404 "Route not found"))
      (fun error => ret (json_error 500 (message error))).

End Server.
End Part000.

(** ** src/unnamed/part_001 (server.js)

    Express dispatches on method and path, so each route is a function of
    its own; the calls go through the SDK, which resolves with the reply or
    rejects with an error.  The portfolio route (one SDK call per position,
    in parallel) is not part of the model. *)

Module ServerJs.

Section Server.
Context (host : Host) (env : Env).

(** api.<service>.<method>(...) *)
Definition api (c : call) : M Maps payload := remote env c.

Definition generateOrderId : M Maps OrderId :=
  await t <- date_now ;
  await r <- math_random env ;
  ret (mkOrderId t r 11).

(** async function getFigiForTicker(ticker) *)
Definition getFigiForTicker (ticker : value) : M Maps string :=
  await m <- get_cache ;
  match figi_get ticker m with
  | Some figi => ret figi
  | None =>
    try_catch
      (await reply <- api (FindInstrument ticker) ;
       match instruments_of reply with
       | None => throw (Err (type_error host "instruments.find"))
       | Some instruments =>
         match List.find (fun inst => is_string ticker (ticker_of inst)
                                      && String.eqb (instrumentType inst) "etf")
                         instruments with
         | None => throw (Err ("FIGI not found for ticker: " +:+ display host ticker))
         | Some instrument =>
           run modify_cache (figi_set ticker (figi instrument)) ;
           ret (figi instrument)
         end
       end)
      (fun error => throw error)
  end.

(** async function getAccountId() *)
Definition getAccountId : M Maps string :=
  await m <- get_cache ;
  match cached_account m with
  | Some accountId => ret accountId
  | None =>
    try_catch
      (await reply <- api GetAccounts ;
       match accounts_of reply with
       | None => throw (Err (type_error host "accounts.find"))
       | Some accounts =>
         match List.find (main_account host) accounts with
         | None => throw (Err "No suitable investment account found.")
         | Some mainAccount =>
           run modify_cache (account_set (id mainAccount)) ;
           ret (id mainAccount)
         end
       end)
      (fun error => throw error)
  end.

(** app.get('/api/price', ...); [ticker] is req.query.ticker *)
Definition get_price (ticker : option string) : M Maps response :=
  match ticker with
  | None => ret (json_error 400 "Missing 'ticker' parameter")
  | Some ticker =>
    if String.eqb ticker "" then ret (json_error 400 "Missing 'ticker' parameter")
    else
      await t0 <- date_now ;
      await m <- get_cache ;
      match fresh t0 ticker m with
      | Some cachedPrice => ret (json_ok (DPrice cachedPrice))
      | None =>
        try_catch
          (await figi <- getFigiForTicker (VStr ticker) ;
           await reply <- api (GetLastPrices [figi]) ;
           match lastPrices_of reply with
           | None | Some [] => throw (Err ("No price data for " +:+ ticker))
           | Some (first :: _) =>
             let price := quotationToFloat first in
             await t <- date_now ;
             let result :=
               {| price := price; timestamp := t;
                  price_figi := None; price_ticker := None; isMock := false |} in
             run modify_cache (price_set ticker result) ;
             ret (json_ok (DPrice result))
           end)
          (fun error => ret (json_error 500 (message error)))
      end
  end.

(** app.post('/api/order/limit', ...); [body] is req.body *)
Definition post_order_limit (body : value) : M Maps response :=
  try_catch
    (await '(ticker, quantity, price, direction) <- destructure host body ;
     if negb (truthy ticker) || negb (truthy quantity)
        || negb (truthy price) || negb (truthy direction) then
       ret (json_error 400 "Missing required fields")
     else
       await figi <- getFigiForTicker ticker ;
       await accountId <- getAccountId ;
       let orderDir := if is_string direction "buy"
                       then ORDER_DIRECTION_BUY else ORDER_DIRECTION_SELL in
       await orderId <- generateOrderId ;
       await reply <- api (PostOrder
         {| o_figi := figi;
            o_quantity := quantity;
            o_price := floatToQuotation (toNumber host price);
            o_direction := orderDir;
            o_accountId := accountId;
            o_orderType := ORDER_TYPE_LIMIT;
            o_orderId := orderId |}) ;
       ret (json_ok (DOrder (orderId_of reply) (executionReportStatus_of reply)
                  "Order placed successfully")))
    (fun error => ret (json_error 500 (message error))).

(** app.get('/api/status', ...) *)
Definition get_status : M Maps response :=
  try_catch
    (await accountId <- getAccountId ;
     await t <- date_now ;
     ret (json_ok (DStatus "online" t (hasToken host) None None (Some accountId))))
    (fun error => ret (json_error 500 (message error))).

End Server.
End ServerJs.

(* ================================================================== *)
(** * Part IV. Vocabulary of the properties                             *)
(* ================================================================== *)

(** ** Numbers *)

(** Math.random() returns a number of [0, 1). *)
Definition in_unit_interval (n : Num.number) : bool :=
  match n with
  | Num.Fin r => Qle_bool 0 r && negb (Qle_bool 1 r)
  | _ => false
  end.

Definition unit_random (env : Env) : Prop :=
  forall n, in_unit_interval (random env n) = true.

(** What the conversion to nano and back can lose: half a nano, plus the
    rounding of the product (2^-24 of a nano) and of the quotient (2^-54). *)
Definition delta : Q :=
  ((1 # 2000000000) + (1 # 16777216) * (1 # 1000000000) + (1 # 18014398509481984))%Q.

(** The number a binary64 of the machine denotes, to compare the model of
    the arithmetic with the processor's. *)
Definition hardware (f : float) : Num.number :=
  match Prim2SF f with
  | S754_zero _ => Num.Fin 0
  | S754_infinity s => Num.Inf s
  | S754_nan => Num.NaN
  | S754_finite s m e =>
      Num.Fin (Qred ((if s then -1 else 1) * inject_Z (Zpos m) * Num.pow2 e))
  end.

(** The literal 0.9999999996. *)
Definition just_below_one : Num.number := Num.of_real (9999999996 # 10000000000).

(** ** Requests *)

Definition order_request (tp : option string) (body : value) : Request :=
  mkRequest "POST" "/api/order/limit" tp (Parsed body).

Definition price_request (tp : option string) (b : Body) : Request :=
  mkRequest "GET" "/api/price" tp b.

Definition status_request (tp : option string) (b : Body) : Request :=
  mkRequest "GET" "/api/status" tp b.

(** One of the four fields is not in the body. *)
Definition missing (body : value) : Prop :=
  get_prop body "ticker" = VUndefined \/ get_prop body "quantity" = VUndefined \/
  get_prop body "price" = VUndefined \/ get_prop body "direction" = VUndefined.

(** !ticker || !quantity || !price || !direction *)
Definition rejected (body : value) : bool :=
  negb (truthy (get_prop body "ticker")) || negb (truthy (get_prop body "quantity"))
  || negb (truthy (get_prop body "price")) || negb (truthy (get_prop body "direction")).

(** The number 0. *)
Definition is_zero_number (v : value) : bool :=
  match v with
  | VNum (Num.Fin q) => Qeq_bool q 0
  | _ => false
  end.

(** quantity is 0, price is 0, or ticker is the empty string. *)
Definition falsy_field (body : value) : Prop :=
  is_zero_number (get_prop body "quantity") = true \/
  is_zero_number (get_prop body "price") = true \/
  get_prop body "ticker" = VStr "".

(** ** Outbound traffic *)

(** The exchanges a handler added to the traffic. *)
Definition issued {C} (w w' : World C) : list exchange :=
  drop (length (sent w)) (sent w').

Definition last_issued {C} (w w' : World C) : option exchange :=
  List.last (List.map Some (issued w w')) None.

Definition is_price_call (x : exchange) : bool :=
  match fst x with
  | GetOrderBook _ _ | GetLastPrices _ => true
  | _ => false
  end.

(** FindInstrument for a ticker given as a string. *)
Definition search (t : string) : call := FindInstrument (VStr t).

Definition sells (x : exchange) : bool :=
  match fst x with
  | PostOrder o =>
      match o_direction o with
      | ORDER_DIRECTION_SELL => true
      | ORDER_DIRECTION_BUY => false
      end
  | _ => true
  end.


(** The runtime's own failures come with a text. *)
Definition says_why (env : Env) : Prop :=
  forall h c,
    match snd (upstream env h c) with
    | Failed (NetworkError m) | Failed (DecodeError m) => m <> ""
    | _ => True
    end.

(** ** Outcomes *)

Definition succeeded {C A} (r : result A * World C) : bool :=
  match fst r with
  | Ok _ => true
  | Throw _ => false
  end.

Definition respond {C A} (r : result A * World C) : option A :=
  match fst r with
  | Ok a => Some a
  | Throw _ => None
  end.

Definition calls {C A} (r : result A * World C) : list call :=
  List.map fst (sent (snd r)).

Definition status_field (r : response) : option string :=
  match data_of r with
  | Some (DStatus s _ _ _ _ _) => Some s
  | _ => None
  end.

Definition is_mock_in_range (p : PriceData) : Prop :=
  isMock p = true /\ Num.between 190 192 (price p) = true.

(** { orderId, status, message: "Order placed successfully" } *)
Definition placed (p : payload) : data :=
  DOrder (orderId_of p) (executionReportStatus_of p) "Order placed successfully".

(** ** A runtime and two upstreams for the closed examples *)

(** None of the examples depends on what the string conversions return. *)
Definition runtime : Host :=
  {| stringToNumber := fun _ => Num.NaN;
     parseFloatString := fun _ => Num.NaN;
     parseIntString := fun _ => Num.NaN;
     toString := fun _ => "[object Object]";
     type_error := fun e => e +:+ " is not defined on this value";
     API_TOKEN := Some "t.secret";
     main_account := fun _ => true |}.

Definition quote : Quotation := mkQuotation (Num.Fin 271) (Some (Num.Fin 500000000)).

(** An upstream that answers every call after 40 ms. *)
Definition broker : Env :=
  {| upstream := fun _ c =>
       (40, Replied
              match c with
              | FindInstrument q =>
                  Instruments (Some [mkInstrument "BBG004730N88" (display runtime q) "etf"])
              | GetOrderBook _ _ => OrderBook (Some quote)
              | GetLastPrices _ => LastPrices (Some [Some quote])
              | GetAccounts => Accounts (Some [mkAccount "2000000001" "ACCOUNT_TYPE_TINKOFF"])
              | GetPortfolio _ => Portfolio (Some quote) (Some [])
              | PostOrder _ => PostedOrder (Some "R-1") (Some "EXECUTION_REPORT_STATUS_NEW")
              end);
     random := fun _ => Num.Fin (1 # 2) |}.

(** An upstream that cannot be reached. *)
Definition offline : Env :=
  {| upstream := fun _ _ => (40, Failed (NetworkError "connection refused"));
     random := fun _ => Num.Fin (1 # 2) |}.

Definition no_body : Body := Unparsable "Unexpected end of JSON input".

Definition start {C} (caches : C) : World C := mkWorld 1000000 [] 0 caches.

(** { ticker: "SBER", quantity: 10, price: 271.5, direction } *)
Definition order_body (direction : value) : value :=
  VObj [("ticker", VStr "SBER"); ("quantity", VNum (Num.Fin 10));
        ("price", VNum (Num.Fin (543 # 2))); ("direction", direction)].

(** main.js asked for SBER at 1 000 000 ms, for GAZP six seconds later and
    for SBER again one second after that; the same for part_000. *)
Definition main_first : result response * World MainJs.Cache :=
  MainJs.handler runtime broker (price_request (Some "SBER") no_body) (start MainJs.initial).
Definition main_second : result response * World MainJs.Cache :=
  MainJs.handler runtime broker (price_request (Some "GAZP") no_body)
    (at_time 1006000 (snd main_first)).
Definition main_third : result response * World MainJs.Cache :=
  MainJs.handler runtime broker (price_request (Some "SBER") no_body)
    (at_time 1007000 (snd main_second)).

Definition part000_first : result response * World Maps :=
  Part000.handler runtime broker (price_request (Some "SBER") no_body) (start no_maps).
Definition part000_second : result response * World Maps :=
  Part000.handler runtime broker (price_request (Some "GAZP") no_body)
    (at_time 1006000 (snd part000_first)).
Definition part000_third : result response * World Maps :=
  Part000.handler runtime broker (price_request (Some "SBER") no_body)
    (at_time 1007000 (snd part000_second)).

(** ** Vocabulary of the further properties *)

Definition portfolio_request (tp : option string) (b : Body) : Request :=
  mkRequest "GET" "/api/portfolio" tp b.

(** path === '/api/order/limit' && request.method === 'POST' *)
Definition is_order_route (request : Request) : bool :=
  String.eqb (path request) "/api/order/limit" && String.eqb (method request) "POST".

(** An exchange that satisfies [p] is the last of the list: there is one
    at most, and nothing follows it. *)
Fixpoint only_last (p : exchange -> bool) (l : list exchange) : bool :=
  match l with
  | [] => true
  | x :: rest =>
      if p x then match rest with [] => true | _ :: _ => false end
      else only_last p rest
  end.

Definition buys (x : exchange) : bool :=
  match fst x with
  | PostOrder o =>
      match o_direction o with
      | ORDER_DIRECTION_BUY => true
      | ORDER_DIRECTION_SELL => false
      end
  | _ => true
  end.

(** The traffic of the handler ends with a BUY order. *)
Definition bought {C} (w w' : World C) : Prop :=
  exists o r, last_issued w w' = Some (PostOrder o, r) /\
              o_direction o = ORDER_DIRECTION_BUY.

(** The statuses the servers answer with. *)
Definition known_status (s : Z) : bool :=
  (s =? 200) || (s =? 400) || (s =? 404) || (s =? 500).

(** { totalAmountPortfolio: { units: 0, nano: 0 }, positions: [] } *)
Definition empty_portfolio : payload :=
  Portfolio (Some (mkQuotation (Num.Fin 0) (Some (Num.Fin 0)))) (Some []).

(** An upstream on which the account has the empty string for id. *)
Definition nameless : Env :=
  {| upstream := fun _ _ => (40, Replied (Accounts (Some [mkAccount "" "ACCOUNT_TYPE_TINKOFF"])));
     random := fun _ => Num.Fin (1 # 2) |}.

(** An order among the exchange, if it is one, carries the price [q]. *)
Definition priced (q : Quotation) (x : exchange) : Prop :=
  forall o, fst x = PostOrder o -> o_price o = q.

(** The maps after SBER and the account were resolved. *)
Definition warm : Maps :=
  {| cachedAccountId := Some "2000000001";
     tickerFigiMap := <["SBER" := "BBG004730N88"]> ∅;
     priceCache := ∅ |}.

(** An upstream that knows no instrument and no account. *)
Definition vacant : Env :=
  {| upstream := fun _ c =>
       (40, Replied match c with
                    | FindInstrument _ => Instruments (Some [])
                    | _ => Accounts (Some [])
                    end);
     random := fun _ => Num.Fin (1 # 2) |}.

(** An upstream that knows the instruments and has no account. *)
Definition accountless : Env :=
  {| upstream := fun h c =>
       match c with
       | GetAccounts => (40, Replied (Accounts (Some [])))
       | _ => upstream broker h c
       end;
     random := fun _ => Num.Fin (1 # 2) |}.


(** The prices of the orders among the exchanges, in order. *)
Definition prices_sent (l : list exchange) : list Quotation :=
  flat_map (fun x => match fst x with
                     | PostOrder o => [o_price o]
                     | _ => []
                     end) l.

(** The literal 1e-10. *)
Definition tenth_of_a_nano : Num.number := Num.of_real (1 # 10000000000).

(** { ticker: "SBER", quantity: 10, price, direction: "buy" } *)
Definition order_priced (price : value) : value :=
  VObj [("ticker", VStr "SBER"); ("quantity", VNum (Num.Fin 10));
        ("price", price); ("direction", VStr "buy")].

(* ================================================================== *)
(** * Part V. Properties                                                *)
(* ================================================================== *)

(** ** The arithmetic *)

Section NumberFacts.
Import Num.
Local Open Scope Q_scope.

Ltac hide_pow2 :=
  repeat match goal with
  | |- context [pow2 ?e] => let P := fresh "P" in set (P := pow2 e) in *; clearbody P
  | H : context [pow2 ?e] |- _ => let P := fresh "P" in set (P := pow2 e) in *; clearbody P
  end.

Lemma inj_le a b : (a <= b)%Z -> inject_Z a <= inject_Z b.
Proof. intros H. rewrite <- Zle_Qle. exact H. Qed.

Lemma inj_lt a b : (a < b)%Z -> inject_Z a < inject_Z b.
Proof. intros H. rewrite <- Zlt_Qlt. exact H. Qed.

Lemma inject_Z_lt1 a b : inject_Z a - inject_Z b < 1 -> (a <= b)%Z.
Proof.
  intros H. assert (L : inject_Z a < inject_Z (b + 1)).
  { rewrite inject_Z_plus. change (inject_Z 1) with 1. lra. }
  rewrite <- Zlt_Qlt in L. lia.
Qed.

(** *** Powers of two *)

Lemma pow2_pos e : 0 < pow2 e.
Proof. apply Qpower_0_lt. reflexivity. Qed.

Lemma pow2_add a b : pow2 (a + b) == pow2 a * pow2 b.
Proof. apply Qpower_plus. discriminate. Qed.

Lemma pow2_le a b : (a <= b)%Z -> pow2 a <= pow2 b.
Proof. intros H. apply Qpower_le_compat_l; [exact H | discriminate]. Qed.

Lemma pow2_lt a b : (a < b)%Z -> pow2 a < pow2 b.
Proof. intros H. apply Qpower_lt_compat_l; [exact H | reflexivity]. Qed.

Lemma pow2_Z e : (0 <= e)%Z -> pow2 e == inject_Z (2 ^ e).
Proof. intros H. unfold pow2. rewrite Zpower_Qpower by exact H. reflexivity. Qed.

Lemma pow2_succ e : pow2 (e + 1) == 2 * pow2 e.
Proof. rewrite pow2_add. change (pow2 1) with 2. ring. Qed.

Lemma pow2_pred e : pow2 (e - 1) == pow2 e * (1 # 2).
Proof.
  assert (H := pow2_succ (e - 1)). replace (e - 1 + 1)%Z with e in H by lia.
  rewrite H. field.
Qed.

Lemma pow2_lt_inv a b : pow2 a < pow2 b -> (a < b)%Z.
Proof. intros H. apply (Qpower_lt_compat_l_inv 2); [exact H | reflexivity]. Qed.

(** *** The binade of a rational *)

Lemma Qabs_num_den (x : Q) :
  Qabs x == inject_Z (Z.abs (Qnum x)) / inject_Z (Zpos (Qden x)).
Proof.
  destruct x as [n d]. simpl. unfold Qeq, Qdiv, Qmult, Qinv, inject_Z. simpl. lia.
Qed.

Lemma ilog2_spec x : ~ x == 0 -> pow2 (ilog2 x) <= Qabs x /\ Qabs x < pow2 (ilog2 x + 1).
Proof.
  intros Hx. unfold ilog2.
  set (n := Z.abs (Qnum x)). set (d := Zpos (Qden x)).
  assert (Hn : (0 < n)%Z).
  { subst n. destruct x as [xn xd]. unfold Qeq in Hx. simpl in *. lia. }
  assert (Hd : (0 < d)%Z) by (subst d; lia).
  destruct (Z.log2_spec n Hn) as [Hn1 Hn2].
  destruct (Z.log2_spec d Hd) as [Hd1 Hd2].
  set (a := Z.log2 n) in *. set (b := Z.log2 d) in *.
  assert (Ha : (0 <= a)%Z) by apply Z.log2_nonneg.
  assert (Hb : (0 <= b)%Z) by apply Z.log2_nonneg.
  assert (Eabs : Qabs x == inject_Z n / inject_Z d) by apply Qabs_num_den.
  assert (Qd : 0 < inject_Z d) by (apply (inj_lt 0 d); exact Hd).
  assert (Qn1 : pow2 a <= inject_Z n) by (rewrite pow2_Z by lia; apply inj_le; exact Hn1).
  assert (Qn2 : inject_Z n < pow2 (a + 1)).
  { rewrite pow2_Z by lia. apply inj_lt. lia. }
  assert (Qd1 : pow2 b <= inject_Z d) by (rewrite pow2_Z by lia; apply inj_le; exact Hd1).
  assert (Qd2 : inject_Z d < pow2 (b + 1)).
  { rewrite pow2_Z by lia. apply inj_lt. lia. }
  assert (Pb := pow2_pos b). assert (Pk := pow2_pos (a - b)).
  assert (Ek : pow2 a == pow2 (a - b) * pow2 b).
  { rewrite <- pow2_add. replace (a - b + b)%Z with a by lia. reflexivity. }
  assert (Sa := pow2_succ a). assert (Sb := pow2_succ b).
  assert (U : inject_Z n / inject_Z d < pow2 (a - b + 1)).
  { rewrite pow2_succ. apply Qlt_shift_div_r; [exact Qd|].
    assert (0 <= pow2 (a - b) * (inject_Z d - pow2 b))
      by (apply Qmult_le_0_compat; hide_pow2; lra).
    hide_pow2. lra. }
  assert (L : pow2 (a - b - 1) < inject_Z n / inject_Z d).
  { rewrite pow2_pred. apply Qlt_shift_div_l; [exact Qd|].
    assert (0 < pow2 (a - b) * (2 * pow2 b - inject_Z d))
      by (apply Qmult_lt_0_compat; hide_pow2; lra).
    hide_pow2. lra. }
  destruct (Qle_bool (pow2 (a - b)) (Qabs x)) eqn:T.
  - apply Qle_bool_iff in T. split; [exact T | rewrite Eabs; exact U].
  - assert (T' : Qabs x < pow2 (a - b)).
    { apply Qnot_le_lt. intros C. apply Qle_bool_iff in C. congruence. }
    replace (a - b - 1 + 1)%Z with (a - b)%Z by lia.
    split; [rewrite Eabs; apply Qlt_le_weak; exact L | exact T'].
Qed.

Lemma ilog2_lt x k : ~ x == 0 -> Qabs x < pow2 k -> (ilog2 x < k)%Z.
Proof.
  intros Hx H. destruct (ilog2_spec x Hx) as [L _].
  apply pow2_lt_inv. eapply Qle_lt_trans; eassumption.
Qed.

Lemma ilog2_ge x k : ~ x == 0 -> pow2 k <= Qabs x -> (k <= ilog2 x)%Z.
Proof.
  intros Hx H. destruct (ilog2_spec x Hx) as [_ U].
  assert (k < ilog2 x + 1)%Z; [|lia].
  apply pow2_lt_inv. eapply Qle_lt_trans; eassumption.
Qed.

Lemma ilog2_unique x k : pow2 k <= Qabs x -> Qabs x < pow2 (k + 1) -> ilog2 x = k.
Proof.
  intros L U.
  assert (Hx : ~ x == 0).
  { intros E. rewrite E in L. assert (P := pow2_pos k). change (Qabs 0) with 0 in L. lra. }
  assert (A := ilog2_lt x (k + 1) Hx U). assert (B := ilog2_ge x k Hx L). lia.
Qed.

Lemma fexp_ge_emin x : (emin <= fexp x)%Z.
Proof. unfold fexp. lia. Qed.

Lemma fexp_le x g : ~ x == 0 -> (emin <= g)%Z -> Qabs x < pow2 (g + 53) -> (fexp x <= g)%Z.
Proof.
  intros Hx Hg H. assert (A := ilog2_lt x _ Hx H). unfold fexp, prec. lia.
Qed.

(** *** Rounding to the nearest integer *)

Lemma rne_spec x : - (1 # 2) <= inject_Z (rne x) - x /\ inject_Z (rne x) - x <= 1 # 2.
Proof.
  unfold rne. assert (L := Qfloor_le x). assert (U := Qlt_floor x).
  rewrite inject_Z_plus in U. change (inject_Z 1) with 1 in U.
  destruct (Qcompare_spec (x - inject_Z (Qfloor x)) (1 # 2)) as [E|E|E].
  - destruct (Z.even (Qfloor x)); [|rewrite inject_Z_plus; change (inject_Z 1) with 1]; lra.
  - lra.
  - rewrite inject_Z_plus; change (inject_Z 1) with 1. lra.
Qed.

Lemma rne_floor x : (Qfloor x <= rne x <= Qfloor x + 1)%Z.
Proof.
  unfold rne. destruct (Qcompare _ _); [destruct (Z.even _)| |]; lia.
Qed.

Lemma rne_Z z : rne (inject_Z z) = z.
Proof.
  unfold rne. rewrite Qfloor_Z.
  assert (E : (inject_Z z - inject_Z z ?= 1 # 2) = Lt).
  { apply (proj1 (Qlt_alt _ _)). lra. }
  rewrite E. reflexivity.
Qed.

Lemma rne_comp x y : x == y -> rne x = rne y.
Proof.
  intros E. unfold rne. rewrite (Qfloor_comp _ _ E).
  assert (C : (x - inject_Z (Qfloor y) ?= 1 # 2) = (y - inject_Z (Qfloor y) ?= 1 # 2)).
  { apply Qcompare_comp; [|reflexivity]. apply Qplus_comp; [exact E | reflexivity]. }
  rewrite C. reflexivity.
Qed.

Lemma rne_ge z x : inject_Z z <= x -> (z <= rne x)%Z.
Proof.
  intros H. apply Qfloor_resp_le in H. rewrite Qfloor_Z in H.
  assert (A := rne_floor x). lia.
Qed.

Lemma rne_le z x : x <= inject_Z z -> (rne x <= z)%Z.
Proof.
  intros H. assert (F := Qfloor_resp_le _ _ H). rewrite Qfloor_Z in F.
  assert (A := rne_floor x).
  destruct (Z.eq_dec (Qfloor x) z) as [E|E]; [|lia].
  assert (L := Qfloor_le x). rewrite E in L.
  assert (X : x == inject_Z z) by lra.
  rewrite (rne_comp _ _ X), rne_Z. lia.
Qed.

Lemma rne_near z x : Qabs (x - inject_Z z) < 1 # 2 -> rne x = z.
Proof.
  intros H. apply Qabs_Qlt_condition in H. destruct H as [H1 H2].
  destruct (rne_spec x) as [A B].
  assert (rne x <= z)%Z by (apply inject_Z_lt1; lra).
  assert (z <= rne x)%Z by (apply inject_Z_lt1; lra).
  lia.
Qed.

(** *** Rounding to the binary64 grid *)

Lemma round_grid_0 x : x == 0 -> round_grid x = 0.
Proof. intros E. unfold round_grid. rewrite (Qeq_eq_bool _ _ E). reflexivity. Qed.

Lemma round_grid_nz x : ~ x == 0 ->
  round_grid x = inject_Z (rne (x / pow2 (fexp x))) * pow2 (fexp x).
Proof.
  intros H. unfold round_grid. destruct (Qeq_bool x 0) eqn:E; [|reflexivity].
  apply Qeq_bool_eq in E. contradiction.
Qed.

Lemma grid_rescale z g e : (e <= g)%Z ->
  inject_Z z * pow2 g == inject_Z (z * 2 ^ (g - e)) * pow2 e.
Proof.
  intros H. rewrite inject_Z_mult, <- pow2_Z by lia.
  rewrite <- Qmult_assoc, <- pow2_add. replace (g - e + e)%Z with g by lia. reflexivity.
Qed.

(** A grid point below x stays below the rounded x, *)
Lemma round_grid_ge z g x : (emin <= g)%Z -> Qabs x < pow2 (g + 53) ->
  inject_Z z * pow2 g <= x -> inject_Z z * pow2 g <= round_grid x.
Proof.
  intros Hg Hx H. destruct (Qeq_dec x 0) as [E|E].
  - rewrite (round_grid_0 x E). rewrite E in H. exact H.
  - assert (He := fexp_le x g E Hg Hx). rewrite (round_grid_nz x E).
    set (e := fexp x) in *. assert (P := pow2_pos e).
    rewrite (grid_rescale z g e He) in *.
    apply Qmult_le_compat_r; [|lra]. rewrite <- Zle_Qle. apply rne_ge.
    apply Qle_shift_div_l; assumption.
Qed.

(** and one above stays above. *)
Lemma round_grid_le z g x : (emin <= g)%Z -> Qabs x < pow2 (g + 53) ->
  x <= inject_Z z * pow2 g -> round_grid x <= inject_Z z * pow2 g.
Proof.
  intros Hg Hx H. destruct (Qeq_dec x 0) as [E|E].
  - rewrite (round_grid_0 x E). rewrite E in H. exact H.
  - assert (He := fexp_le x g E Hg Hx). rewrite (round_grid_nz x E).
    set (e := fexp x) in *. assert (P := pow2_pos e).
    rewrite (grid_rescale z g e He) in *.
    apply Qmult_le_compat_r; [|lra]. rewrite <- Zle_Qle. apply rne_le.
    apply Qle_shift_div_r; assumption.
Qed.

(** A grid point is its own rounding. *)
Lemma round_grid_exact z g x : (emin <= g)%Z -> Qabs x < pow2 (g + 53) ->
  x == inject_Z z * pow2 g -> round_grid x == x.
Proof.
  intros Hg Hx E. apply Qle_antisym.
  - rewrite E at 2. apply round_grid_le; [assumption..|]. rewrite E. apply Qle_refl.
  - rewrite E at 1. apply round_grid_ge; [assumption..|]. rewrite E. apply Qle_refl.
Qed.

Lemma round_grid_in (a b : Z) x : (- 2 ^ 53 < a)%Z -> (b < 2 ^ 53)%Z ->
  inject_Z a <= x -> x <= inject_Z b ->
  inject_Z a <= round_grid x /\ round_grid x <= inject_Z b.
Proof.
  intros Ha Hb L U.
  assert (B : Qabs x < pow2 (0 + 53)).
  { apply Qabs_Qlt_condition. rewrite (pow2_Z 53) by lia.
    assert (A1 := inj_lt _ _ Ha). assert (B1 := inj_lt _ _ Hb).
    rewrite inject_Z_opp in A1. split; lra. }
  assert (E : forall z, inject_Z z * pow2 0 == inject_Z z)
    by (intros z; change (pow2 0) with 1; ring).
  split.
  - rewrite <- (E a). apply round_grid_ge; [unfold emin; lia | exact B | rewrite E; exact L].
  - rewrite <- (E b). apply round_grid_le; [unfold emin; lia | exact B | rewrite E; exact U].
Qed.

(** One rounding is off by half a unit in the last place at most. *)
Lemma round_grid_ulp x : ~ x == 0 ->
  Qabs (round_grid x - x) <= pow2 (fexp x - 1).
Proof.
  intros E. rewrite (round_grid_nz x E). set (e := fexp x). assert (P := pow2_pos e).
  destruct (rne_spec (x / pow2 e)) as [A B]. set (m := inject_Z (rne (x / pow2 e))) in *.
  assert (X : x == (x / pow2 e) * pow2 e) by (field; lra).
  set (y := x / pow2 e) in *. rewrite pow2_pred.
  apply Qabs_Qle_condition. rewrite X. split.
  - assert (0 <= (m - y + (1 # 2)) * pow2 e) by (apply Qmult_le_0_compat; lra). lra.
  - assert (0 <= ((1 # 2) - (m - y)) * pow2 e) by (apply Qmult_le_0_compat; lra). lra.
Qed.

Lemma round_grid_err x k : (emin <= k - 53)%Z -> Qabs x <= pow2 k ->
  Qabs (round_grid x - x) <= pow2 (k - 54).
Proof.
  intros Hk Hx. destruct (Qeq_dec x 0) as [E|E].
  - rewrite (round_grid_0 x E), E. change (Qabs (0 - 0)) with 0. apply Qlt_le_weak, pow2_pos.
  - destruct (Qle_lt_or_eq _ _ Hx) as [L|L].
    + eapply Qle_trans; [apply round_grid_ulp, E|]. apply pow2_le.
      assert (fexp x <= k - 53)%Z; [|lia]. apply fexp_le; [assumption..|].
      replace (k - 53 + 53)%Z with k by lia. exact L.
    + assert (X : round_grid x == x).
      { assert (U : Qabs x < pow2 (k + 53)).
        { rewrite L. apply pow2_lt. lia. }
        revert L. apply Qabs_case; intros S L.
        - apply (round_grid_exact 1 k); [lia | exact U |]. rewrite L. ring.
        - apply (round_grid_exact (-1) k); [lia | exact U |].
          change (inject_Z (-1)) with (-(1)). lra. }
      rewrite X. assert (Q0 : x - x == 0) by ring. rewrite Q0. apply Qlt_le_weak, pow2_pos.
Qed.

(** A grid point of the binade of x that is closer to x than half a unit
    in the last place is the rounding of x. *)
Lemma round_grid_near z x : ~ x == 0 ->
  Qabs (x - inject_Z z * pow2 (fexp x)) < pow2 (fexp x - 1) ->
  round_grid x == inject_Z z * pow2 (fexp x).
Proof.
  intros E H. rewrite (round_grid_nz x E). set (e := fexp x) in *. assert (P := pow2_pos e).
  rewrite (rne_near z); [reflexivity|].
  rewrite pow2_pred in H. apply Qabs_Qlt_condition in H. destruct H as [H1 H2].
  apply Qabs_Qlt_condition.
  assert (X : x == (x / pow2 e) * pow2 e) by (field; lra).
  set (y := x / pow2 e) in *. rewrite X in H1, H2.
  split.
  - apply Qnot_le_lt. intros C.
    assert (0 <= (- (1 # 2) - (y - inject_Z z)) * pow2 e) by (apply Qmult_le_0_compat; lra). lra.
  - apply Qnot_le_lt. intros C.
    assert (0 <= ((y - inject_Z z) - (1 # 2)) * pow2 e) by (apply Qmult_le_0_compat; lra). lra.
Qed.

(** *** Math.trunc *)

Lemma Qtrunc_floor x : 0 <= x -> Qtrunc x = Qfloor x.
Proof.
  destruct x as [n d]. unfold Qle, Qtrunc, Qfloor. simpl. intros H.
  apply Z.quot_div_nonneg; lia.
Qed.

Lemma Qtrunc_opp x : Qtrunc (- x) = (- Qtrunc x)%Z.
Proof.
  destruct x as [n d]. unfold Qtrunc. simpl. apply Z.quot_opp_l. lia.
Qed.

Lemma Qtrunc_cases x :
  (0 <= x /\ inject_Z (Qtrunc x) <= x /\ x < inject_Z (Qtrunc x) + 1 /\ (0 <= Qtrunc x)%Z) \/
  (x <= 0 /\ x <= inject_Z (Qtrunc x) /\ inject_Z (Qtrunc x) - 1 < x /\ (Qtrunc x <= 0)%Z).
Proof.
  destruct (Qlt_le_dec x 0) as [N|P].
  - right. assert (P : 0 <= - x) by lra.
    assert (E : Qtrunc x = (- Qfloor (- x))%Z).
    { rewrite <- (Qtrunc_floor _ P), Qtrunc_opp. lia. }
    assert (L := Qfloor_le (- x)). assert (U := Qlt_floor (- x)).
    rewrite inject_Z_plus in U. change (inject_Z 1) with 1 in U.
    assert (F : (0 <= Qfloor (- x))%Z).
    { apply Qfloor_resp_le in P. exact P. }
    rewrite E, inject_Z_opp. repeat split; try lra. lia.
  - left. rewrite (Qtrunc_floor x P).
    assert (L := Qfloor_le x). assert (U := Qlt_floor x).
    rewrite inject_Z_plus in U. change (inject_Z 1) with 1 in U.
    assert (F : (0 <= Qfloor x)%Z).
    { apply Qfloor_resp_le in P. exact P. }
    repeat split; try lra. exact F.
Qed.

(** *** Results that stay finite *)

Lemma of_real_fin x : Qabs (round_grid x) < pow2 emax ->
  exists r, of_real x = Fin r /\ r == round_grid x.
Proof.
  intros H. exists (Qred (round_grid x)). split; [|apply Qred_correct].
  unfold of_real. destruct (Qle_bool (pow2 emax) (Qabs (round_grid x))) eqn:T; [|reflexivity].
  apply Qle_bool_iff in T. lra.
Qed.

Lemma of_real_finite x k : (emin <= k <= 1023)%Z -> Qabs x <= pow2 k ->
  exists r, of_real x = Fin r /\ r == round_grid x.
Proof.
  intros Hk Hx. apply of_real_fin.
  assert (U : Qabs x < pow2 (k + 53)).
  { eapply Qle_lt_trans; [exact Hx|]. apply pow2_lt. lia. }
  apply Qabs_Qle_condition in Hx. destruct Hx as [H1 H2].
  assert (A : round_grid x <= inject_Z 1 * pow2 k).
  { apply round_grid_le; [lia | exact U |]. change (inject_Z 1) with 1. lra. }
  assert (B : inject_Z (-1) * pow2 k <= round_grid x).
  { apply round_grid_ge; [lia | exact U |]. change (inject_Z (-1)) with (-(1)). lra. }
  change (inject_Z 1) with 1 in A. change (inject_Z (-1)) with (-(1)) in B.
  assert (C : Qabs (round_grid x) <= pow2 k) by (apply Qabs_Qle_condition; lra).
  assert (D : pow2 k < pow2 emax) by (apply pow2_lt; unfold emax; lia).
  lra.
Qed.

Lemma is_binary64_spec v : is_binary64 v = true ->
  round_grid v == v /\ Qabs v < pow2 emax.
Proof.
  unfold is_binary64. intros H. apply andb_prop in H. destruct H as [A B].
  split; [apply Qeq_bool_eq, A|].
  apply Qnot_le_lt. intros C. apply Qle_bool_iff in C. rewrite C in B. discriminate.
Qed.

Lemma binary64_grid v : is_binary64 v = true -> ~ v == 0 ->
  exists m, v == inject_Z m * pow2 (fexp v).
Proof.
  intros H Z. destruct (is_binary64_spec v H) as [A _].
  rewrite (round_grid_nz v Z) in A. eexists. symmetry. exact A.
Qed.

(** *** 190 + Math.random() * 2 *)

Lemma mock_price_range n : in_unit_interval n = true ->
  between 190 192 (add (Fin 190) (mul n (Fin 2))) = true.
Proof.
  destruct n as [| |r]; try discriminate. unfold in_unit_interval.
  intros H. apply andb_prop in H. destruct H as [H0 H1].
  apply Qle_bool_iff in H0.
  assert (R1 : r < 1).
  { apply Qnot_le_lt. intros C. apply Qle_bool_iff in C. rewrite C in H1. discriminate. }
  unfold mul.
  destruct (of_real_finite (r * 2) 1) as [y [Ey Ry]].
  { unfold emin; lia. }
  { apply Qabs_Qle_condition. change (pow2 1) with 2. lra. }
  rewrite Ey. unfold add.
  destruct (round_grid_in 0 2 (r * 2)) as [Y0 Y2]; [lia | lia | | |].
  { change (inject_Z 0) with 0. lra. }
  { change (inject_Z 2) with 2. lra. }
  rewrite <- Ry in Y0, Y2. change (inject_Z 0) with 0 in Y0. change (inject_Z 2) with 2 in Y2.
  destruct (of_real_finite (190 + y) 8) as [p [Ep Rp]].
  { unfold emin; lia. }
  { apply Qabs_Qle_condition. change (pow2 8) with 256. lra. }
  rewrite Ep. unfold between.
  destruct (round_grid_in 190 192 (190 + y)) as [P0 P2]; [lia | lia | | |].
  { change (inject_Z 190) with 190. lra. }
  { change (inject_Z 192) with 192. lra. }
  rewrite <- Rp in P0, P2.
  change (inject_Z 190) with 190 in P0. change (inject_Z 192) with 192 in P2.
  apply andb_true_intro. split; apply Qle_bool_iff; assumption.
Qed.

(** *** floatToQuotation and back, step by step *)

(** nano = Math.round(d * 1_000_000_000) for a fraction d. *)
Lemma nano_round d : -1 < d -> d < 1 ->
  exists n : Z, round (mul (Fin d) billion) = Fin (inject_Z n) /\
    (-1000000000 <= n <= 1000000000)%Z /\
    - (1 # 2) - (1 # 16777216) <= inject_Z n - d * 1000000000 /\
    inject_Z n - d * 1000000000 <= (1 # 2) + (1 # 16777216) /\
    (0 <= d -> (0 <= n)%Z) /\ (d <= 0 -> (n <= 0)%Z).
Proof.
  intros D1 D2. unfold mul, billion.
  set (x := d * 1000000000).
  assert (X1 : -1000000000 <= x) by (unfold x; lra).
  assert (X2 : x <= 1000000000) by (unfold x; lra).
  destruct (of_real_finite x 30) as [p [Ep Rp]].
  { unfold emin; lia. }
  { apply Qabs_Qle_condition. change (pow2 30) with 1073741824. lra. }
  rewrite Ep. unfold round.
  assert (Pe : Qabs (round_grid x - x) <= pow2 (30 - 54)).
  { apply round_grid_err; [unfold emin; lia|].
    apply Qabs_Qle_condition. change (pow2 30) with 1073741824. lra. }
  apply Qabs_Qle_condition in Pe. destruct Pe as [Pe1 Pe2].
  assert (P24 : pow2 (30 - 54) == 1 # 16777216) by reflexivity.
  rewrite P24 in Pe1, Pe2. rewrite <- Rp in Pe1, Pe2.
  destruct (round_grid_in (-1000000000) 1000000000 x) as [Pb1 Pb2];
    [lia | lia | exact X1 | exact X2 |].
  rewrite <- Rp in Pb1, Pb2. cbv [inject_Z] in Pb1, Pb2.
  assert (Ps1 : 0 <= d -> 0 <= p).
  { intros S. rewrite Rp.
    apply (round_grid_in 0 1000000000 x);
      [lia | lia | unfold x; change (inject_Z 0) with 0; lra | exact X2]. }
  assert (Ps2 : d <= 0 -> p <= 0).
  { intros S. rewrite Rp.
    apply (round_grid_in (-1000000000) 0 x);
      [lia | lia | exact X1 | unfold x; change (inject_Z 0) with 0; lra]. }
  exists (Qfloor (p + (1 # 2))). split; [reflexivity|].
  set (n := Qfloor (p + (1 # 2))).
  assert (N1 := Qfloor_le (p + (1 # 2))). assert (N2 := Qlt_floor (p + (1 # 2))).
  fold n in N1, N2. rewrite inject_Z_plus in N2. change (inject_Z 1) with 1 in N2.
  subst x.
  split; [split|split; [|split; [|split]]].
  - assert (T : -1000000000 <= p + (1 # 2)) by lra.
    apply Qfloor_resp_le in T. exact T.
  - assert (T : p + (1 # 2) <= 1000000000 + (1 # 2)) by lra.
    apply Qfloor_resp_le in T. exact T.
  - lra.
  - lra.
  - intros S. assert (T : 0 <= p + (1 # 2)) by (specialize (Ps1 S); lra).
    apply Qfloor_resp_le in T. exact T.
  - intros S. assert (T : p + (1 # 2) <= 1 # 2) by (specialize (Ps2 S); lra).
    apply Qfloor_resp_le in T. exact T.
Qed.

(** (nano || 0) / 1_000_000_000 gives the fraction back within delta. *)
Lemma nano_chain d : -1 < d -> d < 1 ->
  exists q, div (or_zero (Some (round (mul (Fin d) billion)))) billion = Fin q /\
    - delta <= q - d /\ q - d <= delta /\ -1 <= q /\ q <= 1 /\
    (0 <= d -> 0 <= q) /\ (d <= 0 -> q <= 0).
Proof.
  intros D1 D2.
  destruct (nano_round d D1 D2) as [n [En [[Nb1 Nb2] [Ne1 [Ne2 [Ns1 Ns2]]]]]].
  rewrite En.
  assert (Qb1 : -1000000000 <= inject_Z n) by (apply (inj_le (-1000000000) n); exact Nb1).
  assert (Qb2 : inject_Z n <= 1000000000) by (apply (inj_le n 1000000000); exact Nb2).
  assert (A : exists a, or_zero (Some (Fin (inject_Z n))) = Fin a /\ a == inject_Z n).
  { unfold or_zero, truthy, is_zero. destruct (Qeq_bool (inject_Z n) 0) eqn:T; simpl.
    - exists 0. split; [reflexivity|]. apply Qeq_bool_eq in T. symmetry. exact T.
    - exists (inject_Z n). split; reflexivity. }
  destruct A as [a [Ea Ra]]. rewrite Ea. unfold div, billion.
  change (is_zero 1000000000) with false. cbv iota.
  set (y := a / 1000000000).
  assert (Ey : y == a * (1 # 1000000000)) by reflexivity.
  assert (Y1 : -1 <= y) by (rewrite Ey, Ra; lra).
  assert (Y2 : y <= 1) by (rewrite Ey, Ra; lra).
  destruct (of_real_finite y 0) as [q [Eq Rq]].
  { unfold emin; lia. }
  { apply Qabs_Qle_condition. change (pow2 0) with 1. lra. }
  exists q. split; [exact Eq|].
  assert (Qe : Qabs (round_grid y - y) <= pow2 (0 - 54)).
  { apply round_grid_err; [unfold emin; lia|].
    apply Qabs_Qle_condition. change (pow2 0) with 1. lra. }
  apply Qabs_Qle_condition in Qe. destruct Qe as [Qe1 Qe2].
  assert (P54 : pow2 (0 - 54) == 1 # 18014398509481984) by reflexivity.
  rewrite P54 in Qe1, Qe2. rewrite <- Rq in Qe1, Qe2.
  destruct (round_grid_in (-1) 1 y) as [Qr1 Qr2]; [lia | lia | exact Y1 | exact Y2 |].
  rewrite <- Rq in Qr1, Qr2.
  change (inject_Z (-1)) with (-1) in Qr1. change (inject_Z 1) with 1 in Qr2.
  unfold delta. rewrite Ey, Ra in Qe1, Qe2.
  split; [lra|]. split; [lra|]. split; [lra|]. split; [lra|]. split.
  - intros S. rewrite Rq. apply (round_grid_in 0 1 y); [lia | lia | | exact Y2].
    rewrite Ey, Ra. specialize (Ns1 S). apply inj_le in Ns1.
    change (inject_Z 0) with 0 in *. lra.
  - intros S. rewrite Rq. apply (round_grid_in (-1) 0 y); [lia | lia | exact Y1 |].
    rewrite Ey, Ra. specialize (Ns2 S). apply inj_le in Ns2.
    change (inject_Z 0) with 0 in *. lra.
Qed.

(** value - Math.trunc(value) is computed without error. *)
Lemma sub_trunc_exact v : is_binary64 v = true ->
  exists d, sub (Fin v) (trunc (Fin v)) = Fin d /\ d == v - inject_Z (Qtrunc v).
Proof.
  intros Hv. unfold sub, trunc, neg, add. set (u := Qtrunc v).
  assert (TC := Qtrunc_cases v). fold u in TC.
  assert (B1 : -1 <= v + - inject_Z u) by (destruct TC as [T|T]; lra).
  assert (B2 : v + - inject_Z u <= 1) by (destruct TC as [T|T]; lra).
  assert (B3 : - Qabs v <= v + - inject_Z u /\ v + - inject_Z u <= Qabs v).
  { destruct TC as [[T0 [T1 [T2 T3]]]|[T0 [T1 [T2 T3]]]].
    - rewrite (Qabs_pos v T0). apply inj_le in T3. change (inject_Z 0) with 0 in T3. lra.
    - rewrite (Qabs_neg v T0). apply inj_le in T3. change (inject_Z 0) with 0 in T3. lra. }
  destruct (of_real_finite (v + - inject_Z u) 0) as [d [Ed Rd]].
  { unfold emin; lia. }
  { apply Qabs_Qle_condition. change (pow2 0) with 1. lra. }
  exists d. split; [exact Ed|]. rewrite Rd.
  destruct (Qeq_dec (v + - inject_Z u) 0) as [Z|Z].
  - rewrite (round_grid_0 _ Z). lra.
  - assert (NZ : ~ v == 0).
    { intros E. apply Z. rewrite E in *. change (Qabs 0) with 0 in B3. lra. }
    destruct (binary64_grid v Hv NZ) as [m Em]. set (e := fexp v) in *.
    assert (G : round_grid (v + - inject_Z u) == v + - inject_Z u); [|rewrite G; ring].
    apply (round_grid_exact (m * 2 ^ (e - Z.min e 0) - u * 2 ^ (- Z.min e 0)) (Z.min e 0)).
    + assert (A := fexp_ge_emin v). fold e in A. unfold emin in *. lia.
    + destruct (Z_le_gt_dec e 0) as [C|C].
      * rewrite Z.min_l by lia. destruct (ilog2_spec v NZ) as [_ U].
        assert (L : pow2 (ilog2 v + 1) <= pow2 (e + 53)).
        { apply pow2_le. unfold e, fexp, prec. lia. }
        apply Qabs_Qlt_condition. lra.
      * rewrite Z.min_r by lia. apply Qabs_Qlt_condition.
        change (pow2 (0 + 53)) with 9007199254740992. lra.
    + unfold Z.sub at 1.
      rewrite inject_Z_plus, inject_Z_opp, !inject_Z_mult, <- !pow2_Z by lia.
      assert (P1 : pow2 (e - Z.min e 0) * pow2 (Z.min e 0) == pow2 e).
      { rewrite <- pow2_add. replace (e - Z.min e 0 + Z.min e 0)%Z with e by lia. reflexivity. }
      assert (P2 : pow2 (- Z.min e 0) * pow2 (Z.min e 0) == 1).
      { rewrite <- pow2_add. replace (- Z.min e 0 + Z.min e 0)%Z with 0%Z by lia. reflexivity. }
      rewrite Em at 1.
      transitivity (inject_Z m * (pow2 (e - Z.min e 0) * pow2 (Z.min e 0))
                    - inject_Z u * (pow2 (- Z.min e 0) * pow2 (Z.min e 0))); [|ring].
      rewrite P1, P2. ring.
Qed.

Lemma delta_lt_pow2 e : (-29 <= e)%Z -> delta < pow2 (e - 1) /\ delta < pow2 e.
Proof.
  intros H. assert (A : pow2 (-30) <= pow2 (e - 1)) by (apply pow2_le; lia).
  assert (B : pow2 (-30) <= pow2 e) by (apply pow2_le; lia).
  assert (C : delta < pow2 (-30)) by reflexivity.
  split; lra.
Qed.

(** From 2^23 on the grid is coarser than 2 delta: units + fraction rounds
    back to the value it came from. *)
Lemma absorb_pos v q : is_binary64 v = true -> 0 <= v ->
  (2 ^ 23 <= Qtrunc v)%Z ->
  - delta <= q - (v - inject_Z (Qtrunc v)) -> q - (v - inject_Z (Qtrunc v)) <= delta ->
  0 <= q ->
  round_grid (inject_Z (Qtrunc v) + q) == v.
Proof.
  intros Hv V0 Hu D1 D2 Q0. set (u := Qtrunc v) in *.
  assert (TC := Qtrunc_cases v). fold u in TC.
  assert (T : inject_Z u <= v /\ v < inject_Z u + 1).
  { destruct TC as [T|[T0 [T1 [T2 T3]]]]; [tauto|]. lia. }
  destruct T as [T1 T2]. clear TC.
  assert (U23 : 8388608 <= inject_Z u) by (apply (inj_le (2 ^ 23) u); exact Hu).
  assert (NZ : ~ v == 0) by (intros E; rewrite E in *; lra).
  destruct (binary64_grid v Hv NZ) as [m Em].
  destruct (ilog2_spec v NZ) as [L U]. rewrite (Qabs_pos v V0) in L, U.
  set (k := ilog2 v) in *.
  assert (K : (23 <= k)%Z).
  { apply ilog2_ge; [exact NZ|]. rewrite (Qabs_pos v V0). change (pow2 23) with 8388608. lra. }
  assert (E : fexp v = (k - 52)%Z) by (unfold fexp, prec, emin; fold k; lia).
  rewrite E in Em. set (e := (k - 52)%Z) in *.
  assert (Pe := pow2_pos e).
  assert (S53 : pow2 (k + 1) == inject_Z (2 ^ 53) * pow2 e).
  { rewrite <- (pow2_Z 53) by lia. rewrite <- pow2_add. unfold e.
    replace (53 + (k - 52))%Z with (k + 1)%Z by lia. reflexivity. }
  assert (Uk : pow2 k <= inject_Z u).
  { rewrite (pow2_Z k) in * by lia. apply inj_le.
    assert (X : inject_Z (2 ^ k) < inject_Z (u + 1))
      by (rewrite inject_Z_plus; change (inject_Z 1) with 1; lra).
    rewrite <- Zlt_Qlt in X. lia. }
  assert (Gap : v <= pow2 (k + 1) - pow2 e).
  { assert (M : (m < 2 ^ 53)%Z).
    { rewrite Zlt_Qlt. apply Qnot_le_lt. intros C.
      assert (0 <= (inject_Z m - inject_Z (2 ^ 53)) * pow2 e)
        by (apply Qmult_le_0_compat; lra).
      lra. }
    assert (M' : inject_Z m <= inject_Z (2 ^ 53) - 1).
    { assert (X := inj_le m (2 ^ 53 - 1) ltac:(lia)). unfold Z.sub in X.
      rewrite inject_Z_plus in X. change (inject_Z (- (1))) with (-1) in X. lra. }
    assert (0 <= (inject_Z (2 ^ 53) - 1 - inject_Z m) * pow2 e)
      by (apply Qmult_le_0_compat; lra).
    lra. }
  destruct (delta_lt_pow2 e ltac:(unfold e; lia)) as [De1 De2].
  set (s := inject_Z u + q).
  assert (S1 : pow2 k <= s) by (unfold s; lra).
  assert (S2 : s < pow2 (k + 1)) by (unfold s; lra).
  assert (S0 : 0 <= s) by (assert (P := pow2_pos k); lra).
  assert (SZ : ~ s == 0) by (assert (P := pow2_pos k); intros C; lra).
  assert (Ks : ilog2 s = k) by (apply ilog2_unique; rewrite (Qabs_pos s S0); assumption).
  assert (Es : fexp s = e) by (unfold fexp, prec, emin; rewrite Ks; unfold e; lia).
  assert (R : round_grid s == inject_Z m * pow2 (fexp s)).
  { apply round_grid_near; [exact SZ|]. rewrite Es. apply Qabs_Qlt_condition. unfold s. lra. }
  rewrite R, Es. symmetry. exact Em.
Qed.

Lemma absorb_neg v q : is_binary64 v = true -> v <= 0 ->
  (Qtrunc v <= - 2 ^ 23)%Z ->
  - delta <= q - (v - inject_Z (Qtrunc v)) -> q - (v - inject_Z (Qtrunc v)) <= delta ->
  q <= 0 ->
  round_grid (inject_Z (Qtrunc v) + q) == v.
Proof.
  intros Hv V0 Hu D1 D2 Q0. set (u := Qtrunc v) in *.
  assert (TC := Qtrunc_cases v). fold u in TC.
  assert (T : v <= inject_Z u /\ inject_Z u - 1 < v).
  { destruct TC as [[T0 [T1 [T2 T3]]]|T]; [lia | tauto]. }
  destruct T as [T1 T2]. clear TC.
  assert (U23 : inject_Z u <= -8388608) by (apply (inj_le u (- 2 ^ 23)); exact Hu).
  assert (NZ : ~ v == 0) by (intros E; rewrite E in *; lra).
  destruct (binary64_grid v Hv NZ) as [m Em].
  destruct (ilog2_spec v NZ) as [L U]. rewrite (Qabs_neg v V0) in L, U.
  set (k := ilog2 v) in *.
  assert (K : (23 <= k)%Z).
  { apply ilog2_ge; [exact NZ|]. rewrite (Qabs_neg v V0). change (pow2 23) with 8388608. lra. }
  assert (E : fexp v = (k - 52)%Z) by (unfold fexp, prec, emin; fold k; lia).
  rewrite E in Em. set (e := (k - 52)%Z) in *.
  assert (Pe := pow2_pos e).
  assert (S53 : pow2 (k + 1) == inject_Z (2 ^ 53) * pow2 e).
  { rewrite <- (pow2_Z 53) by lia. rewrite <- pow2_add. unfold e.
    replace (53 + (k - 52))%Z with (k + 1)%Z by lia. reflexivity. }
  assert (Uk : inject_Z u <= - pow2 k).
  { rewrite (pow2_Z k) in * by lia. rewrite <- inject_Z_opp. apply inj_le.
    assert (X : inject_Z (u - 1) < inject_Z (- 2 ^ k)).
    { unfold Z.sub. rewrite inject_Z_plus, !inject_Z_opp. change (inject_Z 1) with 1. lra. }
    rewrite <- Zlt_Qlt in X. lia. }
  assert (Gap : - (pow2 (k + 1) - pow2 e) <= v).
  { assert (M : (- 2 ^ 53 < m)%Z).
    { rewrite Zlt_Qlt. apply Qnot_le_lt. intros C. rewrite inject_Z_opp in C.
      assert (0 <= (- inject_Z (2 ^ 53) - inject_Z m) * pow2 e)
        by (apply Qmult_le_0_compat; lra).
      lra. }
    assert (M' : - inject_Z (2 ^ 53) + 1 <= inject_Z m).
    { assert (X := inj_le (- 2 ^ 53 + 1) m ltac:(lia)).
      rewrite inject_Z_plus, inject_Z_opp in X. change (inject_Z 1) with 1 in X. lra. }
    assert (0 <= (inject_Z m - (- inject_Z (2 ^ 53) + 1)) * pow2 e)
      by (apply Qmult_le_0_compat; lra).
    lra. }
  destruct (delta_lt_pow2 e ltac:(unfold e; lia)) as [De1 De2].
  set (s := inject_Z u + q).
  assert (S1 : s <= - pow2 k) by (unfold s; lra).
  assert (S2 : - pow2 (k + 1) < s) by (unfold s; lra).
  assert (S0 : s <= 0) by (assert (P := pow2_pos k); lra).
  assert (SZ : ~ s == 0) by (assert (P := pow2_pos k); intros C; lra).
  assert (Ks : ilog2 s = k) by (apply ilog2_unique; rewrite (Qabs_neg s S0); lra).
  assert (Es : fexp s = e) by (unfold fexp, prec, emin; rewrite Ks; unfold e; lia).
  assert (R : round_grid s == inject_Z m * pow2 (fexp s)).
  { apply round_grid_near; [exact SZ|]. rewrite Es. apply Qabs_Qlt_condition. unfold s. lra. }
  rewrite R, Es. symmetry. exact Em.
Qed.

(** The model of the arithmetic computes what the processor computes, on
    products, quotients, sums and differences of the kind the program
    forms, at an overflow and at two subnormal ties included. *)
Lemma model_agrees_with_hardware :
  hardware (0.1 * 3)%float = mul (of_real (1 # 10)) (Fin 3) /\
  hardware (0.9999999996 * 1000000000)%float = mul just_below_one billion /\
  hardware (190 + 0.999999999999999889 * 2)%float =
    add (Fin 190) (mul (of_real (999999999999999889 # 1000000000000000000)) (Fin 2)) /\
  hardware (271.5 / 1000000000)%float = div (of_real (2715 # 10)) billion /\
  hardware (4194304.0000000065 - 4194304)%float =
    sub (of_real (41943040000000065 # 10000000000)) (Fin 4194304) /\
  hardware (1e308 * 10)%float = mul (of_real (inject_Z (10 ^ 308))) (Fin 10) /\
  hardware (5e-324 / 2)%float = div (of_real (5 # Pos.pow 10 324)) (Fin 2) /\
  hardware (5e-324 * 0.75)%float = mul (of_real (5 # Pos.pow 10 324)) (of_real (3 # 4)).
Proof. vm_compute. repeat split; reflexivity. Qed.

(** C3 (as amended). For every finite float v, toFloat(toQuotation(v)) is a
    finite number within 1e-9 of v, where toQuotation is floatToQuotation
    and toFloat is quotationToFloat, computed in binary64 arithmetic. *)
Theorem roundtrip_within_nano v : is_binary64 v = true ->
  within (1 # 1000000000) (quotationToFloat (Some (floatToQuotation (Fin v)))) (Fin v) = true.
Proof.
  intros Hv. unfold quotationToFloat, floatToQuotation. cbn [units nano].
  destruct (sub_trunc_exact v Hv) as [d [Ed Rd]]. rewrite Ed.
  set (u := Qtrunc v) in *.
  assert (TC := Qtrunc_cases v). fold u in TC.
  assert (D1 : -1 < d) by (rewrite Rd; destruct TC as [T|T]; lra).
  assert (D2 : d < 1) by (rewrite Rd; destruct TC as [T|T]; lra).
  destruct (nano_chain d D1 D2) as [q [Eq [Q1 [Q2 [Q3 [Q4 [Q5 Q6]]]]]]].
  rewrite Eq. unfold trunc, add. fold u. rewrite Rd in Q1, Q2.
  destruct (is_binary64_spec v Hv) as [_ Fv].
  destruct (Z_lt_le_dec (Z.abs u) (2 ^ 23)) as [Small|Big].
  - (* below 2^23 the sum is rounded at 2^-30 or finer *)
    assert (U1 : -8388607 <= inject_Z u) by (apply (inj_le (-8388607) u); lia).
    assert (U2 : inject_Z u <= 8388607) by (apply (inj_le u 8388607); lia).
    destruct (of_real_finite (inject_Z u + q) 23) as [r [Er Rr]].
    { unfold emin; lia. }
    { apply Qabs_Qle_condition. change (pow2 23) with 8388608. lra. }
    rewrite Er. unfold within. apply Qle_bool_iff.
    assert (Re : Qabs (round_grid (inject_Z u + q) - (inject_Z u + q)) <= pow2 (23 - 54)).
    { apply round_grid_err; [unfold emin; lia|].
      apply Qabs_Qle_condition. change (pow2 23) with 8388608. lra. }
    apply Qabs_Qle_condition in Re. destruct Re as [Re1 Re2].
    assert (P31 : pow2 (23 - 54) == 1 # 2147483648) by reflexivity.
    rewrite P31, <- Rr in Re1, Re2.
    apply Qabs_Qle_condition. unfold delta in Q1, Q2. lra.
  - (* from 2^23 on the sum rounds back to v itself *)
    assert (R : round_grid (inject_Z u + q) == v).
    { destruct TC as [[T0 [T1 [T2 T3]]]|[T0 [T1 [T2 T3]]]].
      - apply absorb_pos; try assumption; [lia | apply Q5; lra].
      - apply absorb_neg; try assumption; [lia | apply Q6; lra]. }
    destruct (of_real_fin (inject_Z u + q)) as [r [Er Rr]].
    { rewrite R. exact Fv. }
    rewrite Er. unfold within. apply Qle_bool_iff. rewrite Rr, R.
    assert (Z : v - v == 0) by ring. rewrite Z. discriminate.
Qed.

Lemma roundtrip_within_nano_witness :
  is_binary64 (3602879701896397 # 36028797018963968) = true /\
  within (1 # 1000000000)
    (quotationToFloat (Some (floatToQuotation (Fin (3602879701896397 # 36028797018963968)))))
    (Fin (3602879701896397 # 36028797018963968)) = true.
Proof.
  split; [vm_compute; reflexivity|].
  apply roundtrip_within_nano. vm_compute. reflexivity.
Defined.

(** C3 as stated fails at NaN: NaN is a float value, its trip through a
    quotation gives NaN, and NaN is within 1e-9 of nothing, itself included
    (parseFloat hands NaN to floatToQuotation when a price is not a
    numeral).  An infinity comes back as itself, through a quotation whose
    nano is NaN, and the error Infinity - Infinity is NaN. *)
Lemma roundtrip_fails_at_nan :
  floatToQuotation NaN = mkQuotation NaN (Some NaN) /\
  quotationToFloat (Some (floatToQuotation NaN)) = NaN /\
  within (1 # 1000000000) (quotationToFloat (Some (floatToQuotation NaN))) NaN = false /\
  floatToQuotation (Inf false) = mkQuotation (Inf false) (Some NaN) /\
  quotationToFloat (Some (floatToQuotation (Inf false))) = Inf false /\
  sub (quotationToFloat (Some (floatToQuotation (Inf false)))) (Inf false) = NaN.
Proof. vm_compute. repeat split; reflexivity. Qed.

(** C4, evaluated at its failing input: 0.9999999996 is a finite float,
    its fraction times 1e9 is 999999999.6, and Math.round makes of it
    1 000 000 000, outside -999 999 999 .. 999 999 999; units stays 0. *)
Theorem nano_reaches_one_billion :
  (exists v, just_below_one = Fin v /\ is_binary64 v = true) /\
  floatToQuotation just_below_one = mkQuotation (Fin 0) (Some (Fin 1000000000)) /\
  (nano (floatToQuotation just_below_one) ≫= fun n => Some (between (-999999999) 999999999 n))
    = Some false.
Proof.
  split; [|vm_compute; split; reflexivity].
  eexists. split; [vm_compute; reflexivity | vm_compute; reflexivity].
Qed.

(** The nano part of the quotation of a finite float is an integer of
    -1 000 000 000 .. 1 000 000 000, both ends included. *)
Theorem nano_within_one_billion v : is_binary64 v = true ->
  exists n : Z, nano (floatToQuotation (Fin v)) = Some (Fin (inject_Z n)) /\
    (-1000000000 <= n <= 1000000000)%Z.
Proof.
  intros Hv. unfold floatToQuotation. cbn [nano].
  destruct (sub_trunc_exact v Hv) as [d [Ed Rd]]. rewrite Ed.
  assert (TC := Qtrunc_cases v).
  assert (D1 : -1 < d) by (rewrite Rd; destruct TC as [T|T]; lra).
  assert (D2 : d < 1) by (rewrite Rd; destruct TC as [T|T]; lra).
  destruct (nano_round d D1 D2) as [n [En [Nb _]]].
  exists n. rewrite En. split; [reflexivity | exact Nb].
Qed.

Lemma nano_within_one_billion_witness :
  is_binary64 (543 # 2) = true /\
  exists n : Z, nano (floatToQuotation (Fin (543 # 2))) = Some (Fin (inject_Z n)) /\
    (-1000000000 <= n <= 1000000000)%Z.
Proof.
  split; [vm_compute; reflexivity|].
  apply nano_within_one_billion. vm_compute. reflexivity.
Defined.

End NumberFacts.

(** ** The servers: tools *)

Ltac eval_eqb :=
  repeat match goal with
  | |- context [String.eqb ?a ?b] =>
      let v := eval vm_compute in (String.eqb a b) in
      match v with
      | true => change (String.eqb a b) with true
      | false => change (String.eqb a b) with false
      end
  end; cbn [andb orb negb].

Ltac innermost x :=
  lazymatch x with
  | context [match ?z with _ => _ end] => innermost z
  | _ => x
  end.

Ltac case_step :=
  match goal with
  | |- context [match ?x with _ => _ end] =>
      let y := innermost x in destruct y eqn:?
  end.

Lemma issued_self {C} (w : World C) : issued w w = [].
Proof. unfold issued. apply drop_all. Qed.

Lemma issued_none {C} (w : World C) n d c : issued w (mkWorld n (sent w) d c) = [].
Proof. unfold issued. cbn [sent]. apply drop_all. Qed.

Lemma issued_app {C} (w : World C) n l d c : issued w (mkWorld n (sent w ++ l) d c) = l.
Proof. unfold issued. cbn [sent]. apply drop_app_length. Qed.

Lemma issued_app2 {C} (w : World C) n x y d c :
  issued w (mkWorld n ((sent w ++ [x]) ++ [y]) d c) = [x; y].
Proof. rewrite <- app_assoc. apply issued_app. Qed.

Lemma issued_app3 {C} (w : World C) n x y z d c :
  issued w (mkWorld n (((sent w ++ [x]) ++ [y]) ++ [z]) d c) = [x; y; z].
Proof. rewrite <- !app_assoc. apply issued_app. Qed.

Ltac issued_simpl :=
  cbn [sent now draws cache fst snd];
  rewrite ?issued_self, ?issued_none, ?issued_app3, ?issued_app2, ?issued_app;
  cbn [existsb failed is_order fst snd orb].

(** One upstream call, told by what the upstream answers. *)
Lemma remote_eq {C} env c (w : World C) :
  remote env c w =
    (match snd (upstream env (sent w) c) with
     | Replied p => Ok p
     | Failed f => Throw (failure_error f)
     end,
     mkWorld (now w + fst (upstream env (sent w) c))
             (sent w ++ [(c, snd (upstream env (sent w) c))]) (draws w) (cache w)).
Proof. unfold remote. destruct (upstream env (sent w) c) as [lat [f|p]]; reflexivity. Qed.

(** catch (error) { console.error(...); throw error; } changes nothing. *)
Lemma rethrow_eq {C A} (m : M C A) w : try_catch m (fun error => throw error) w = m w.
Proof. unfold try_catch, throw. destruct (m w) as [[a|e] w']; reflexivity. Qed.

(** Symbolic execution of a handler: unfold the effects, name what the
    upstream answers, and split on every test. *)
Ltac exec_step :=
  first
  [ progress (unfold bind, try_catch, ret, throw, date_now, get_cache, modify_cache,
              math_random, request_json, destructure, get_prop)
  | rewrite remote_eq
  | progress (cbn beta iota delta
                [fst snd sent now draws cache json method path ticker_param nullish])
  | case_step ].

Lemma destructure_ok {C} host (body : value) (w : World C) :
  nullish body = false ->
  destructure host body w =
    (Ok (get_prop body "ticker", get_prop body "quantity",
         get_prop body "price", get_prop body "direction"), w).
Proof. intros H. unfold destructure. rewrite H. reflexivity. Qed.

Lemma body_of_valid body : rejected body = false -> exists fs, body = VObj fs.
Proof. destruct body; try discriminate. eauto. Qed.

Lemma says_why_message env h c f : says_why env ->
  snd (upstream env h c) = Failed f -> message (failure_error f) <> "".
Proof.
  intros H E. specialize (H h c). rewrite E in H. destruct f; cbn; try assumption.
  discriminate.
Qed.

(** ** The presence check of the order route *)

Lemma main_order_rejected host env tp body (w : World MainJs.Cache) :
  nullish body = false -> rejected body = true ->
  MainJs.handler host env (order_request tp body) w =
    (Ok (json_error 400 "Missing required fields: ticker, quantity, price, direction"), w).
Proof.
  intros H R. unfold MainJs.handler, order_request. cbn [method path json]. eval_eqb.
  unfold try_catch, bind, request_json. cbn [json ret].
  unfold ret at 1. rewrite (destructure_ok host body w H).
  unfold rejected in R. rewrite R. reflexivity.
Qed.

Lemma part000_order_rejected host env tp body (w : World Maps) :
  nullish body = false -> rejected body = true ->
  Part000.handler host env (order_request tp body) w =
    (Ok (json_error 400 "Missing required fields: ticker, quantity, price, direction"), w).
Proof.
  intros H R. unfold Part000.handler, Part000.post_order_limit, order_request.
  cbn [method path json]. eval_eqb.
  unfold try_catch, bind, request_json. cbn [json ret].
  unfold ret at 1. rewrite (destructure_ok host body w H).
  unfold rejected in R. rewrite R. reflexivity.
Qed.

Lemma serverjs_order_rejected host env body (w : World Maps) :
  nullish body = false -> rejected body = true ->
  ServerJs.post_order_limit host env body w = (Ok (json_error 400 "Missing required fields"), w).
Proof.
  intros H R. unfold ServerJs.post_order_limit.
  unfold try_catch, bind. rewrite (destructure_ok host body w H).
  unfold rejected in R. rewrite R. reflexivity.
Qed.

Lemma missing_rejected body : missing body -> rejected body = true.
Proof.
  unfold missing, rejected. intros [H|[H|[H|H]]]; rewrite H; cbn;
    rewrite ?orb_true_r; reflexivity.
Qed.

Lemma zero_not_truthy v : is_zero_number v = true -> truthy v = false.
Proof.
  destruct v as [| |b|n|s|l|l]; try discriminate. destruct n as [|s|q]; try discriminate.
  cbn. unfold Num.is_zero. intros ->. reflexivity.
Qed.

Lemma falsy_rejected body : falsy_field body -> rejected body = true.
Proof.
  unfold falsy_field, rejected. intros [H|[H|H]].
  - rewrite (zero_not_truthy _ H). cbn. rewrite ?orb_true_r. reflexivity.
  - rewrite (zero_not_truthy _ H). cbn. rewrite ?orb_true_r. reflexivity.
  - rewrite H. reflexivity.
Qed.

Lemma falsy_not_nullish body : falsy_field body -> nullish body = false.
Proof.
  unfold falsy_field. destruct body; cbn; try reflexivity; intros [H|[H|H]]; discriminate.
Qed.

(** ** The price route when the upstream fails *)

Ltac mock_leaves Hr :=
  eexists _, _; (split; [reflexivity|]); (split; [reflexivity|]); (split; [reflexivity|]);
  issued_simpl; try discriminate;
  try (intros _; eexists; (split; [reflexivity|]);
       (split; [reflexivity | cbn [price draws]; apply mock_price_range, Hr])).

Lemma main_price_fallback host env tp b (w : World MainJs.Cache) :
  unit_random env ->
  exists resp w', MainJs.handler host env (price_request tp b) w = (Ok resp, w') /\
    status resp = 200 /\ success_of resp = Some true /\
    (existsb failed (issued w w') = true ->
     exists p, price_of resp = Some p /\ is_mock_in_range p).
Proof.
  intros Hr. unfold MainJs.handler, price_request. cbn [method path]. eval_eqb.
  unfold MainJs.getCurrentPrice, MainJs.tinkoffRequest.
  repeat exec_step.
  all: mock_leaves Hr.
Qed.

Lemma part000_price_fallback host env tp b (w : World Maps) :
  unit_random env ->
  exists resp w', Part000.handler host env (price_request tp b) w = (Ok resp, w') /\
    status resp = 200 /\ success_of resp = Some true /\
    (existsb failed (issued w w') = true ->
     exists p, price_of resp = Some p /\ is_mock_in_range p).
Proof.
  intros Hr. unfold Part000.handler, price_request. cbn [method path]. eval_eqb.
  unfold Part000.get_price, Part000.getFigiForTicker, Part000.tinkoffRequest.
  repeat exec_step.
  all: mock_leaves Hr.
Qed.

Lemma serverjs_price_500 host env tk (w : World Maps) :
  exists resp w', ServerJs.get_price host env (Some tk) w = (Ok resp, w') /\
    (existsb failed (issued w w') = true ->
     status resp = 500 /\ success_of resp = Some false /\ data_of resp = None).
Proof.
  unfold ServerJs.get_price, ServerJs.getFigiForTicker, ServerJs.api.
  repeat exec_step.
  all: eexists _, _; (split; [reflexivity|]).
  all: issued_simpl; try discriminate.
  all: intros _; repeat split; reflexivity.
Qed.

(** ** The order route when the upstream fails *)

Ltac order_failure_leaves :=
  try congruence;
  eexists _, _; (split; [reflexivity|]);
  unfold last_issued; issued_simpl;
  cbn [List.last List.map success_of content json_ok json_error];
  (split; [try discriminate | try discriminate]);
  try (intros _; repeat split; try reflexivity; eexists; split; [reflexivity|];
       eapply says_why_message; eassumption);
  try (intros _; eauto).

Lemma main_order_failure host env tp body (w : World MainJs.Cache) :
  says_why env -> rejected body = false ->
  exists resp w', MainJs.handler host env (order_request tp body) w = (Ok resp, w') /\
    (existsb failed (issued w w') = true ->
     status resp = 500 /\ success_of resp = Some false /\ data_of resp = None /\
     exists m, error_of resp = Some m /\ m <> "") /\
    (success_of resp = Some true ->
     exists o p, last_issued w w' = Some (PostOrder o, Replied p) /\
                 data_of resp = Some (DRaw p)).
Proof.
  intros Hw Hv. destruct (body_of_valid body Hv) as [fs ->].
  unfold MainJs.handler, order_request. cbn [method path json]. eval_eqb.
  unfold MainJs.placeLimitOrder, MainJs.tinkoffRequest.
  unfold rejected, get_prop in Hv.
  repeat exec_step.
  all: order_failure_leaves.
Qed.

Lemma part000_order_failure host env tp body (w : World Maps) :
  says_why env -> rejected body = false ->
  exists resp w', Part000.handler host env (order_request tp body) w = (Ok resp, w') /\
    (existsb failed (issued w w') = true ->
     status resp = 500 /\ success_of resp = Some false /\ data_of resp = None /\
     exists m, error_of resp = Some m /\ m <> "") /\
    (success_of resp = Some true ->
     exists o p, last_issued w w' = Some (PostOrder o, Replied p) /\
                 data_of resp = Some (placed p)).
Proof.
  intros Hw Hv. destruct (body_of_valid body Hv) as [fs ->].
  unfold Part000.handler, order_request. cbn [method path json]. eval_eqb.
  unfold Part000.post_order_limit, Part000.getFigiForTicker, Part000.getAccountId,
    Part000.order_direction, Part000.generateOrderId, Part000.tinkoffRequest.
  unfold rejected, get_prop in Hv.
  repeat exec_step.
  all: order_failure_leaves.
Qed.

Lemma serverjs_order_failure host env body (w : World Maps) :
  says_why env -> rejected body = false ->
  exists resp w', ServerJs.post_order_limit host env body w = (Ok resp, w') /\
    (existsb failed (issued w w') = true ->
     status resp = 500 /\ success_of resp = Some false /\ data_of resp = None /\
     exists m, error_of resp = Some m /\ m <> "") /\
    (success_of resp = Some true ->
     exists o p, last_issued w w' = Some (PostOrder o, Replied p) /\
                 data_of resp = Some (placed p)).
Proof.
  intros Hw Hv. destruct (body_of_valid body Hv) as [fs ->].
  unfold ServerJs.post_order_limit, ServerJs.getFigiForTicker, ServerJs.getAccountId,
    ServerJs.generateOrderId, ServerJs.api.
  unfold rejected, get_prop in Hv.
  repeat exec_step.
  all: order_failure_leaves.
Qed.

(** ** The direction of an order *)





(** ** The ticker map *)

Lemma part000_getFigi_cached host env t f (w : World Maps) :
  tickerFigiMap (cache w) !! t = Some f ->
  Part000.getFigiForTicker host env (VStr t) w = (Ok f, w).
Proof.
  intros H. unfold Part000.getFigiForTicker, bind, get_cache. cbn [figi_get]. rewrite H.
  reflexivity.
Qed.

Lemma serverjs_getFigi_cached host env t f (w : World Maps) :
  tickerFigiMap (cache w) !! t = Some f ->
  ServerJs.getFigiForTicker host env (VStr t) w = (Ok f, w).
Proof.
  intros H. unfold ServerJs.getFigiForTicker, bind, get_cache. cbn [figi_get]. rewrite H.
  reflexivity.
Qed.

Lemma part000_getFigi_first host env t (w : World Maps) lat instruments inst :
  tickerFigiMap (cache w) !! t = None ->
  upstream env (sent w) (search t) = (lat, Replied (Instruments (Some instruments))) ->
  List.find (fun i => is_string (VStr t) (ticker_of i)) instruments = Some inst ->
  Part000.getFigiForTicker host env (VStr t) w =
    (Ok (figi inst),
     mkWorld (now w + lat) (sent w ++ [(search t, Replied (Instruments (Some instruments)))])
       (draws w) (figi_set (VStr t) (figi inst) (cache w))).
Proof.
  intros H U F. unfold Part000.getFigiForTicker, Part000.tinkoffRequest, bind at 1, get_cache.
  cbn [figi_get]. rewrite H. rewrite rethrow_eq. unfold bind at 1. rewrite rethrow_eq, remote_eq.
  fold (search t). rewrite U. cbn [fst snd instruments_of]. rewrite F. reflexivity.
Qed.

Lemma serverjs_getFigi_first host env t (w : World Maps) lat instruments inst :
  tickerFigiMap (cache w) !! t = None ->
  upstream env (sent w) (search t) = (lat, Replied (Instruments (Some instruments))) ->
  List.find (fun i => is_string (VStr t) (ticker_of i) && String.eqb (instrumentType i) "etf")
    instruments = Some inst ->
  ServerJs.getFigiForTicker host env (VStr t) w =
    (Ok (figi inst),
     mkWorld (now w + lat) (sent w ++ [(search t, Replied (Instruments (Some instruments)))])
       (draws w) (figi_set (VStr t) (figi inst) (cache w))).
Proof.
  intros H U F. unfold ServerJs.getFigiForTicker, ServerJs.api, bind at 1, get_cache.
  cbn [figi_get]. rewrite H. rewrite rethrow_eq. unfold bind at 1. rewrite remote_eq.
  fold (search t). rewrite U. cbn [fst snd instruments_of]. rewrite F. reflexivity.
Qed.

Lemma figi_set_keeps ticker figi m t f :
  figi_get ticker m = None -> tickerFigiMap m !! t = Some f ->
  tickerFigiMap (figi_set ticker figi m) !! t = Some f.
Proof.
  destruct ticker; cbn; try (intros; assumption).
  intros H1 H2. rewrite lookup_insert_ne; [assumption | congruence].
Qed.

(** ** The status route *)

(** C8 (main.js, part_000, server.js).  GET /api/status of main.js always
    answers 200, success true and "online", with no upstream call.  That of
    part_000 always answers 200 and success true, with "online" when the
    account lookup succeeds and "limited" when it throws.  That of server.js
    answers 200 and "online" when the lookup succeeds, and 500 with
    success false and the error's message when it throws. *)
Theorem status_degrades_or_500 host env tp b (w0 : World MainJs.Cache) (w : World Maps) :
  MainJs.handler host env (status_request tp b) w0 =
    (Ok (json_ok (DStatus "online" (now w0) (hasToken host)
                    (Some "Tinkoff API server is running") None None)), w0) /\
  (exists resp w', Part000.handler host env (status_request tp b) w = (Ok resp, w') /\
     status resp = 200 /\ success_of resp = Some true /\
     status_field resp =
       Some match fst (Part000.getAccountId env w) with
            | Ok _ => "online"
            | Throw _ => "limited"
            end) /\
  (exists resp w', ServerJs.get_status host env w = (Ok resp, w') /\
     match fst (ServerJs.getAccountId host env w) with
     | Ok _ => status resp = 200 /\ success_of resp = Some true /\
               status_field resp = Some "online"
     | Throw e => status resp = 500 /\ success_of resp = Some false /\
                  error_of resp = Some (message e)
     end).
Proof.
  split; [|split].
  - unfold MainJs.handler, status_request. cbn [method path]. eval_eqb. reflexivity.
  - unfold Part000.handler, status_request. cbn [method path]. eval_eqb.
    unfold Part000.get_status, try_catch, bind.
    destruct (Part000.getAccountId env w) as [[a|e] w1]; cbn; eauto 10.
  - unfold ServerJs.get_status, try_catch, bind.
    destruct (ServerJs.getAccountId host env w) as [[a|e] w1]; cbn; eauto 10.
Qed.

(** server.js, upstream unreachable: GET /api/status answers 500 with
    success false, after one failed account lookup. *)
Lemma serverjs_status_failure_is_500 :
  respond (ServerJs.get_status runtime offline (start no_maps)) =
    Some (json_error 500 "connection refused") /\
  calls (ServerJs.get_status runtime offline (start no_maps)) = [GetAccounts].
Proof. vm_compute. split; reflexivity. Qed.

(** ** The order route: presence of the fields *)

(** A body off which nothing can be read. *)
Lemma main_order_unreadable host env tp body (w : World MainJs.Cache) :
  nullish body = true ->
  MainJs.handler host env (order_request tp body) w =
    (Ok (json_error 500 (type_error host "body")), w).
Proof.
  intros H. unfold MainJs.handler, order_request. cbn [method path json]. eval_eqb.
  unfold try_catch, bind, request_json. cbn [json ret].
  unfold ret at 1. unfold destructure. rewrite H. reflexivity.
Qed.

Lemma part000_order_unreadable host env tp body (w : World Maps) :
  nullish body = true ->
  Part000.handler host env (order_request tp body) w =
    (Ok (json_error 500 (type_error host "body")), w).
Proof.
  intros H. unfold Part000.handler, Part000.post_order_limit, order_request.
  cbn [method path json]. eval_eqb.
  unfold try_catch, bind, request_json. cbn [json ret].
  unfold ret at 1. unfold destructure. rewrite H. reflexivity.
Qed.

Lemma serverjs_order_unreadable host env body (w : World Maps) :
  nullish body = true ->
  ServerJs.post_order_limit host env body w =
    (Ok (json_error 500 (type_error host "body")), w).
Proof.
  intros H. unfold ServerJs.post_order_limit.
  unfold try_catch, bind. unfold destructure. rewrite H. reflexivity.
Qed.

(** C5 (main.js, part_000, server.js), as amended.  A POST
    /api/order/limit whose body lacks one of ticker, quantity, price and
    direction is answered 400 when the body is a JSON value other than
    null, and 500 with the TypeError's message when it is null (nothing
    can be read off null); a body that is no JSON at all is answered 500
    with the parser's message.  In each case the world after the request
    is the world before it: no upstream call was made and no cache was
    written. *)
Theorem order_missing_field_400 host env tp body m
    (w0 : World MainJs.Cache) (w : World Maps) :
  missing body ->
  MainJs.handler host env (order_request tp body) w0 =
    (Ok (if nullish body then json_error 500 (type_error host "body")
         else json_error 400 "Missing required fields: ticker, quantity, price, direction"),
     w0) /\
  Part000.handler host env (order_request tp body) w =
    (Ok (if nullish body then json_error 500 (type_error host "body")
         else json_error 400 "Missing required fields: ticker, quantity, price, direction"),
     w) /\
  ServerJs.post_order_limit host env body w =
    (Ok (if nullish body then json_error 500 (type_error host "body")
         else json_error 400 "Missing required fields"), w) /\
  MainJs.handler host env (mkRequest "POST" "/api/order/limit" tp (Unparsable m)) w0 =
    (Ok (json_error 500 m), w0) /\
  Part000.handler host env (mkRequest "POST" "/api/order/limit" tp (Unparsable m)) w =
    (Ok (json_error 500 m), w).
Proof.
  intros Hm. apply missing_rejected in Hm.
  destruct (nullish body) eqn:Hn.
  - split; [|split; [|split; [|split]]].
    + apply main_order_unreadable, Hn.
    + apply part000_order_unreadable, Hn.
    + apply serverjs_order_unreadable, Hn.
    + reflexivity.
    + reflexivity.
  - split; [|split; [|split; [|split]]].
    + apply main_order_rejected; assumption.
    + apply part000_order_rejected; assumption.
    + apply serverjs_order_rejected; assumption.
    + reflexivity.
    + reflexivity.
Qed.

(** { ticker: "SBER", quantity: 10, price: 271.5 }: no direction. *)
Lemma order_missing_field_400_witness :
  missing (VObj [("ticker", VStr "SBER"); ("quantity", VNum (Num.Fin 10));
                 ("price", VNum (Num.Fin (543 # 2)))]) /\
  MainJs.handler runtime broker
    (order_request None (VObj [("ticker", VStr "SBER"); ("quantity", VNum (Num.Fin 10));
                               ("price", VNum (Num.Fin (543 # 2)))]))
    (start MainJs.initial) =
    (Ok (json_error 400 "Missing required fields: ticker, quantity, price, direction"),
     start MainJs.initial) /\
  Part000.handler runtime broker
    (order_request None (VObj [("ticker", VStr "SBER"); ("quantity", VNum (Num.Fin 10));
                               ("price", VNum (Num.Fin (543 # 2)))]))
    (start no_maps) =
    (Ok (json_error 400 "Missing required fields: ticker, quantity, price, direction"),
     start no_maps) /\
  ServerJs.post_order_limit runtime broker
    (VObj [("ticker", VStr "SBER"); ("quantity", VNum (Num.Fin 10));
           ("price", VNum (Num.Fin (543 # 2)))])
    (start no_maps) =
    (Ok (json_error 400 "Missing required fields"), start no_maps).
Proof.
  assert (Hm : missing (VObj [("ticker", VStr "SBER"); ("quantity", VNum (Num.Fin 10));
                              ("price", VNum (Num.Fin (543 # 2)))])).
  { right. right. right. reflexivity. }
  split; [exact Hm|].
  destruct (order_missing_field_400 runtime broker None _ "" (start MainJs.initial)
              (start no_maps) Hm) as [M [P [S _]]].
  exact (conj M (conj P S)).
Defined.

(** main.js, part_000: the JSON null for body has none of the four
    fields, and so has an empty body; both are answered 500, not 400. *)
Lemma order_without_body_is_500 :
  missing VNull /\
  MainJs.handler runtime broker (order_request None VNull) (start MainJs.initial) =
    (Ok (json_error 500 (type_error runtime "body")), start MainJs.initial) /\
  Part000.handler runtime broker (order_request None VNull) (start no_maps) =
    (Ok (json_error 500 (type_error runtime "body")), start no_maps) /\
  MainJs.handler runtime broker (mkRequest "POST" "/api/order/limit" None no_body)
    (start MainJs.initial) =
    (Ok (json_error 500 "Unexpected end of JSON input"), start MainJs.initial) /\
  Part000.handler runtime broker (mkRequest "POST" "/api/order/limit" None no_body)
    (start no_maps) =
    (Ok (json_error 500 "Unexpected end of JSON input"), start no_maps).
Proof.
  split; [left; reflexivity|].
  split; [|split; [|split]]; vm_compute; reflexivity.
Qed.

(** C9 (main.js, part_000, server.js), as amended.  An order whose
    quantity is the number 0, whose price is the number 0 or whose ticker
    is the empty string is answered 400 with the answer given to a body
    with no field at all, and the world is left as it was: nothing is sent
    upstream. *)
Theorem zero_or_empty_rejected host env tp body
    (w0 : World MainJs.Cache) (w : World Maps) :
  falsy_field body ->
  (MainJs.handler host env (order_request tp body) w0 =
     (Ok (json_error 400 "Missing required fields: ticker, quantity, price, direction"), w0) /\
   MainJs.handler host env (order_request tp body) w0 =
     MainJs.handler host env (order_request tp (VObj [])) w0) /\
  (Part000.handler host env (order_request tp body) w =
     (Ok (json_error 400 "Missing required fields: ticker, quantity, price, direction"), w) /\
   Part000.handler host env (order_request tp body) w =
     Part000.handler host env (order_request tp (VObj [])) w) /\
  (ServerJs.post_order_limit host env body w =
     (Ok (json_error 400 "Missing required fields"), w) /\
   ServerJs.post_order_limit host env body w =
     ServerJs.post_order_limit host env (VObj []) w).
Proof.
  intros Hf. pose proof (falsy_not_nullish body Hf) as Hn.
  apply falsy_rejected in Hf.
  split; [|split]; split.
  - apply main_order_rejected; assumption.
  - rewrite (main_order_rejected host env tp body w0 Hn Hf).
    symmetry. apply main_order_rejected; reflexivity.
  - apply part000_order_rejected; assumption.
  - rewrite (part000_order_rejected host env tp body w Hn Hf).
    symmetry. apply part000_order_rejected; reflexivity.
  - apply serverjs_order_rejected; assumption.
  - rewrite (serverjs_order_rejected host env body w Hn Hf).
    symmetry. apply serverjs_order_rejected; reflexivity.
Qed.

(** { ticker: "SBER", quantity: 0, price: 271.5, direction: "buy" } *)
Lemma zero_or_empty_rejected_witness :
  falsy_field (VObj [("ticker", VStr "SBER"); ("quantity", VNum (Num.Fin 0));
                     ("price", VNum (Num.Fin (543 # 2))); ("direction", VStr "buy")]) /\
  MainJs.handler runtime broker
    (order_request None
       (VObj [("ticker", VStr "SBER"); ("quantity", VNum (Num.Fin 0));
              ("price", VNum (Num.Fin (543 # 2))); ("direction", VStr "buy")]))
    (start MainJs.initial) =
    (Ok (json_error 400 "Missing required fields: ticker, quantity, price, direction"),
     start MainJs.initial) /\
  Part000.handler runtime broker
    (order_request None
       (VObj [("ticker", VStr "SBER"); ("quantity", VNum (Num.Fin 0));
              ("price", VNum (Num.Fin (543 # 2))); ("direction", VStr "buy")]))
    (start no_maps) =
    (Ok (json_error 400 "Missing required fields: ticker, quantity, price, direction"),
     start no_maps) /\
  ServerJs.post_order_limit runtime broker
    (VObj [("ticker", VStr "SBER"); ("quantity", VNum (Num.Fin 0));
           ("price", VNum (Num.Fin (543 # 2))); ("direction", VStr "buy")])
    (start no_maps) =
    (Ok (json_error 400 "Missing required fields"), start no_maps).
Proof.
  assert (Hf : falsy_field
                 (VObj [("ticker", VStr "SBER"); ("quantity", VNum (Num.Fin 0));
                        ("price", VNum (Num.Fin (543 # 2))); ("direction", VStr "buy")])).
  { left. reflexivity. }
  split; [exact Hf|].
  destruct (zero_or_empty_rejected runtime broker None _ (start MainJs.initial)
              (start no_maps) Hf) as [[M _] [[P _] [S _]]].
  exact (conj M (conj P S)).
Defined.

(** C9 as stated fails at the price 1e-10: it is truthy, the order passes
    the presence check, and the order sent upstream carries units 0 and
    nano 0, since Math.trunc(1e-10) is 0 and Math.round(0.1) is 0. *)
Lemma tiny_price_is_sent_as_zero :
  hardware (1e-10)%float = tenth_of_a_nano /\
  rejected (order_priced (VNum tenth_of_a_nano)) = false /\
  truthy (VNum tenth_of_a_nano) = true /\
  prices_sent (sent (snd (MainJs.handler runtime broker
                            (order_request None (order_priced (VNum tenth_of_a_nano)))
                            (start MainJs.initial)))) =
    [mkQuotation (Num.Fin 0) (Some (Num.Fin 0))] /\
  prices_sent (sent (snd (Part000.handler runtime broker
                            (order_request None (order_priced (VNum tenth_of_a_nano)))
                            (start no_maps)))) =
    [mkQuotation (Num.Fin 0) (Some (Num.Fin 0))] /\
  prices_sent (sent (snd (ServerJs.post_order_limit runtime broker
                            (order_priced (VNum tenth_of_a_nano)) (start no_maps)))) =
    [mkQuotation (Num.Fin 0) (Some (Num.Fin 0))].
Proof. vm_compute. repeat split; reflexivity. Qed.

(** ** The price route *)

(** C6 (main.js, part_000, server.js).  With Math.random() in [0, 1): when
    a call of GET /api/price to the upstream fails, main.js and part_000
    answer 200 with success true, isMock true and a price between 190 and
    192; server.js answers 500 with success false and no data. *)
Theorem price_failure_mock_or_500 host env tp b tk
    (w0 : World MainJs.Cache) (w : World Maps) :
  unit_random env ->
  (exists resp w', MainJs.handler host env (price_request tp b) w0 = (Ok resp, w') /\
     status resp = 200 /\ success_of resp = Some true /\
     (existsb failed (issued w0 w') = true ->
      exists p, price_of resp = Some p /\ is_mock_in_range p)) /\
  (exists resp w', Part000.handler host env (price_request tp b) w = (Ok resp, w') /\
     status resp = 200 /\ success_of resp = Some true /\
     (existsb failed (issued w w') = true ->
      exists p, price_of resp = Some p /\ is_mock_in_range p)) /\
  (exists resp w', ServerJs.get_price host env (Some tk) w = (Ok resp, w') /\
     (existsb failed (issued w w') = true ->
      status resp = 500 /\ success_of resp = Some false /\ data_of resp = None)).
Proof.
  intros Hr. split; [|split].
  - apply main_price_fallback, Hr.
  - apply part000_price_fallback, Hr.
  - apply serverjs_price_500.
Qed.

Lemma offline_unit_random : unit_random offline.
Proof. intros n. reflexivity. Qed.

(** The upstream cannot be reached: main.js and part_000 answer the price
    191 as a mock, server.js answers 500. *)
Lemma price_failure_mock_or_500_witness :
  unit_random offline /\
  (exists resp w',
     MainJs.handler runtime offline (price_request (Some "SBER") no_body)
       (start MainJs.initial) = (Ok resp, w') /\
     status resp = 200 /\ success_of resp = Some true /\
     (existsb failed (issued (start MainJs.initial) w') = true ->
      exists p, price_of resp = Some p /\ is_mock_in_range p)) /\
  (exists resp w',
     Part000.handler runtime offline (price_request (Some "SBER") no_body)
       (start no_maps) = (Ok resp, w') /\
     status resp = 200 /\ success_of resp = Some true /\
     (existsb failed (issued (start no_maps) w') = true ->
      exists p, price_of resp = Some p /\ is_mock_in_range p)) /\
  (exists resp w',
     ServerJs.get_price runtime offline (Some "SBER") (start no_maps) = (Ok resp, w') /\
     (existsb failed (issued (start no_maps) w') = true ->
      status resp = 500 /\ success_of resp = Some false /\ data_of resp = None)).
Proof.
  split; [exact offline_unit_random|].
  exact (price_failure_mock_or_500 runtime offline (Some "SBER") no_body "SBER"
           (start MainJs.initial) (start no_maps) offline_unit_random).
Defined.

(** server.js, upstream unreachable: GET /api/price?ticker=SBER answers 500
    with success false and no price, after one failed search. *)
Lemma serverjs_price_failure_is_500 :
  respond (ServerJs.get_price runtime offline (Some "SBER") (start no_maps)) =
    Some (json_error 500 "connection refused") /\
  sent (snd (ServerJs.get_price runtime offline (Some "SBER") (start no_maps))) =
    [(search "SBER", Failed (NetworkError "connection refused"))] /\
  (respond (ServerJs.get_price runtime offline (Some "SBER") (start no_maps)) ≫= price_of)
    = None.
Proof. vm_compute. repeat split; reflexivity. Qed.

(** main.js and part_000 on the same request: 200 and the mock price 191. *)
Lemma price_failure_mock_examples :
  (respond (MainJs.handler runtime offline (price_request (Some "SBER") no_body)
              (start MainJs.initial)) ≫= price_of) =
    Some {| price := Num.Fin 191; timestamp := 1000040; price_figi := None;
            price_ticker := Some "SBER"; isMock := true |} /\
  (respond (Part000.handler runtime offline (price_request (Some "SBER") no_body)
              (start no_maps)) ≫= price_of) =
    Some {| price := Num.Fin 191; timestamp := 1000040; price_figi := None;
            price_ticker := Some "SBER"; isMock := true |}.
Proof. vm_compute. split; reflexivity. Qed.

(** ** The order route when the upstream fails *)

(** C7 (main.js, part_000, server.js).  Where the runtime's own errors
    carry a text: an order that passes the presence check and one of whose
    upstream calls fails is answered 500 with success false, no data and a
    non-empty error.  An answer with success true is made from the reply
    of the upstream to the order, the last call of the request: there is no
    fallback payload. *)
Theorem order_failure_is_500 host env tp body
    (w0 : World MainJs.Cache) (w : World Maps) :
  says_why env -> rejected body = false ->
  (exists resp w', MainJs.handler host env (order_request tp body) w0 = (Ok resp, w') /\
     (existsb failed (issued w0 w') = true ->
      status resp = 500 /\ success_of resp = Some false /\ data_of resp = None /\
      exists m, error_of resp = Some m /\ m <> "") /\
     (success_of resp = Some true ->
      exists o p, last_issued w0 w' = Some (PostOrder o, Replied p) /\
                  data_of resp = Some (DRaw p))) /\
  (exists resp w', Part000.handler host env (order_request tp body) w = (Ok resp, w') /\
     (existsb failed (issued w w') = true ->
      status resp = 500 /\ success_of resp = Some false /\ data_of resp = None /\
      exists m, error_of resp = Some m /\ m <> "") /\
     (success_of resp = Some true ->
      exists o p, last_issued w w' = Some (PostOrder o, Replied p) /\
                  data_of resp = Some (placed p))) /\
  (exists resp w', ServerJs.post_order_limit host env body w = (Ok resp, w') /\
     (existsb failed (issued w w') = true ->
      status resp = 500 /\ success_of resp = Some false /\ data_of resp = None /\
      exists m, error_of resp = Some m /\ m <> "") /\
     (success_of resp = Some true ->
      exists o p, last_issued w w' = Some (PostOrder o, Replied p) /\
                  data_of resp = Some (placed p))).
Proof.
  intros Hw Hv. split; [|split].
  - apply main_order_failure; assumption.
  - apply part000_order_failure; assumption.
  - apply serverjs_order_failure; assumption.
Qed.

Lemma offline_says_why : says_why offline.
Proof. intros h c. cbn. discriminate. Qed.

(** A valid order while the upstream cannot be reached. *)
Lemma order_failure_is_500_witness :
  says_why offline /\ rejected (order_body (VStr "sell")) = false /\
  (exists resp w',
     MainJs.handler runtime offline (order_request None (order_body (VStr "sell")))
       (start MainJs.initial) = (Ok resp, w') /\
     (existsb failed (issued (start MainJs.initial) w') = true ->
      status resp = 500 /\ success_of resp = Some false /\ data_of resp = None /\
      exists m, error_of resp = Some m /\ m <> "") /\
     (success_of resp = Some true ->
      exists o p, last_issued (start MainJs.initial) w' = Some (PostOrder o, Replied p) /\
                  data_of resp = Some (DRaw p))) /\
  (exists resp w',
     Part000.handler runtime offline (order_request None (order_body (VStr "sell")))
       (start no_maps) = (Ok resp, w') /\
     (existsb failed (issued (start no_maps) w') = true ->
      status resp = 500 /\ success_of resp = Some false /\ data_of resp = None /\
      exists m, error_of resp = Some m /\ m <> "") /\
     (success_of resp = Some true ->
      exists o p, last_issued (start no_maps) w' = Some (PostOrder o, Replied p) /\
                  data_of resp = Some (placed p))) /\
  (exists resp w',
     ServerJs.post_order_limit runtime offline (order_body (VStr "sell")) (start no_maps) =
       (Ok resp, w') /\
     (existsb failed (issued (start no_maps) w') = true ->
      status resp = 500 /\ success_of resp = Some false /\ data_of resp = None /\
      exists m, error_of resp = Some m /\ m <> "") /\
     (success_of resp = Some true ->
      exists o p, last_issued (start no_maps) w' = Some (PostOrder o, Replied p) /\
                  data_of resp = Some (placed p))).
Proof.
  split; [exact offline_says_why|]. split; [reflexivity|].
  exact (order_failure_is_500 runtime offline None (order_body (VStr "sell"))
           (start MainJs.initial) (start no_maps) offline_says_why eq_refl).
Defined.

(** The same request, evaluated: the three variants answer 500 with the
    text of the failure, after the one call that failed. *)
Lemma order_failure_examples :
  respond (MainJs.handler runtime offline (order_request None (order_body (VStr "sell")))
             (start MainJs.initial)) = Some (json_error 500 "connection refused") /\
  respond (Part000.handler runtime offline (order_request None (order_body (VStr "sell")))
             (start no_maps)) = Some (json_error 500 "connection refused") /\
  respond (ServerJs.post_order_limit runtime offline (order_body (VStr "sell"))
             (start no_maps)) = Some (json_error 500 "connection refused") /\
  calls (Part000.handler runtime offline (order_request None (order_body (VStr "sell")))
           (start no_maps)) = [search "SBER"].
Proof. vm_compute. repeat split; reflexivity. Qed.

(** ** The direction of an order *)






(** main.js and server.js on the same body: 200 after a SELL order. *)
Lemma direction_not_a_string_examples :
  (respond (MainJs.handler runtime broker
              (order_request None (order_body (VNum (Num.Fin 1)))) (start MainJs.initial))
     ≫= fun r => Some (status r)) = Some 200 /\
  forallb sells (sent (snd (MainJs.handler runtime broker
              (order_request None (order_body (VNum (Num.Fin 1)))) (start MainJs.initial))))
    = true /\
  (respond (ServerJs.post_order_limit runtime broker (order_body (VNum (Num.Fin 1)))
              (start no_maps))
     ≫= fun r => Some (status r)) = Some 200 /\
  forallb sells (sent (snd (ServerJs.post_order_limit runtime broker
              (order_body (VNum (Num.Fin 1))) (start no_maps)))) = true.
Proof. vm_compute. repeat split; reflexivity. Qed.

(** ** The ticker map *)

(** C2 (part_000, server.js).  For a ticker that is not in the map, when
    the search is answered with a list that holds a matching instrument
    (in server.js: a matching ETF): the first getFigiForTicker issues the
    search and nothing else, stores the figi under the ticker and returns
    it; the second returns the same figi and leaves the world, traffic
    included, as it was; and so does every later call in a world whose map
    still holds the entry. *)
Theorem resolve_ticker_once host env t (w : World Maps) lat instruments :
  tickerFigiMap (cache w) !! t = None ->
  upstream env (sent w) (search t) = (lat, Replied (Instruments (Some instruments))) ->
  (forall inst,
     List.find (fun i => is_string (VStr t) (ticker_of i)) instruments = Some inst ->
     fst (Part000.getFigiForTicker host env (VStr t) w) = Ok (figi inst) /\
     issued w (snd (Part000.getFigiForTicker host env (VStr t) w)) =
       [(search t, Replied (Instruments (Some instruments)))] /\
     tickerFigiMap (cache (snd (Part000.getFigiForTicker host env (VStr t) w))) !! t =
       Some (figi inst) /\
     Part000.getFigiForTicker host env (VStr t)
       (snd (Part000.getFigiForTicker host env (VStr t) w)) =
       (Ok (figi inst), snd (Part000.getFigiForTicker host env (VStr t) w)) /\
     forall w2 : World Maps, tickerFigiMap (cache w2) !! t = Some (figi inst) ->
       Part000.getFigiForTicker host env (VStr t) w2 = (Ok (figi inst), w2)) /\
  (forall inst,
     List.find (fun i => is_string (VStr t) (ticker_of i) &&
                         String.eqb (instrumentType i) "etf") instruments = Some inst ->
     fst (ServerJs.getFigiForTicker host env (VStr t) w) = Ok (figi inst) /\
     issued w (snd (ServerJs.getFigiForTicker host env (VStr t) w)) =
       [(search t, Replied (Instruments (Some instruments)))] /\
     tickerFigiMap (cache (snd (ServerJs.getFigiForTicker host env (VStr t) w))) !! t =
       Some (figi inst) /\
     ServerJs.getFigiForTicker host env (VStr t)
       (snd (ServerJs.getFigiForTicker host env (VStr t) w)) =
       (Ok (figi inst), snd (ServerJs.getFigiForTicker host env (VStr t) w)) /\
     forall w2 : World Maps, tickerFigiMap (cache w2) !! t = Some (figi inst) ->
       ServerJs.getFigiForTicker host env (VStr t) w2 = (Ok (figi inst), w2)).
Proof.
  intros H U. split; intros inst F.
  - rewrite (part000_getFigi_first host env t w lat instruments inst H U F).
    cbn [fst snd]. repeat split.
    + apply issued_app.
    + cbn [cache figi_set tickerFigiMap]. apply lookup_insert_eq.
    + apply part000_getFigi_cached. cbn [cache figi_set tickerFigiMap]. apply lookup_insert_eq.
    + intros w2 H2. apply part000_getFigi_cached, H2.
  - rewrite (serverjs_getFigi_first host env t w lat instruments inst H U F).
    cbn [fst snd]. repeat split.
    + apply issued_app.
    + cbn [cache figi_set tickerFigiMap]. apply lookup_insert_eq.
    + apply serverjs_getFigi_cached. cbn [cache figi_set tickerFigiMap]. apply lookup_insert_eq.
    + intros w2 H2. apply serverjs_getFigi_cached, H2.
Qed.

(** resolveTicker("SBER") twice in succession, from empty maps. *)
Lemma resolve_ticker_once_witness :
  tickerFigiMap (cache (start no_maps)) !! "SBER" = None /\
  (fst (Part000.getFigiForTicker runtime broker (VStr "SBER") (start no_maps)) =
     Ok "BBG004730N88" /\
   issued (start no_maps)
     (snd (Part000.getFigiForTicker runtime broker (VStr "SBER") (start no_maps))) =
     [(search "SBER",
       Replied (Instruments (Some [mkInstrument "BBG004730N88" "SBER" "etf"])))] /\
   Part000.getFigiForTicker runtime broker (VStr "SBER")
     (snd (Part000.getFigiForTicker runtime broker (VStr "SBER") (start no_maps))) =
     (Ok "BBG004730N88",
      snd (Part000.getFigiForTicker runtime broker (VStr "SBER") (start no_maps)))) /\
  (fst (ServerJs.getFigiForTicker runtime broker (VStr "SBER") (start no_maps)) =
     Ok "BBG004730N88" /\
   issued (start no_maps)
     (snd (ServerJs.getFigiForTicker runtime broker (VStr "SBER") (start no_maps))) =
     [(search "SBER",
       Replied (Instruments (Some [mkInstrument "BBG004730N88" "SBER" "etf"])))] /\
   ServerJs.getFigiForTicker runtime broker (VStr "SBER")
     (snd (ServerJs.getFigiForTicker runtime broker (VStr "SBER") (start no_maps))) =
     (Ok "BBG004730N88",
      snd (ServerJs.getFigiForTicker runtime broker (VStr "SBER") (start no_maps)))).
Proof.
  split; [reflexivity|].
  destruct (resolve_ticker_once runtime broker "SBER" (start no_maps) 40
              [mkInstrument "BBG004730N88" "SBER" "etf"] eq_refl eq_refl) as [P S].
  destruct (P (mkInstrument "BBG004730N88" "SBER" "etf") eq_refl) as [P1 [P2 [_ [P4 _]]]].
  destruct (S (mkInstrument "BBG004730N88" "SBER" "etf") eq_refl) as [S1 [S2 [_ [S4 _]]]].
  exact (conj (conj P1 (conj P2 P4)) (conj S1 (conj S2 S4))).
Defined.

(** ** The price cache *)

(** C1 (main.js).  SBER is asked at 1 000 000 ms, GAZP at 1 006 000 ms and
    SBER again at 1 007 000 ms.  The third request is answered with the
    entry fetched at 1 000 000 ms, 7 000 ms old, and issues no call: the
    traffic after it is the traffic after the second request. *)
Theorem main_serves_stale_price :
  (respond main_third ≫= price_of) =
    Some {| price := Num.Fin (543 # 2); timestamp := 1000000;
            price_figi := Some "BBG004730N88"; price_ticker := Some "SBER";
            isMock := false |} /\
  calls main_second = [search "SBER"; GetOrderBook "BBG004730N88" 1;
                       search "GAZP"; GetOrderBook "BBG004730N88" 1] /\
  calls main_third = calls main_second /\
  (1007000 - 1000000 <? 5000) = false.
Proof. vm_compute. repeat split; reflexivity. Qed.

(** part_000 on the same three requests: the third one asks the upstream
    for the price again. *)
Lemma part000_refetches_stale_price :
  (respond part000_third ≫= price_of) =
    Some {| price := Num.Fin (543 # 2); timestamp := 1007040;
            price_figi := Some "BBG004730N88"; price_ticker := Some "SBER";
            isMock := false |} /\
  calls part000_third = calls part000_second ++ [GetOrderBook "BBG004730N88" 1].
Proof. vm_compute. split; reflexivity. Qed.

(** part_000: an entry of the ticker younger than 5000 ms is the answer,
    and the world is left as it was. *)
Lemma part000_price_hit host env tp b (w : World Maps) p :
  fresh (now w) (ticker_or_SBER (price_request tp b)) (cache w) = Some p ->
  Part000.handler host env (price_request tp b) w = (Ok (json_ok (DPrice p)), w).
Proof.
  intros H. unfold Part000.handler, price_request in *. cbn [method path]. eval_eqb.
  unfold Part000.get_price, try_catch, bind, date_now, get_cache. rewrite H. reflexivity.
Qed.

(** SBER asked again 2 s after the first request. *)
Lemma part000_price_hit_witness :
  Part000.handler runtime broker (price_request (Some "SBER") no_body)
    (at_time 1002000 (snd part000_first)) =
    (Ok (json_ok (DPrice {| price := Num.Fin (543 # 2); timestamp := 1000080;
                            price_figi := Some "BBG004730N88";
                            price_ticker := Some "SBER"; isMock := false |})),
     at_time 1002000 (snd part000_first)).
Proof.
  apply (part000_price_hit runtime broker (Some "SBER") no_body
           (at_time 1002000 (snd part000_first))).
  vm_compute. reflexivity.
Defined.

(** part_000: without such an entry the request issues one or two calls,
    at most one of them for the price, and exactly one when the ticker is
    resolved. *)
Lemma part000_price_miss host env tp b (w : World Maps) :
  fresh (now w) (ticker_or_SBER (price_request tp b)) (cache w) = None ->
  exists resp w', Part000.handler host env (price_request tp b) w = (Ok resp, w') /\
    (length (issued w w') = 1 \/ length (issued w w') = 2)%nat /\
    (length (List.filter is_price_call (issued w w')) <= 1)%nat /\
    (succeeded (Part000.getFigiForTicker host env
                  (VStr (ticker_or_SBER (price_request tp b))) w) = true ->
     length (List.filter is_price_call (issued w w')) = 1%nat).
Proof.
  intros H. unfold Part000.handler, price_request in *. cbn [method path]. eval_eqb.
  unfold Part000.get_price, try_catch, bind, date_now, get_cache.
  rewrite H. unfold Part000.getFigiForTicker, Part000.tinkoffRequest, succeeded.
  repeat exec_step.
  all: eexists _, _; (split; [reflexivity|]); issued_simpl;
       cbn [List.filter is_price_call fst length]; repeat split; try lia; try discriminate;
       auto.
Qed.

(** SBER asked again 7 s after the first request. *)
Lemma part000_price_miss_witness :
  fresh 1007000 "SBER" (cache (snd part000_first)) = None /\
  exists resp w',
    Part000.handler runtime broker (price_request (Some "SBER") no_body)
      (at_time 1007000 (snd part000_first)) = (Ok resp, w') /\
    (length (issued (at_time 1007000 (snd part000_first)) w') = 1 \/
     length (issued (at_time 1007000 (snd part000_first)) w') = 2)%nat /\
    (length (List.filter is_price_call (issued (at_time 1007000 (snd part000_first)) w'))
       <= 1)%nat /\
    (succeeded (Part000.getFigiForTicker runtime broker
                  (VStr (ticker_or_SBER (price_request (Some "SBER") no_body)))
                  (at_time 1007000 (snd part000_first))) = true ->
     length (List.filter is_price_call (issued (at_time 1007000 (snd part000_first)) w'))
       = 1%nat).
Proof.
  split; [vm_compute; reflexivity|].
  apply (part000_price_miss runtime broker (Some "SBER") no_body
           (at_time 1007000 (snd part000_first))).
  vm_compute. reflexivity.
Defined.

(** part_000, server.js: whether the entry of a ticker is fresh does not
    change when the price of another ticker is stored. *)
Lemma fresh_other now t t' pd m : t <> t' ->
  fresh now t (price_set t' pd m) = fresh now t m.
Proof.
  intros H. unfold fresh, price_set. cbn [priceCache]. rewrite lookup_insert_ne by congruence.
  reflexivity.
Qed.

Lemma fresh_other_witness :
  fresh 1007000 "SBER"
    (price_set "GAZP" (mkPriceData (Num.Fin 100) 1006000 None (Some "GAZP") false)
       (cache (snd part000_first))) =
  fresh 1007000 "SBER" (cache (snd part000_first)).
Proof. apply fresh_other. discriminate. Defined.

(** fresh: the entry stored for the ticker, when less than 5000 ms old. *)
Lemma fresh_spec now t m p :
  fresh now t m = Some p <-> priceCache m !! t = Some p /\ now - timestamp p < 5000.
Proof.
  unfold fresh, CACHE_TTL_MS.
  destruct (priceCache m !! t) as [c|]; [|split; [discriminate | intros [? _]; discriminate]].
  destruct (Z.ltb_spec (now - timestamp c) 5000); split.
  - intros [= ->]. split; [reflexivity | assumption].
  - intros [[= ->] _]. reflexivity.
  - discriminate.
  - intros [[= ->] ?]. lia.
Qed.

(** part_000: no request removes or replaces a resolved ticker. *)
Lemma part000_keeps_figi host env request (w : World Maps) t f :
  tickerFigiMap (cache w) !! t = Some f ->
  tickerFigiMap (cache (snd (Part000.handler host env request w))) !! t = Some f.
Proof.
  intros H. unfold Part000.handler, Part000.get_price, Part000.get_portfolio,
    Part000.post_order_limit, Part000.get_status, Part000.getFigiForTicker,
    Part000.getAccountId, Part000.order_direction, Part000.generateOrderId,
    Part000.tinkoffRequest.
  repeat exec_step.
  all: cbn [cache snd price_set account_set tickerFigiMap]; try assumption.
  all: try (apply figi_set_keeps; assumption).
  all: try (cbn [figi_set tickerFigiMap]; rewrite lookup_insert_ne; [assumption|];
            cbn [figi_get] in *; congruence).
Qed.

Lemma part000_keeps_figi_witness :
  tickerFigiMap (cache (snd part000_first)) !! "SBER" = Some "BBG004730N88" /\
  tickerFigiMap (cache (snd part000_second)) !! "SBER" = Some "BBG004730N88".
Proof.
  split; [vm_compute; reflexivity|].
  apply (part000_keeps_figi runtime broker (price_request (Some "GAZP") no_body)
           (at_time 1006000 (snd part000_first)) "SBER" "BBG004730N88").
  vm_compute. reflexivity.
Defined.

(** server.js, an order at the price 0.9999999996: the order sent upstream
    carries units 0 and nano 1 000 000 000. *)
Lemma serverjs_order_sends_one_billion_nano :
  List.map (fun x => match fst x with
                     | PostOrder o => Some (o_price o)
                     | _ => None
                     end)
    (sent (snd (ServerJs.post_order_limit runtime broker
                  (VObj [("ticker", VStr "SBER"); ("quantity", VNum (Num.Fin 10));
                         ("price", VNum just_below_one); ("direction", VStr "buy")])
                  (start no_maps)))) =
  [None; None; Some (mkQuotation (Num.Fin 0) (Some (Num.Fin 1000000000)))].
Proof. vm_compute. reflexivity. Qed.

(* ================================================================== *)
(** * Part VI. Quotations of the upstream                              *)
(* ================================================================== *)

Section QuotationFacts.
Import Num.
Local Open Scope Q_scope.

Lemma round_grid_idem x : round_grid (round_grid x) == round_grid x.
Proof.
  destruct (Qeq_dec x 0) as [E|E].
  - rewrite (round_grid_0 x E). reflexivity.
  - rewrite (round_grid_nz x E). set (e := fexp x). set (m := rne (x / pow2 e)).
    assert (P := pow2_pos e).
    assert (He : (emin <= e)%Z) by apply fexp_ge_emin.
    destruct (ilog2_spec x E) as [_ U].
    assert (L : pow2 (ilog2 x + 1) <= pow2 (e + 53)).
    { apply pow2_le. unfold e, fexp, prec. lia. }
    assert (B : Qabs x < pow2 (e + 53)) by lra.
    assert (P53 : pow2 (e + 53) == inject_Z (2 ^ 53) * pow2 e).
    { rewrite pow2_add, <- (pow2_Z 53) by lia. ring. }
    apply Qabs_Qlt_condition in B. destruct B as [B1 B2].
    assert (M1 : (- 2 ^ 53 <= m)%Z).
    { apply rne_ge. apply Qle_shift_div_l; [exact P|]. rewrite inject_Z_opp. lra. }
    assert (M2 : (m <= 2 ^ 53)%Z).
    { apply rne_le. apply Qle_shift_div_r; [exact P|]. lra. }
    destruct (Z.eq_dec m (2 ^ 53)) as [T|T]; [|destruct (Z.eq_dec m (- 2 ^ 53)) as [T'|T']].
    + apply (round_grid_exact 1 (e + 53)).
      * lia.
      * rewrite T, <- P53. apply Qabs_Qlt_condition.
        assert (Q1 := pow2_pos (e + 53)).
        assert (Q2 : pow2 (e + 53) < pow2 (e + 53 + 53)) by (apply pow2_lt; lia).
        lra.
      * rewrite T, <- P53. change (inject_Z 1) with 1. ring.
    + apply (round_grid_exact (-1) (e + 53)).
      * lia.
      * rewrite T', inject_Z_opp.
        assert (Q1 := pow2_pos (e + 53)).
        assert (Q2 : pow2 (e + 53) < pow2 (e + 53 + 53)) by (apply pow2_lt; lia).
        apply Qabs_Qlt_condition. lra.
      * rewrite T', inject_Z_opp. change (inject_Z (-1)) with (-(1)). lra.
    + apply (round_grid_exact m e); [exact He | | reflexivity].
      assert (A1 : inject_Z (- 2 ^ 53 + 1) <= inject_Z m) by (apply inj_le; lia).
      assert (A2 : inject_Z m <= inject_Z (2 ^ 53 - 1)) by (apply inj_le; lia).
      unfold Z.sub in A2. rewrite inject_Z_plus, inject_Z_opp in A1, A2.
      change (inject_Z 1) with 1 in *. change (inject_Z (-1)) with (-(1)) in *.
      apply Qabs_Qlt_condition. rewrite P53.
      set (K := inject_Z (2 ^ 53)) in *. set (mm := inject_Z m) in *.
      assert (0 <= (mm - (- K + 1)) * pow2 e) by (apply Qmult_le_0_compat; lra).
      assert (0 <= (K - 1 - mm) * pow2 e) by (apply Qmult_le_0_compat; lra).
      split; lra.
Qed.

Lemma ilog2_comp x y : ~ x == 0 -> x == y -> ilog2 x = ilog2 y.
Proof.
  intros Z E. assert (Zy : ~ y == 0) by (rewrite <- E; exact Z).
  destruct (ilog2_spec y Zy) as [A B]. apply ilog2_unique; rewrite E; assumption.
Qed.

Lemma round_grid_comp x y : x == y -> round_grid x == round_grid y.
Proof.
  intros E. destruct (Qeq_dec x 0) as [Z|Z].
  - assert (Zy : y == 0) by (rewrite <- E; exact Z).
    rewrite (round_grid_0 x Z), (round_grid_0 y Zy). reflexivity.
  - assert (Zy : ~ y == 0) by (rewrite <- E; exact Z).
    rewrite (round_grid_nz x Z), (round_grid_nz y Zy).
    unfold fexp. rewrite (ilog2_comp x y Z E).
    set (e := Z.max (ilog2 y - (prec - 1)) emin).
    rewrite (rne_comp (x / pow2 e) (y / pow2 e)); [reflexivity|].
    rewrite E. reflexivity.
Qed.

(** What an operation delivers as a finite number is a binary64 value. *)
Lemma of_real_binary64 x r : of_real x = Fin r -> is_binary64 r = true.
Proof.
  unfold of_real. destruct (Qle_bool (pow2 emax) (Qabs (round_grid x))) eqn:T; [discriminate|].
  intros [= <-]. unfold is_binary64.
  assert (R : Qred (round_grid x) == round_grid x) by apply Qred_correct.
  apply andb_true_intro. split.
  - apply Qeq_bool_iff. rewrite (round_grid_comp _ _ R), R. apply round_grid_idem.
  - apply negb_true_iff. apply not_true_is_false. intros C.
    apply Qle_bool_iff in C. rewrite R in C. apply Qle_bool_iff in C. congruence.
Qed.

Lemma Qtrunc_unique_pos (u : Z) v : (0 <= u)%Z ->
  inject_Z u <= v -> v < inject_Z u + 1 -> Qtrunc v = u.
Proof.
  intros U L R. assert (U' := inj_le _ _ U). change (inject_Z 0) with 0 in U'.
  destruct (Qtrunc_cases v) as [[T0 [T1 [T2 T3]]]|[T0 [T1 [T2 T3]]]].
  - assert (A : (Qtrunc v <= u)%Z) by (apply inject_Z_lt1; lra).
    assert (B : (u <= Qtrunc v)%Z) by (apply inject_Z_lt1; lra).
    lia.
  - assert (A : (Qtrunc v <= u)%Z) by (apply inject_Z_lt1; lra).
    assert (B : (u <= Qtrunc v)%Z) by (apply inject_Z_lt1; lra).
    lia.
Qed.

Lemma Qtrunc_unique_neg (u : Z) v : (u <= 0)%Z ->
  v <= inject_Z u -> inject_Z u - 1 < v -> Qtrunc v = u.
Proof.
  intros U L R. assert (U' := inj_le _ _ U). change (inject_Z 0) with 0 in U'.
  destruct (Qtrunc_cases v) as [[T0 [T1 [T2 T3]]]|[T0 [T1 [T2 T3]]]].
  - assert (A : (Qtrunc v <= u)%Z) by (apply inject_Z_lt1; lra).
    assert (B : (u <= Qtrunc v)%Z) by (apply inject_Z_lt1; lra).
    lia.
  - assert (A : (Qtrunc v <= u)%Z) by (apply inject_Z_lt1; lra).
    assert (B : (u <= Qtrunc v)%Z) by (apply inject_Z_lt1; lra).
    lia.
Qed.

(** (nano || 0) / 1_000_000_000 for an integer nano short of a billion. *)
Lemma div_billion n : (-1000000000 < n < 1000000000)%Z ->
  exists f, div (or_zero (Some (Fin (inject_Z n)))) billion = Fin f /\
    - (1 # 18014398509481984) <= f - inject_Z n * (1 # 1000000000) /\
    f - inject_Z n * (1 # 1000000000) <= 1 # 18014398509481984 /\
    ((0 <= n)%Z -> 0 <= f /\ f <= 1 - (1 # 1073741824)) /\
    ((n <= 0)%Z -> - (1 - (1 # 1073741824)) <= f /\ f <= 0).
Proof.
  intros [N1 N2].
  assert (Qb1 : -999999999 <= inject_Z n) by (apply (inj_le (-999999999) n); lia).
  assert (Qb2 : inject_Z n <= 999999999) by (apply (inj_le n 999999999); lia).
  assert (A : exists a, or_zero (Some (Fin (inject_Z n))) = Fin a /\ a == inject_Z n).
  { unfold or_zero, truthy, is_zero. destruct (Qeq_bool (inject_Z n) 0) eqn:T; simpl.
    - exists 0. split; [reflexivity|]. apply Qeq_bool_eq in T. symmetry. exact T.
    - exists (inject_Z n). split; reflexivity. }
  destruct A as [a [Ea Ra]]. rewrite Ea. unfold div, billion.
  change (is_zero 1000000000) with false. cbv iota.
  set (y := a / 1000000000).
  assert (Ey : y == a * (1 # 1000000000)) by reflexivity.
  assert (Y1 : -1 <= y) by (rewrite Ey, Ra; lra).
  assert (Y2 : y <= 1) by (rewrite Ey, Ra; lra).
  assert (YA : Qabs y <= pow2 0).
  { apply Qabs_Qle_condition. change (pow2 0) with 1. lra. }
  destruct (of_real_finite y 0) as [f [Ef Rf]]; [unfold emin; lia | exact YA |].
  exists f. split; [exact Ef|].
  assert (Qe : Qabs (round_grid y - y) <= pow2 (0 - 54)).
  { apply round_grid_err; [unfold emin; lia | exact YA]. }
  apply Qabs_Qle_condition in Qe. destruct Qe as [Qe1 Qe2].
  assert (P54 : pow2 (0 - 54) == 1 # 18014398509481984) by reflexivity.
  rewrite P54 in Qe1, Qe2. rewrite <- Rf in Qe1, Qe2. rewrite Ey, Ra in Qe1, Qe2.
  assert (YB : Qabs y < pow2 (-30 + 53)).
  { apply Qabs_Qlt_condition. change (pow2 (-30 + 53)) with 8388608. lra. }
  assert (G : inject_Z 1073741823 * pow2 (-30) == 1 - (1 # 1073741824)) by reflexivity.
  assert (G' : inject_Z (-1073741823) * pow2 (-30) == - (1 - (1 # 1073741824))) by reflexivity.
  assert (G0 : inject_Z 0 * pow2 (-30) == 0) by reflexivity.
  split; [exact Qe1|]. split; [exact Qe2|]. split.
  - intros S. apply inj_le in S. change (inject_Z 0) with 0 in S. rewrite Rf. split.
    + rewrite <- G0. apply round_grid_ge; [unfold emin; lia | exact YB |].
      rewrite G0, Ey, Ra. lra.
    + rewrite <- G. apply round_grid_le; [unfold emin; lia | exact YB |].
      rewrite G, Ey, Ra. lra.
  - intros S. apply inj_le in S. change (inject_Z 0) with 0 in S. rewrite Rf. split.
    + rewrite <- G'. apply round_grid_ge; [unfold emin; lia | exact YB |].
      rewrite G', Ey, Ra. lra.
    + rewrite <- G0. apply round_grid_le; [unfold emin; lia | exact YB |].
      rewrite G0, Ey, Ra. lra.
Qed.

Lemma grid30 (u c : Z) :
  inject_Z (u * 1073741824 + c) * pow2 (-30) == inject_Z u + inject_Z c * (1 # 1073741824).
Proof.
  rewrite inject_Z_plus, inject_Z_mult. change (pow2 (-30)) with (1 # 1073741824).
  change (inject_Z 1073741824) with 1073741824. field.
Qed.

(** units + (nano || 0) / 1_000_000_000 for a quotation of the upstream:
    whole units below 2^23 in size, nano short of a billion, of one sign. *)
Lemma quotation_value u n :
  (-8388608 < u < 8388608)%Z -> (-1000000000 < n < 1000000000)%Z ->
  (0 <= u /\ 0 <= n \/ u <= 0 /\ n <= 0)%Z ->
  exists v,
    quotationToFloat (Some (mkQuotation (Fin (inject_Z u)) (Some (Fin (inject_Z n))))) = Fin v /\
    is_binary64 v = true /\
    - ((1 # 2147483648) + (1 # 18014398509481984))
      <= v - (inject_Z u + inject_Z n * (1 # 1000000000)) /\
    v - (inject_Z u + inject_Z n * (1 # 1000000000))
      <= (1 # 2147483648) + (1 # 18014398509481984) /\
    Qtrunc v = u.
Proof.
  intros [U1 U2] Hn S. unfold quotationToFloat. cbn [units nano].
  destruct (div_billion n Hn) as [f [Ef [F1 [F2 [Fp Fn]]]]]. rewrite Ef. unfold add.
  set (x := inject_Z u + f).
  assert (Qu1 : -8388607 <= inject_Z u) by (apply (inj_le (-8388607) u); lia).
  assert (Qu2 : inject_Z u <= 8388607) by (apply (inj_le u 8388607); lia).
  assert (X : - (8388608 - (1 # 1073741824)) <= x /\ x <= 8388608 - (1 # 1073741824)).
  { unfold x. destruct S as [[Su Sn]|[Su Sn]].
    - destruct (Fp Sn). apply inj_le in Su. change (inject_Z 0) with 0 in Su. split; lra.
    - destruct (Fn Sn). apply inj_le in Su. change (inject_Z 0) with 0 in Su. split; lra. }
  destruct X as [X1 X2].
  assert (XA : Qabs x <= pow2 23).
  { apply Qabs_Qle_condition. change (pow2 23) with 8388608. lra. }
  assert (XB : Qabs x < pow2 (-30 + 53)).
  { apply Qabs_Qlt_condition. change (pow2 (-30 + 53)) with 8388608. lra. }
  assert (XC : Qabs x < pow2 (0 + 53)).
  { apply Qabs_Qlt_condition. change (pow2 (0 + 53)) with 9007199254740992. lra. }
  destruct (of_real_finite x 23) as [v [Ev Rv]]; [unfold emin; lia | exact XA |].
  exists v. split; [exact Ev|]. split; [exact (of_real_binary64 x v Ev)|].
  assert (Xe : Qabs (round_grid x - x) <= pow2 (23 - 54)).
  { apply round_grid_err; [unfold emin; lia | exact XA]. }
  apply Qabs_Qle_condition in Xe. destruct Xe as [Xe1 Xe2].
  assert (P31 : pow2 (23 - 54) == 1 # 2147483648) by reflexivity.
  rewrite P31 in Xe1, Xe2. rewrite <- Rv in Xe1, Xe2. unfold x in Xe1, Xe2.
  split; [lra|]. split; [lra|].
  assert (G0 : inject_Z u * pow2 0 == inject_Z u) by (change (pow2 0) with 1; ring).
  destruct S as [[Su Sn]|[Su Sn]].
  - destruct (Fp Sn) as [Fa Fb]. apply Qtrunc_unique_pos; [exact Su | |].
    + rewrite Rv, <- G0. apply round_grid_ge; [unfold emin; lia | exact XC |].
      rewrite G0. unfold x. lra.
    + assert (T : round_grid x <= inject_Z (u * 1073741824 + 1073741823) * pow2 (-30)).
      { apply round_grid_le; [unfold emin; lia | exact XB |].
        rewrite grid30. change (inject_Z 1073741823) with 1073741823. unfold x. lra. }
      rewrite grid30 in T. change (inject_Z 1073741823) with 1073741823 in T. lra.
  - destruct (Fn Sn) as [Fa Fb]. apply Qtrunc_unique_neg; [exact Su | |].
    + rewrite Rv, <- G0. apply round_grid_le; [unfold emin; lia | exact XC |].
      rewrite G0. unfold x. lra.
    + assert (T : inject_Z (u * 1073741824 + -1073741823) * pow2 (-30) <= round_grid x).
      { apply round_grid_ge; [unfold emin; lia | exact XB |].
        rewrite grid30. change (inject_Z (-1073741823)) with (-1073741823). unfold x. lra. }
      rewrite grid30 in T. change (inject_Z (-1073741823)) with (-1073741823) in T. lra.
Qed.

(** floatToQuotation at the float of such a quotation. *)
Lemma quotation_back u n v :
  (-1000000000 < n < 1000000000)%Z ->
  is_binary64 v = true ->
  - ((1 # 2147483648) + (1 # 18014398509481984))
    <= v - (inject_Z u + inject_Z n * (1 # 1000000000)) ->
  v - (inject_Z u + inject_Z n * (1 # 1000000000))
    <= (1 # 2147483648) + (1 # 18014398509481984) ->
  Qtrunc v = u ->
  floatToQuotation (Fin v) = mkQuotation (Fin (inject_Z u)) (Some (Fin (inject_Z n))).
Proof.
  intros Hn Bv V1 V2 Tv. unfold floatToQuotation. cbv zeta.
  destruct (sub_trunc_exact v Bv) as [d [Ed Rd]]. rewrite Ed. rewrite Tv in Rd.
  assert (Qn1 : -999999999 <= inject_Z n) by (apply (inj_le (-999999999) n); lia).
  assert (Qn2 : inject_Z n <= 999999999) by (apply (inj_le n 999999999); lia).
  assert (D1 : -1 < d) by (rewrite Rd; lra).
  assert (D2 : d < 1) by (rewrite Rd; lra).
  destruct (nano_round d D1 D2) as [n' [En [_ [Ne1 [Ne2 _]]]]]. rewrite En.
  unfold trunc. rewrite Tv. rewrite Rd in Ne1, Ne2.
  assert (A : (n' <= n)%Z) by (apply inject_Z_lt1; lra).
  assert (B : (n <= n')%Z) by (apply inject_Z_lt1; lra).
  replace n' with n by lia. reflexivity.
Qed.

(** A quotation of the upstream (whole units below 8 388 608 in size, nano
    short of a billion, both of one sign) that is turned into a float by
    quotationToFloat comes back from floatToQuotation as it was. *)
Theorem quotation_survives_float u n :
  (-8388608 < u < 8388608)%Z -> (-1000000000 < n < 1000000000)%Z ->
  (0 <= u /\ 0 <= n \/ u <= 0 /\ n <= 0)%Z ->
  floatToQuotation
    (quotationToFloat (Some (mkQuotation (Fin (inject_Z u)) (Some (Fin (inject_Z n)))))) =
  mkQuotation (Fin (inject_Z u)) (Some (Fin (inject_Z n))).
Proof.
  intros Hu Hn S.
  destruct (quotation_value u n Hu Hn S) as [v [Ev [Bv [V1 [V2 Tv]]]]].
  rewrite Ev. apply quotation_back; assumption.
Qed.

(** { units: 271, nano: 500000000 } *)
Lemma quotation_survives_float_witness :
  floatToQuotation
    (quotationToFloat
       (Some (mkQuotation (Fin (inject_Z 271)) (Some (Fin (inject_Z 500000000)))))) =
  mkQuotation (Fin (inject_Z 271)) (Some (Fin (inject_Z 500000000))).
Proof. apply quotation_survives_float; lia. Defined.

(** For such a quotation quotationToFloat, and moneyValueToFloat with it,
    is off the exact units + nano / 1e9 by less than half a billionth. *)
Theorem quotationToFloat_accurate u n :
  (-8388608 < u < 8388608)%Z -> (-1000000000 < n < 1000000000)%Z ->
  (0 <= u /\ 0 <= n \/ u <= 0 /\ n <= 0)%Z ->
  exists v,
    quotationToFloat (Some (mkQuotation (Fin (inject_Z u)) (Some (Fin (inject_Z n))))) = Fin v /\
    moneyValueToFloat (Some (mkQuotation (Fin (inject_Z u)) (Some (Fin (inject_Z n))))) = Fin v /\
    Qabs (v - (inject_Z u + inject_Z n / 1000000000)) < 1 # 2000000000.
Proof.
  intros Hu Hn S.
  destruct (quotation_value u n Hu Hn S) as [v [Ev [_ [V1 [V2 _]]]]].
  exists v. split; [exact Ev|]. split; [exact Ev|].
  assert (E : inject_Z n / 1000000000 == inject_Z n * (1 # 1000000000)) by reflexivity.
  rewrite E. apply Qabs_Qlt_condition. split; lra.
Qed.

Lemma quotationToFloat_accurate_witness :
  exists v,
    quotationToFloat
      (Some (mkQuotation (Fin (inject_Z 271)) (Some (Fin (inject_Z 500000000))))) = Fin v /\
    moneyValueToFloat
      (Some (mkQuotation (Fin (inject_Z 271)) (Some (Fin (inject_Z 500000000))))) = Fin v /\
    Qabs (v - (inject_Z 271 + inject_Z 500000000 / 1000000000)) < 1 # 2000000000.
Proof. apply quotationToFloat_accurate; lia. Defined.

(** The two parts of the quotation of a finite float are integers that
    never have opposite signs, and units is no larger in size than the
    float. *)
Theorem floatToQuotation_signs v : is_binary64 v = true ->
  exists t n : Z,
    floatToQuotation (Fin v) = mkQuotation (Fin (inject_Z t)) (Some (Fin (inject_Z n))) /\
    (0 <= v -> (0 <= t)%Z /\ (0 <= n)%Z) /\
    (v <= 0 -> (t <= 0)%Z /\ (n <= 0)%Z) /\
    Qabs (inject_Z t) <= Qabs v.
Proof.
  intros Hv. unfold floatToQuotation. cbv zeta.
  destruct (sub_trunc_exact v Hv) as [d [Ed Rd]]. rewrite Ed.
  assert (TC := Qtrunc_cases v).
  assert (D1 : -1 < d) by (rewrite Rd; destruct TC as [T|T]; lra).
  assert (D2 : d < 1) by (rewrite Rd; destruct TC as [T|T]; lra).
  destruct (nano_round d D1 D2) as [n [En [_ [_ [_ [Ns1 Ns2]]]]]]. rewrite En.
  exists (Qtrunc v), n. split; [reflexivity|].
  destruct TC as [[T0 [T1 [T2 T3]]]|[T0 [T1 [T2 T3]]]].
  - assert (T3' := inj_le _ _ T3). change (inject_Z 0) with 0 in T3'.
    split; [|split].
    + intros _. split; [exact T3 | apply Ns1; rewrite Rd; lra].
    + intros N. assert (Z : v == 0) by lra.
      assert (Zt : Qtrunc v = 0%Z).
      { apply Qtrunc_unique_pos; [lia | |]; change (inject_Z 0) with 0; lra. }
      rewrite Zt in *. split; [lia | apply Ns2; rewrite Rd; change (inject_Z 0) with 0; lra].
    + rewrite (Qabs_pos v T0), (Qabs_pos _ T3'). exact T1.
  - assert (T3' := inj_le _ _ T3). change (inject_Z 0) with 0 in T3'.
    split; [|split].
    + intros N. assert (Z : v == 0) by lra.
      assert (Zt : Qtrunc v = 0%Z).
      { apply Qtrunc_unique_pos; [lia | |]; change (inject_Z 0) with 0; lra. }
      rewrite Zt in *. split; [lia | apply Ns1; rewrite Rd; change (inject_Z 0) with 0; lra].
    + intros _. split; [exact T3 | apply Ns2; rewrite Rd; lra].
    + rewrite (Qabs_neg v T0), (Qabs_neg _ T3'). lra.
Qed.

(** -0.75 *)
Lemma floatToQuotation_signs_witness :
  exists t n : Z,
    floatToQuotation (Fin (- (3 # 4))) =
      mkQuotation (Fin (inject_Z t)) (Some (Fin (inject_Z n))) /\
    (0 <= - (3 # 4) -> (0 <= t)%Z /\ (0 <= n)%Z) /\
    (- (3 # 4) <= 0 -> (t <= 0)%Z /\ (n <= 0)%Z) /\
    Qabs (inject_Z t) <= Qabs (- (3 # 4)).
Proof. apply floatToQuotation_signs. vm_compute. reflexivity. Defined.

End QuotationFacts.

(* ================================================================== *)
(** * Part VII. Further properties of the servers                       *)
(* ================================================================== *)

(** The whole of a handler, unfolded for symbolic execution. *)
Ltac unfold_main :=
  unfold MainJs.handler, MainJs.getCurrentPrice, MainJs.getPortfolio,
    MainJs.placeLimitOrder, MainJs.tinkoffRequest.
Ltac unfold_part000 :=
  unfold Part000.handler, Part000.get_price, Part000.get_portfolio,
    Part000.post_order_limit, Part000.get_status, Part000.getFigiForTicker,
    Part000.getAccountId, Part000.order_direction, Part000.generateOrderId,
    Part000.tinkoffRequest.
Ltac unfold_serverjs :=
  unfold ServerJs.get_price, ServerJs.post_order_limit, ServerJs.get_status,
    ServerJs.getFigiForTicker, ServerJs.getAccountId, ServerJs.generateOrderId, ServerJs.api.

(** ** Every request *)

(** No retry: in every request of the three variants a call that failed
    is the last call of the request. *)
Theorem no_call_after_failure host env request body tk
    (w0 : World MainJs.Cache) (w : World Maps) :
  only_last failed (issued w0 (snd (MainJs.handler host env request w0))) = true /\
  only_last failed (issued w (snd (Part000.handler host env request w))) = true /\
  only_last failed (issued w (snd (ServerJs.get_price host env tk w))) = true /\
  only_last failed (issued w (snd (ServerJs.post_order_limit host env body w))) = true /\
  only_last failed (issued w (snd (ServerJs.get_status host env w))) = true.
Proof.
  split; [|split; [|split; [|split]]].
  - unfold_main. repeat exec_step.
    all: cbn [snd]; issued_simpl; cbn [only_last failed snd]; reflexivity.
  - unfold_part000. repeat exec_step.
    all: cbn [snd]; issued_simpl; cbn [only_last failed snd]; reflexivity.
  - unfold_serverjs. repeat exec_step.
    all: cbn [snd]; issued_simpl; cbn [only_last failed snd]; reflexivity.
  - unfold_serverjs. repeat exec_step.
    all: cbn [snd]; issued_simpl; cbn [only_last failed snd]; reflexivity.
  - unfold_serverjs. repeat exec_step.
    all: cbn [snd]; issued_simpl; cbn [only_last failed snd]; reflexivity.
Qed.

(** A request sends one order at most, and no call after it; the price
    and status routes of server.js send none. *)
Theorem order_is_the_last_call host env request body tk
    (w0 : World MainJs.Cache) (w : World Maps) :
  only_last is_order (issued w0 (snd (MainJs.handler host env request w0))) = true /\
  only_last is_order (issued w (snd (Part000.handler host env request w))) = true /\
  only_last is_order (issued w (snd (ServerJs.post_order_limit host env body w))) = true /\
  existsb is_order (issued w (snd (ServerJs.get_price host env tk w))) = false /\
  existsb is_order (issued w (snd (ServerJs.get_status host env w))) = false.
Proof.
  split; [|split; [|split; [|split]]].
  - unfold_main. repeat exec_step.
    all: cbn [snd]; issued_simpl; cbn [only_last is_order fst]; reflexivity.
  - unfold_part000. repeat exec_step.
    all: cbn [snd]; issued_simpl; cbn [only_last is_order fst]; reflexivity.
  - unfold_serverjs. repeat exec_step.
    all: cbn [snd]; issued_simpl; cbn [only_last is_order fst]; reflexivity.
  - unfold_serverjs. repeat exec_step.
    all: cbn [snd]; issued_simpl; reflexivity.
  - unfold_serverjs. repeat exec_step.
    all: cbn [snd]; issued_simpl; reflexivity.
Qed.

(** main.js, part_000: a request that is not a POST to /api/order/limit
    sends no order. *)
Theorem orders_come_from_the_order_route host env request
    (w0 : World MainJs.Cache) (w : World Maps) :
  is_order_route request = false ->
  existsb is_order (issued w0 (snd (MainJs.handler host env request w0))) = false /\
  existsb is_order (issued w (snd (Part000.handler host env request w))) = false.
Proof.
  unfold is_order_route. intros H. split.
  - unfold_main. repeat exec_step.
    all: try (rewrite H in *; discriminate).
    all: cbn [snd]; issued_simpl; try reflexivity.
  - unfold_part000. repeat exec_step.
    all: try (rewrite H in *; discriminate).
    all: cbn [snd]; issued_simpl; try reflexivity.
Qed.

(** GET /api/price?ticker=SBER *)
Lemma orders_come_from_the_order_route_witness :
  existsb is_order
    (issued (start MainJs.initial)
       (snd (MainJs.handler runtime broker (price_request (Some "SBER") no_body)
               (start MainJs.initial)))) = false /\
  existsb is_order
    (issued (start no_maps)
       (snd (Part000.handler runtime broker (price_request (Some "SBER") no_body)
               (start no_maps)))) = false.
Proof.
  apply (orders_come_from_the_order_route runtime broker
           (price_request (Some "SBER") no_body)).
  reflexivity.
Defined.

(** Every request is answered, with 200, 400, 404 or 500, and an answer
    400 or 404 leaves the world as it was: no call, no change of a cache. *)
Theorem statuses_and_side_effects host env request body tk
    (w0 : World MainJs.Cache) (w : World Maps) :
  (exists resp w', MainJs.handler host env request w0 = (Ok resp, w') /\
     known_status (status resp) = true /\
     (if (status resp =? 400) || (status resp =? 404) then w' = w0 else True)) /\
  (exists resp w', Part000.handler host env request w = (Ok resp, w') /\
     known_status (status resp) = true /\
     (if (status resp =? 400) || (status resp =? 404) then w' = w else True)) /\
  (exists resp w', ServerJs.get_price host env tk w = (Ok resp, w') /\
     known_status (status resp) = true /\
     (if (status resp =? 400) || (status resp =? 404) then w' = w else True)) /\
  (exists resp w', ServerJs.post_order_limit host env body w = (Ok resp, w') /\
     known_status (status resp) = true /\
     (if (status resp =? 400) || (status resp =? 404) then w' = w else True)) /\
  (exists resp w', ServerJs.get_status host env w = (Ok resp, w') /\
     known_status (status resp) = true /\
     (if (status resp =? 400) || (status resp =? 404) then w' = w else True)).
Proof.
  split; [|split; [|split; [|split]]].
  - unfold_main. repeat exec_step.
    all: eexists _, _; (split; [reflexivity|]); split; reflexivity || exact I.
  - unfold_part000. repeat exec_step.
    all: eexists _, _; (split; [reflexivity|]); split; reflexivity || exact I.
  - unfold_serverjs. repeat exec_step.
    all: eexists _, _; (split; [reflexivity|]); split; reflexivity || exact I.
  - unfold_serverjs. repeat exec_step.
    all: eexists _, _; (split; [reflexivity|]); split; reflexivity || exact I.
  - unfold_serverjs. repeat exec_step.
    all: eexists _, _; (split; [reflexivity|]); split; reflexivity || exact I.
Qed.

(** ** The order route *)

(** main.js, part_000: a POST /api/order/limit whose body is not JSON is
    answered 500 with the parser's message, and one whose body is the JSON
    null is answered 500 with the TypeError's; the world is left as it was. *)
Theorem unreadable_order_is_500 host env tp m
    (w0 : World MainJs.Cache) (w : World Maps) :
  MainJs.handler host env (mkRequest "POST" "/api/order/limit" tp (Unparsable m)) w0 =
    (Ok (json_error 500 m), w0) /\
  Part000.handler host env (mkRequest "POST" "/api/order/limit" tp (Unparsable m)) w =
    (Ok (json_error 500 m), w) /\
  MainJs.handler host env (order_request tp VNull) w0 =
    (Ok (json_error 500 (type_error host "body")), w0) /\
  Part000.handler host env (order_request tp VNull) w =
    (Ok (json_error 500 (type_error host "body")), w).
Proof.
  unfold order_request. split; [|split; [|split]]; reflexivity.
Qed.

Ltac buy_leaves :=
  try congruence;
  eexists _, _; (split; [reflexivity|]);
  unfold bought, last_issued; issued_simpl;
  cbn [List.last List.map status json_ok json_error forallb buys fst o_direction andb
       Z.eqb Pos.eqb];
  repeat split; try reflexivity; try discriminate; intros; try discriminate; try congruence;
  eauto.

Lemma main_order_buy host env tp body (w : World MainJs.Cache) :
  rejected body = false ->
  is_string (get_prop body "direction") "buy" = true ->
  exists resp w', MainJs.handler host env (order_request tp body) w = (Ok resp, w') /\
    forallb buys (issued w w') = true /\
    (status resp = 200 -> bought w w').
Proof.
  intros Hv Hd. destruct (body_of_valid body Hv) as [fs ->].
  unfold MainJs.handler, order_request. cbn [method path json]. eval_eqb.
  unfold MainJs.placeLimitOrder, MainJs.tinkoffRequest.
  unfold rejected in Hv. unfold get_prop in *.
  repeat exec_step.
  all: buy_leaves.
Qed.

Lemma part000_order_buy host env tp body d (w : World Maps) :
  rejected body = false ->
  get_prop body "direction" = VStr d ->
  String.eqb (toLowerCase d) "buy" = true ->
  exists resp w', Part000.handler host env (order_request tp body) w = (Ok resp, w') /\
    forallb buys (issued w w') = true /\
    (status resp = 200 -> bought w w').
Proof.
  intros Hv Hd Hb. destruct (body_of_valid body Hv) as [fs ->].
  unfold Part000.handler, order_request. cbn [method path json]. eval_eqb.
  unfold Part000.post_order_limit, Part000.getFigiForTicker, Part000.getAccountId,
    Part000.order_direction, Part000.generateOrderId, Part000.tinkoffRequest.
  unfold rejected in Hv. unfold get_prop in *. rewrite Hd in *.
  repeat exec_step.
  all: buy_leaves.
Qed.

Lemma serverjs_order_buy host env body (w : World Maps) :
  rejected body = false ->
  is_string (get_prop body "direction") "buy" = true ->
  exists resp w', ServerJs.post_order_limit host env body w = (Ok resp, w') /\
    forallb buys (issued w w') = true /\
    (status resp = 200 -> bought w w').
Proof.
  intros Hv Hd. destruct (body_of_valid body Hv) as [fs ->].
  unfold ServerJs.post_order_limit, ServerJs.getFigiForTicker, ServerJs.getAccountId,
    ServerJs.generateOrderId, ServerJs.api.
  unfold rejected in Hv. unfold get_prop in *.
  repeat exec_step.
  all: buy_leaves.
Qed.

(** The direction 'buy' makes a BUY order: in main.js and server.js the
    string 'buy' itself, in part_000 any string that is 'buy' once
    lowercased ('BUY', 'Buy', ...). *)
Theorem buy_is_buy host env tp body (w0 : World MainJs.Cache) (w : World Maps) :
  rejected body = false ->
  (is_string (get_prop body "direction") "buy" = true ->
   (exists resp w', MainJs.handler host env (order_request tp body) w0 = (Ok resp, w') /\
      forallb buys (issued w0 w') = true /\
      (status resp = 200 -> bought w0 w')) /\
   (exists resp w', ServerJs.post_order_limit host env body w = (Ok resp, w') /\
      forallb buys (issued w w') = true /\
      (status resp = 200 -> bought w w'))) /\
  (forall d, get_prop body "direction" = VStr d ->
   String.eqb (toLowerCase d) "buy" = true ->
   exists resp w', Part000.handler host env (order_request tp body) w = (Ok resp, w') /\
     forallb buys (issued w w') = true /\
     (status resp = 200 -> bought w w')).
Proof.
  intros Hv. split.
  - intros Hd. split.
    + apply main_order_buy; assumption.
    + apply serverjs_order_buy; assumption.
  - intros d Hd Hb. eapply part000_order_buy; eassumption.
Qed.

(** direction 'buy' for main.js and server.js, 'BUY' for part_000: the
    answer is 200 after a BUY order. *)
Lemma buy_is_buy_witness :
  (exists resp w',
     MainJs.handler runtime broker (order_request None (order_body (VStr "buy")))
       (start MainJs.initial) = (Ok resp, w') /\
     status resp = 200 /\ bought (start MainJs.initial) w') /\
  (exists resp w',
     ServerJs.post_order_limit runtime broker (order_body (VStr "buy")) (start no_maps) =
       (Ok resp, w') /\
     status resp = 200 /\ bought (start no_maps) w') /\
  (exists resp w',
     Part000.handler runtime broker (order_request None (order_body (VStr "BUY")))
       (start no_maps) = (Ok resp, w') /\
     status resp = 200 /\ bought (start no_maps) w').
Proof.
  destruct (buy_is_buy runtime broker None (order_body (VStr "buy"))
              (start MainJs.initial) (start no_maps) eq_refl) as [MS _].
  destruct (buy_is_buy runtime broker None (order_body (VStr "BUY"))
              (start MainJs.initial) (start no_maps) eq_refl) as [_ P].
  destruct (MS eq_refl) as [[r1 [w1 [E1 [_ S1]]]] [r2 [w2 [E2 [_ S2]]]]].
  destruct (P "BUY" eq_refl eq_refl) as [r3 [w3 [E3 [_ S3]]]].
  assert (C1 : status r1 = 200).
  { vm_compute in E1. injection E1 as <- _. reflexivity. }
  assert (C2 : status r2 = 200).
  { vm_compute in E2. injection E2 as <- _. reflexivity. }
  assert (C3 : status r3 = 200).
  { vm_compute in E3. injection E3 as <- _. reflexivity. }
  split; [|split].
  - exists r1, w1. split; [exact E1|]. split; [exact C1 | exact (S1 C1)].
  - exists r2, w2. split; [exact E2|]. split; [exact C2 | exact (S2 C2)].
  - exists r3, w3. split; [exact E3|]. split; [exact C3 | exact (S3 C3)].
Defined.

(** ** The account id *)

Lemma part000_getAccount_cached env a (w : World Maps) :
  cached_account (cache w) = Some a -> Part000.getAccountId env w = (Ok a, w).
Proof.
  intros H. unfold Part000.getAccountId, bind, get_cache. rewrite H. reflexivity.
Qed.

Lemma serverjs_getAccount_cached host env a (w : World Maps) :
  cached_account (cache w) = Some a -> ServerJs.getAccountId host env w = (Ok a, w).
Proof.
  intros H. unfold ServerJs.getAccountId, bind, get_cache. rewrite H. reflexivity.
Qed.

Lemma cached_account_set a m : a <> "" -> cached_account (account_set a m) = Some a.
Proof.
  intros H. unfold cached_account, account_set. cbn [cachedAccountId].
  destruct (String.eqb_spec a ""); [contradiction | reflexivity].
Qed.

Lemma part000_getAccount_first env (w : World Maps) lat a rest :
  cached_account (cache w) = None ->
  upstream env (sent w) GetAccounts = (lat, Replied (Accounts (Some (a :: rest)))) ->
  Part000.getAccountId env w =
    (Ok (id a),
     mkWorld (now w + lat) (sent w ++ [(GetAccounts, Replied (Accounts (Some (a :: rest))))])
       (draws w) (account_set (id a) (cache w))).
Proof.
  intros H U. unfold Part000.getAccountId, Part000.tinkoffRequest, bind at 1, get_cache.
  rewrite H. rewrite rethrow_eq. unfold bind at 1. rewrite rethrow_eq, remote_eq.
  rewrite U. reflexivity.
Qed.

Lemma serverjs_getAccount_first host env (w : World Maps) lat accounts a :
  cached_account (cache w) = None ->
  upstream env (sent w) GetAccounts = (lat, Replied (Accounts (Some accounts))) ->
  List.find (main_account host) accounts = Some a ->
  ServerJs.getAccountId host env w =
    (Ok (id a),
     mkWorld (now w + lat) (sent w ++ [(GetAccounts, Replied (Accounts (Some accounts)))])
       (draws w) (account_set (id a) (cache w))).
Proof.
  intros H U F. unfold ServerJs.getAccountId, ServerJs.api, bind at 1, get_cache.
  rewrite H. rewrite rethrow_eq. unfold bind at 1. rewrite remote_eq.
  rewrite U. cbn [fst snd accounts_of]. rewrite F. reflexivity.
Qed.

(** part_000, server.js.  With no account id in store and a list of
    accounts for answer: the first getAccountId issues the one call, stores
    the id (part_000: of the first account; server.js: of the first account
    of a suitable type) and returns it; if the id is not the empty string,
    the second call returns it and leaves the world, traffic included, as it
    was, and so does every later call in a world that still holds it. *)
Theorem resolve_account_once host env (w : World Maps) lat accounts :
  cached_account (cache w) = None ->
  upstream env (sent w) GetAccounts = (lat, Replied (Accounts (Some accounts))) ->
  (forall a rest, accounts = a :: rest -> id a <> "" ->
     fst (Part000.getAccountId env w) = Ok (id a) /\
     issued w (snd (Part000.getAccountId env w)) =
       [(GetAccounts, Replied (Accounts (Some accounts)))] /\
     Part000.getAccountId env (snd (Part000.getAccountId env w)) =
       (Ok (id a), snd (Part000.getAccountId env w)) /\
     forall w2 : World Maps, cached_account (cache w2) = Some (id a) ->
       Part000.getAccountId env w2 = (Ok (id a), w2)) /\
  (forall a, List.find (main_account host) accounts = Some a -> id a <> "" ->
     fst (ServerJs.getAccountId host env w) = Ok (id a) /\
     issued w (snd (ServerJs.getAccountId host env w)) =
       [(GetAccounts, Replied (Accounts (Some accounts)))] /\
     ServerJs.getAccountId host env (snd (ServerJs.getAccountId host env w)) =
       (Ok (id a), snd (ServerJs.getAccountId host env w)) /\
     forall w2 : World Maps, cached_account (cache w2) = Some (id a) ->
       ServerJs.getAccountId host env w2 = (Ok (id a), w2)).
Proof.
  intros H U. split.
  - intros a rest -> Ha.
    rewrite (part000_getAccount_first env w lat a rest H U). cbn [fst snd].
    split; [reflexivity|]. split; [apply issued_app|]. split.
    + apply part000_getAccount_cached. cbn [cache]. apply cached_account_set, Ha.
    + intros w2 H2. apply part000_getAccount_cached, H2.
  - intros a F Ha.
    rewrite (serverjs_getAccount_first host env w lat accounts a H U F). cbn [fst snd].
    split; [reflexivity|]. split; [apply issued_app|]. split.
    + apply serverjs_getAccount_cached. cbn [cache]. apply cached_account_set, Ha.
    + intros w2 H2. apply serverjs_getAccount_cached, H2.
Qed.

(** getAccountId twice in succession, from empty maps. *)
Lemma resolve_account_once_witness :
  (fst (Part000.getAccountId broker (start no_maps)) = Ok "2000000001" /\
   issued (start no_maps) (snd (Part000.getAccountId broker (start no_maps))) =
     [(GetAccounts,
       Replied (Accounts (Some [mkAccount "2000000001" "ACCOUNT_TYPE_TINKOFF"])))] /\
   Part000.getAccountId broker (snd (Part000.getAccountId broker (start no_maps))) =
     (Ok "2000000001", snd (Part000.getAccountId broker (start no_maps)))) /\
  (fst (ServerJs.getAccountId runtime broker (start no_maps)) = Ok "2000000001" /\
   issued (start no_maps) (snd (ServerJs.getAccountId runtime broker (start no_maps))) =
     [(GetAccounts,
       Replied (Accounts (Some [mkAccount "2000000001" "ACCOUNT_TYPE_TINKOFF"])))] /\
   ServerJs.getAccountId runtime broker
     (snd (ServerJs.getAccountId runtime broker (start no_maps))) =
     (Ok "2000000001", snd (ServerJs.getAccountId runtime broker (start no_maps)))).
Proof.
  destruct (resolve_account_once runtime broker (start no_maps) 40
              [mkAccount "2000000001" "ACCOUNT_TYPE_TINKOFF"] eq_refl eq_refl) as [P S].
  destruct (P (mkAccount "2000000001" "ACCOUNT_TYPE_TINKOFF") [] eq_refl)
    as [P1 [P2 [P3 _]]]; [discriminate|].
  destruct (S (mkAccount "2000000001" "ACCOUNT_TYPE_TINKOFF") eq_refl)
    as [S1 [S2 [S3 _]]]; [discriminate|].
  exact (conj (conj P1 (conj P2 P3)) (conj S1 (conj S2 S3))).
Defined.

(** An account whose id is the empty string is fetched again by every
    call: if (cachedAccountId) reads the stored '' as no id. *)
Lemma empty_account_id_is_fetched_again :
  calls (Part000.getAccountId nameless
           (snd (Part000.getAccountId nameless (start no_maps)))) =
    [GetAccounts; GetAccounts] /\
  respond (Part000.getAccountId nameless
             (snd (Part000.getAccountId nameless (start no_maps)))) = Some "".
Proof. vm_compute. split; reflexivity. Qed.

(** part_000, server.js.  A lookup that throws stores nothing: after a
    failed getFigiForTicker or getAccountId the maps are what they were,
    and exactly one call was issued, so the next lookup asks the upstream
    again. *)
Theorem failed_lookup_stores_nothing host env ticker (w : World Maps) :
  (succeeded (Part000.getFigiForTicker host env ticker w) = false ->
   cache (snd (Part000.getFigiForTicker host env ticker w)) = cache w /\
   figi_get ticker (cache w) = None /\
   length (issued w (snd (Part000.getFigiForTicker host env ticker w))) = 1%nat) /\
  (succeeded (ServerJs.getFigiForTicker host env ticker w) = false ->
   cache (snd (ServerJs.getFigiForTicker host env ticker w)) = cache w /\
   figi_get ticker (cache w) = None /\
   length (issued w (snd (ServerJs.getFigiForTicker host env ticker w))) = 1%nat) /\
  (succeeded (Part000.getAccountId env w) = false ->
   cache (snd (Part000.getAccountId env w)) = cache w /\
   cached_account (cache w) = None /\
   length (issued w (snd (Part000.getAccountId env w))) = 1%nat) /\
  (succeeded (ServerJs.getAccountId host env w) = false ->
   cache (snd (ServerJs.getAccountId host env w)) = cache w /\
   cached_account (cache w) = None /\
   length (issued w (snd (ServerJs.getAccountId host env w))) = 1%nat).
Proof.
  unfold succeeded. split; [|split; [|split]].
  - unfold_part000. repeat exec_step.
    all: cbn [fst snd cache]; issued_simpl; intros; try discriminate; auto.
  - unfold_serverjs. repeat exec_step.
    all: cbn [fst snd cache]; issued_simpl; intros; try discriminate; auto.
  - unfold_part000. repeat exec_step.
    all: cbn [fst snd cache]; issued_simpl; intros; try discriminate; auto.
  - unfold_serverjs. repeat exec_step.
    all: cbn [fst snd cache]; issued_simpl; intros; try discriminate; auto.
Qed.

(** The upstream cannot be reached. *)
Lemma failed_lookup_stores_nothing_witness :
  (cache (snd (Part000.getFigiForTicker runtime offline (VStr "SBER") (start no_maps))) =
     no_maps /\
   length (issued (start no_maps)
             (snd (Part000.getFigiForTicker runtime offline (VStr "SBER") (start no_maps))))
     = 1%nat) /\
  (cache (snd (ServerJs.getFigiForTicker runtime offline (VStr "SBER") (start no_maps))) =
     no_maps /\
   length (issued (start no_maps)
             (snd (ServerJs.getFigiForTicker runtime offline (VStr "SBER") (start no_maps))))
     = 1%nat) /\
  (cache (snd (Part000.getAccountId offline (start no_maps))) = no_maps /\
   length (issued (start no_maps) (snd (Part000.getAccountId offline (start no_maps))))
     = 1%nat) /\
  (cache (snd (ServerJs.getAccountId runtime offline (start no_maps))) = no_maps /\
   length (issued (start no_maps)
             (snd (ServerJs.getAccountId runtime offline (start no_maps)))) = 1%nat).
Proof.
  destruct (failed_lookup_stores_nothing runtime offline (VStr "SBER") (start no_maps))
    as [A [B [C D]]].
  destruct (A eq_refl) as [A1 [_ A2]]. destruct (B eq_refl) as [B1 [_ B2]].
  destruct (C eq_refl) as [C1 [_ C2]]. destruct (D eq_refl) as [D1 [_ D2]].
  exact (conj (conj A1 A2) (conj (conj B1 B2) (conj (conj C1 C2) (conj D1 D2)))).
Defined.

Lemma cached_account_figi_set ticker figi m :
  cached_account (figi_set ticker figi m) = cached_account m.
Proof. destruct ticker; reflexivity. Qed.

Lemma cached_account_price_set ticker p m :
  cached_account (price_set ticker p m) = cached_account m.
Proof. reflexivity. Qed.

Ltac keeps_account H :=
  cbn [cache snd] in *;
  rewrite ?cached_account_figi_set, ?cached_account_price_set in *;
  try exact H; try congruence.

(** part_000, server.js: once an account id is in store, no request
    removes or replaces it. *)
Theorem account_id_is_permanent host env request body tk (w : World Maps) a :
  cached_account (cache w) = Some a ->
  cached_account (cache (snd (Part000.handler host env request w))) = Some a /\
  cached_account (cache (snd (ServerJs.get_price host env tk w))) = Some a /\
  cached_account (cache (snd (ServerJs.post_order_limit host env body w))) = Some a /\
  cached_account (cache (snd (ServerJs.get_status host env w))) = Some a.
Proof.
  intros H. split; [|split; [|split]].
  - unfold_part000. repeat exec_step. all: keeps_account H.
  - unfold_serverjs. repeat exec_step. all: keeps_account H.
  - unfold_serverjs. repeat exec_step. all: keeps_account H.
  - unfold_serverjs. repeat exec_step. all: keeps_account H.
Qed.

(** An upstream whose account has another id does not change the one in
    store. *)
Lemma account_id_is_permanent_witness :
  cached_account (cache (start warm)) = Some "2000000001" /\
  cached_account
    (cache (snd (Part000.handler runtime nameless (status_request None no_body) (start warm))))
    = Some "2000000001" /\
  cached_account (cache (snd (ServerJs.get_price runtime nameless (Some "GAZP") (start warm))))
    = Some "2000000001" /\
  cached_account
    (cache (snd (ServerJs.post_order_limit runtime nameless (order_body (VStr "buy"))
                   (start warm)))) = Some "2000000001" /\
  cached_account (cache (snd (ServerJs.get_status runtime nameless (start warm))))
    = Some "2000000001".
Proof.
  split; [reflexivity|].
  apply (account_id_is_permanent runtime nameless (status_request None no_body)
           (order_body (VStr "buy")) (Some "GAZP") (start warm) "2000000001").
  reflexivity.
Defined.

(** server.js: no route removes or replaces a resolved ticker. *)
Theorem serverjs_keeps_figi host env body tk (w : World Maps) t f :
  tickerFigiMap (cache w) !! t = Some f ->
  tickerFigiMap (cache (snd (ServerJs.get_price host env tk w))) !! t = Some f /\
  tickerFigiMap (cache (snd (ServerJs.post_order_limit host env body w))) !! t = Some f /\
  tickerFigiMap (cache (snd (ServerJs.get_status host env w))) !! t = Some f.
Proof.
  intros H. split; [|split].
  - unfold_serverjs. repeat exec_step.
    all: cbn [cache snd price_set account_set tickerFigiMap]; try assumption.
    all: try (apply figi_set_keeps; assumption).
    all: try (cbn [figi_set tickerFigiMap]; rewrite lookup_insert_ne; [assumption|];
              cbn [figi_get] in *; congruence).
  - unfold_serverjs. repeat exec_step.
    all: cbn [cache snd price_set account_set tickerFigiMap]; try assumption.
    all: try (apply figi_set_keeps; assumption).
    all: try (cbn [figi_set tickerFigiMap]; rewrite lookup_insert_ne; [assumption|];
              cbn [figi_get] in *; congruence).
  - unfold_serverjs. repeat exec_step.
    all: cbn [cache snd price_set account_set tickerFigiMap]; try assumption.
Qed.

(** GAZP is asked, an order for SBER placed, the status read. *)
Lemma serverjs_keeps_figi_witness :
  tickerFigiMap (cache (start warm)) !! "SBER" = Some "BBG004730N88" /\
  tickerFigiMap (cache (snd (ServerJs.get_price runtime broker (Some "GAZP") (start warm))))
    !! "SBER" = Some "BBG004730N88" /\
  tickerFigiMap
    (cache (snd (ServerJs.post_order_limit runtime broker (order_body (VStr "buy"))
                   (start warm)))) !! "SBER" = Some "BBG004730N88" /\
  tickerFigiMap (cache (snd (ServerJs.get_status runtime broker (start warm))))
    !! "SBER" = Some "BBG004730N88".
Proof.
  split; [vm_compute; reflexivity|].
  apply (serverjs_keeps_figi runtime broker (order_body (VStr "buy")) (Some "GAZP")
           (start warm) "SBER" "BBG004730N88").
  vm_compute. reflexivity.
Defined.



(** ** What the price routes store *)

Lemma priceCache_figi_set ticker figi m : priceCache (figi_set ticker figi m) = priceCache m.
Proof. destruct ticker; reflexivity. Qed.

(** A price that was made up is not stored: after a mock answer of main.js
    the cache is what it was, after a mock answer of part_000 and after a
    500 of server.js the price map is. *)
Theorem fallback_is_not_stored host env tp b tk
    (w0 : World MainJs.Cache) (w : World Maps) :
  (exists resp w', MainJs.handler host env (price_request tp b) w0 = (Ok resp, w') /\
     forall p, price_of resp = Some p -> isMock p = true -> cache w' = cache w0) /\
  (exists resp w', Part000.handler host env (price_request tp b) w = (Ok resp, w') /\
     forall p, price_of resp = Some p -> isMock p = true ->
       priceCache (cache w') = priceCache (cache w)) /\
  (exists resp w', ServerJs.get_price host env tk w = (Ok resp, w') /\
     (status resp = 500 -> priceCache (cache w') = priceCache (cache w))).
Proof.
  split; [|split].
  - unfold MainJs.handler, price_request. cbn [method path]. eval_eqb.
    unfold MainJs.getCurrentPrice, MainJs.tinkoffRequest.
    repeat exec_step.
    all: eexists _, _; (split; [reflexivity|]).
    all: cbn [price_of data_of content json_ok cache]; intros q [= <-]; cbn [isMock];
         intros; try discriminate; reflexivity.
  - unfold Part000.handler, price_request. cbn [method path]. eval_eqb.
    unfold Part000.get_price, Part000.getFigiForTicker, Part000.tinkoffRequest.
    repeat exec_step.
    all: eexists _, _; (split; [reflexivity|]).
    all: cbn [price_of data_of content json_ok cache]; intros q [= <-]; cbn [isMock];
         intros; try discriminate; rewrite ?priceCache_figi_set; reflexivity.
  - unfold_serverjs. repeat exec_step.
    all: eexists _, _; (split; [reflexivity|]).
    all: cbn [status json_ok json_error cache]; intros; try discriminate;
         rewrite ?priceCache_figi_set; reflexivity.
Qed.

(** The upstream cannot be reached. *)
Lemma fallback_is_not_stored_witness :
  cache (snd (MainJs.handler runtime offline (price_request (Some "SBER") no_body)
                (start MainJs.initial))) = MainJs.initial /\
  priceCache (cache (snd (Part000.handler runtime offline
                            (price_request (Some "SBER") no_body) (start no_maps)))) = ∅ /\
  priceCache (cache (snd (ServerJs.get_price runtime offline (Some "SBER") (start no_maps))))
    = ∅.
Proof.
  destruct (fallback_is_not_stored runtime offline (Some "SBER") no_body (Some "SBER")
              (start MainJs.initial) (start no_maps))
    as [[r1 [w1 [E1 M]]] [[r2 [w2 [E2 P]]] [r3 [w3 [E3 S]]]]].
  rewrite E1, E2, E3. cbn [snd].
  assert (C1 : exists p, price_of r1 = Some p /\ isMock p = true).
  { vm_compute in E1. injection E1 as <- _. eexists. split; reflexivity. }
  assert (C2 : exists p, price_of r2 = Some p /\ isMock p = true).
  { vm_compute in E2. injection E2 as <- _. eexists. split; reflexivity. }
  assert (C3 : status r3 = 500).
  { vm_compute in E3. injection E3 as <- _. reflexivity. }
  destruct C1 as [p1 [A1 B1]]. destruct C2 as [p2 [A2 B2]].
  exact (conj (M p1 A1 B1) (conj (P p2 A2 B2) (S C3))).
Defined.

Lemma fresh_price_set now t p m :
  now - timestamp p < 5000 -> fresh now t (price_set t p m) = Some p.
Proof.
  intros H. unfold fresh, price_set, CACHE_TTL_MS. cbn [priceCache].
  rewrite lookup_insert_eq. destruct (Z.ltb_spec (now - timestamp p) 5000); [reflexivity|lia].
Qed.

Lemma fresh_figi_set now t ticker figi m :
  fresh now t (figi_set ticker figi m) = fresh now t m.
Proof. destruct ticker; reflexivity. Qed.

Lemma fresh_account_set now t a m : fresh now t (account_set a m) = fresh now t m.
Proof. reflexivity. Qed.

Lemma fresh_younger now now' t m p :
  fresh now t m = Some p -> now' - timestamp p < 5000 -> fresh now' t m = Some p.
Proof.
  unfold fresh, CACHE_TTL_MS. destruct (priceCache m !! t) as [c|]; [|discriminate].
  destruct (now - timestamp c <? 5000); [|discriminate]. intros [= ->] H.
  destruct (Z.ltb_spec (now' - timestamp p) 5000); [reflexivity|lia].
Qed.

(** What a price request leaves in the price map: the price it answered
    with, unless that was made up. *)
Lemma part000_price_left host env tp b (w : World Maps) :
  exists resp w', Part000.handler host env (price_request tp b) w = (Ok resp, w') /\
    forall p t2, price_of resp = Some p -> isMock p = false -> t2 - timestamp p < 5000 ->
      fresh t2 (ticker_or_SBER (price_request tp b)) (cache w') = Some p.
Proof.
  unfold Part000.handler, price_request. cbn [method path]. eval_eqb.
  unfold Part000.get_price, Part000.getFigiForTicker, Part000.tinkoffRequest.
  repeat exec_step.
  all: eexists _, _; (split; [reflexivity|]).
  all: cbn [price_of data_of content json_ok cache]; intros q t2 [= <-]; cbn [isMock timestamp];
       intros; try discriminate.
  all: rewrite ?fresh_figi_set.
  all: try (eapply fresh_younger; eassumption).
  all: apply fresh_price_set; assumption.
Qed.

Lemma serverjs_price_left host env tk (w : World Maps) :
  exists resp w', ServerJs.get_price host env (Some tk) w = (Ok resp, w') /\
    forall p t2, price_of resp = Some p -> t2 - timestamp p < 5000 ->
      fresh t2 tk (cache w') = Some p.
Proof.
  unfold_serverjs. repeat exec_step.
  all: eexists _, _; (split; [reflexivity|]).
  all: cbn [price_of data_of content json_ok json_error cache]; intros q t2 E;
       try discriminate; injection E as <-; cbn [isMock timestamp]; intros.
  all: rewrite ?fresh_figi_set.
  all: try (eapply fresh_younger; eassumption).
  all: apply fresh_price_set; assumption.
Qed.

(** part_000, server.js.  A price that was answered and not made up is
    answered again, with no call and no change of the world, to every
    request for the same ticker that comes less than 5000 ms after the
    timestamp the price carries. *)
Theorem fetched_price_is_served_again host env tp b b2 tk t2 (w : World Maps) :
  (forall resp w' p,
     Part000.handler host env (price_request tp b) w = (Ok resp, w') ->
     price_of resp = Some p -> isMock p = false -> t2 - timestamp p < 5000 ->
     Part000.handler host env (price_request tp b2) (at_time t2 w') =
       (Ok (json_ok (DPrice p)), at_time t2 w')) /\
  (forall resp w' p,
     ServerJs.get_price host env (Some tk) w = (Ok resp, w') ->
     price_of resp = Some p -> t2 - timestamp p < 5000 ->
     ServerJs.get_price host env (Some tk) (at_time t2 w') =
       (Ok (json_ok (DPrice p)), at_time t2 w')).
Proof.
  split.
  - intros resp w' p E Hp Hm Ht.
    destruct (part000_price_left host env tp b w) as [resp' [w'' [E' F]]].
    rewrite E in E'. injection E' as <- <-. specialize (F p t2 Hp Hm Ht).
    change (ticker_or_SBER (price_request tp b)) with (ticker_or_SBER (price_request tp b2)) in F.
    clear E. unfold Part000.handler. unfold price_request at 1 2. cbn [method path]. eval_eqb.
    unfold Part000.get_price, try_catch, bind, date_now, get_cache.
    change (now (at_time t2 w')) with t2. change (cache (at_time t2 w')) with (cache w').
    rewrite F. reflexivity.
  - intros resp w' p E Hp Ht.
    destruct (serverjs_price_left host env tk w) as [resp' [w'' [E' F]]].
    rewrite E in E'. injection E' as <- <-. specialize (F p t2 Hp Ht).
    unfold ServerJs.get_price in *.
    destruct (String.eqb tk "") eqn:Etk.
    + injection E as <- _. discriminate.
    + unfold try_catch, bind, date_now, get_cache.
      change (now (at_time t2 w')) with t2. change (cache (at_time t2 w')) with (cache w').
      rewrite F. reflexivity.
Qed.

(** SBER asked at 1 000 000 ms and again at 1 004 000 ms. *)
Lemma fetched_price_is_served_again_witness :
  (exists p w',
     Part000.handler runtime broker (price_request (Some "SBER") no_body) (start no_maps) =
       (Ok (json_ok (DPrice p)), w') /\
     isMock p = false /\ 1004000 - timestamp p < 5000 /\
     Part000.handler runtime broker (price_request (Some "SBER") no_body)
       (at_time 1004000 w') = (Ok (json_ok (DPrice p)), at_time 1004000 w')) /\
  (exists p w',
     ServerJs.get_price runtime broker (Some "SBER") (start no_maps) =
       (Ok (json_ok (DPrice p)), w') /\
     1004000 - timestamp p < 5000 /\
     ServerJs.get_price runtime broker (Some "SBER") (at_time 1004000 w') =
       (Ok (json_ok (DPrice p)), at_time 1004000 w')).
Proof.
  destruct (fetched_price_is_served_again runtime broker (Some "SBER") no_body no_body
              "SBER" 1004000 (start no_maps)) as [P S].
  split.
  - eexists _, _. split; [vm_compute; reflexivity|]. split; [reflexivity|].
    split; [reflexivity|].
    eapply P; [vm_compute; reflexivity | reflexivity | reflexivity | reflexivity].
  - eexists _, _. split; [vm_compute; reflexivity|]. split; [reflexivity|].
    eapply S; [vm_compute; reflexivity | reflexivity | reflexivity].
Defined.

Ltac untouched :=
  cbn [snd cache MainJs.prices];
  rewrite ?fresh_account_set, ?fresh_figi_set;
  try reflexivity;
  try (rewrite fresh_other by congruence; rewrite ?fresh_account_set, ?fresh_figi_set;
       reflexivity);
  try (rewrite lookup_insert_ne by congruence; reflexivity).

(** The entry of a ticker, and with it whether the ticker is fresh at any
    given time, is left as it was by every request that is not a price
    request for that very ticker. *)
Theorem other_tickers_are_untouched host env request body tk t n
    (w0 : World MainJs.Cache) (w : World Maps) :
  ticker_or_SBER request <> t -> tk <> Some t ->
  MainJs.prices (cache (snd (MainJs.handler host env request w0))) !! t =
    MainJs.prices (cache w0) !! t /\
  fresh n t (cache (snd (Part000.handler host env request w))) = fresh n t (cache w) /\
  fresh n t (cache (snd (ServerJs.get_price host env tk w))) = fresh n t (cache w) /\
  fresh n t (cache (snd (ServerJs.post_order_limit host env body w))) = fresh n t (cache w) /\
  fresh n t (cache (snd (ServerJs.get_status host env w))) = fresh n t (cache w).
Proof.
  intros H1 H2. split; [|split; [|split; [|split]]].
  - unfold_main. repeat exec_step. all: untouched.
  - unfold_part000. repeat exec_step. all: untouched.
  - unfold_serverjs. repeat exec_step. all: untouched.
  - unfold_serverjs. repeat exec_step. all: untouched.
  - unfold_serverjs. repeat exec_step. all: untouched.
Qed.

(** GAZP asked 6 s after SBER: the entry of SBER is what it was. *)
Lemma other_tickers_are_untouched_witness :
  MainJs.prices (cache (snd main_second)) !! "SBER" =
    MainJs.prices (cache (at_time 1006000 (snd main_first))) !! "SBER" /\
  fresh 1003000 "SBER" (cache (snd part000_second)) =
    fresh 1003000 "SBER" (cache (at_time 1006000 (snd part000_first))) /\
  fresh 1003000 "SBER" (cache (snd (ServerJs.get_price runtime broker (Some "GAZP")
                                      (at_time 1006000 (snd part000_first))))) =
    fresh 1003000 "SBER" (cache (at_time 1006000 (snd part000_first))).
Proof.
  destruct (other_tickers_are_untouched runtime broker (price_request (Some "GAZP") no_body)
              VNull (Some "GAZP") "SBER" 1003000
              (at_time 1006000 (snd main_first)) (at_time 1006000 (snd part000_first)))
    as [A [B [C _]]]; [discriminate | discriminate |].
  exact (conj A (conj B C)).
Defined.

(** main.js.  While the last fetch, of whatever ticker, is less than
    5000 ms old, a stored entry is the answer, whatever its own age, and
    the world is left as it was; from 5000 ms on, every price request asks
    the upstream, beginning with the search for the instrument. *)
Theorem main_price_cache_rule host env tp b (w : World MainJs.Cache) :
  (forall p, now w - MainJs.lastUpdate (cache w) < 5000 ->
     MainJs.prices (cache w) !! ticker_or_SBER (price_request tp b) = Some p ->
     MainJs.handler host env (price_request tp b) w = (Ok (json_ok (DPrice p)), w)) /\
  (5000 <= now w - MainJs.lastUpdate (cache w) ->
   exists r rest,
     issued w (snd (MainJs.handler host env (price_request tp b) w)) =
       (search (ticker_or_SBER (price_request tp b)), r) :: rest).
Proof.
  split.
  - intros p H1 H2.
    unfold MainJs.handler, price_request in *. cbn [method path] in *. eval_eqb.
    unfold MainJs.getCurrentPrice, try_catch, bind, date_now, get_cache.
    destruct (Z.ltb_spec (now w - MainJs.lastUpdate (cache w)) 5000); [|lia].
    rewrite H2. reflexivity.
  - intros H.
    unfold MainJs.handler, price_request in *. cbn [method path] in *. eval_eqb.
    unfold MainJs.getCurrentPrice, MainJs.tinkoffRequest.
    destruct (Z.ltb_spec (now w - MainJs.lastUpdate (cache w)) 5000) as [L|L]; [lia|].
    repeat exec_step.
    all: try lia.
    all: cbn [snd]; unfold search; rewrite <- ?app_assoc; unfold issued; cbn [sent];
         rewrite drop_app_length; cbn [app]; eauto.
Qed.

(** The third request of the scenario of C1 is a hit; a request for SBER
    at 1 011 000 ms is not. *)
Lemma main_price_cache_rule_witness :
  (exists p,
     MainJs.prices (cache (snd main_second)) !! "SBER" = Some p /\
     timestamp p = 1000000 /\
     MainJs.handler runtime broker (price_request (Some "SBER") no_body)
       (at_time 1007000 (snd main_second)) =
       (Ok (json_ok (DPrice p)), at_time 1007000 (snd main_second))) /\
  (exists r rest,
     issued (at_time 1011000 (snd main_second))
       (snd (MainJs.handler runtime broker (price_request (Some "SBER") no_body)
               (at_time 1011000 (snd main_second)))) = (search "SBER", r) :: rest).
Proof.
  split.
  - eexists. split; [vm_compute; reflexivity|]. split; [reflexivity|].
    apply (proj1 (main_price_cache_rule runtime broker (Some "SBER") no_body
                    (at_time 1007000 (snd main_second)))).
    + vm_compute. reflexivity.
    + vm_compute. reflexivity.
  - apply (proj2 (main_price_cache_rule runtime broker (Some "SBER") no_body
                    (at_time 1011000 (snd main_second)))).
    vm_compute. discriminate.
Defined.

(** ** The portfolio route *)

Lemma main_portfolio_always_200 host env tp b (w : World MainJs.Cache) :
  exists resp w', MainJs.handler host env (portfolio_request tp b) w = (Ok resp, w') /\
    status resp = 200 /\ success_of resp = Some true /\
    cache w' = cache w /\ (length (issued w w') <= 2)%nat /\
    (if existsb failed (issued w w') then data_of resp = Some (DRaw empty_portfolio)
     else True).
Proof.
  unfold MainJs.handler, portfolio_request. cbn [method path]. eval_eqb.
  unfold MainJs.getPortfolio, MainJs.tinkoffRequest.
  repeat exec_step.
  all: eexists _, _; (split; [reflexivity|]).
  all: issued_simpl; cbn [length].
  all: (split; [reflexivity|]); (split; [reflexivity|]); (split; [reflexivity|]).
  all: split; [lia | reflexivity || exact I].
Qed.

(** main.js.  GET /api/portfolio is always answered 200 with success true,
    after two calls at most and with the cache left as it was, and with
    the portfolio of nothing for data when a call failed.  When the
    upstream lists accounts and answers GetPortfolio for the id of the
    first, the data are that answer; when it lists no account, the data
    are the portfolio of nothing, which carries no mark that tells it from
    an answer of the upstream. *)
Theorem main_portfolio_never_fails host env tp b (w : World MainJs.Cache) :
  (exists resp w', MainJs.handler host env (portfolio_request tp b) w = (Ok resp, w') /\
     status resp = 200 /\ success_of resp = Some true /\
     cache w' = cache w /\ (length (issued w w') <= 2)%nat /\
     (if existsb failed (issued w w') then data_of resp = Some (DRaw empty_portfolio)
      else True)) /\
  (forall lat a rest lat2 p,
     upstream env (sent w) GetAccounts = (lat, Replied (Accounts (Some (a :: rest)))) ->
     upstream env (sent w ++ [(GetAccounts, Replied (Accounts (Some (a :: rest))))])
       (GetPortfolio (id a)) = (lat2, Replied p) ->
     MainJs.handler host env (portfolio_request tp b) w =
       (Ok (json_ok (DRaw p)),
        mkWorld (now w + lat + lat2)
          ((sent w ++ [(GetAccounts, Replied (Accounts (Some (a :: rest))))]) ++
           [(GetPortfolio (id a), Replied p)])
          (draws w) (cache w))) /\
  (forall lat p,
     upstream env (sent w) GetAccounts = (lat, Replied p) ->
     accounts_of p = None \/ accounts_of p = Some [] ->
     MainJs.handler host env (portfolio_request tp b) w =
       (Ok (json_ok (DRaw empty_portfolio)),
        mkWorld (now w + lat) (sent w ++ [(GetAccounts, Replied p)]) (draws w) (cache w))).
Proof.
  split; [apply main_portfolio_always_200|]. split.
  - intros lat a rest lat2 p U1 U2.
    unfold MainJs.handler, portfolio_request. cbn [method path]. eval_eqb.
    unfold MainJs.getPortfolio, MainJs.tinkoffRequest.
    unfold try_catch at 1. unfold bind at 1. unfold try_catch at 1. unfold bind at 1.
    rewrite rethrow_eq, remote_eq, U1. cbn [fst snd accounts_of].
    unfold bind at 1. rewrite rethrow_eq, remote_eq. cbn [sent now draws cache].
    rewrite U2. reflexivity.
  - intros lat p U H.
    unfold MainJs.handler, portfolio_request. cbn [method path]. eval_eqb.
    unfold MainJs.getPortfolio, MainJs.tinkoffRequest.
    unfold try_catch at 1. unfold bind at 1. unfold try_catch at 1. unfold bind at 1.
    rewrite rethrow_eq, remote_eq, U. cbn [fst snd].
    destruct H as [H|H]; rewrite H; reflexivity.
Qed.

(** The reply of the upstream is the answer. *)
Lemma main_portfolio_never_fails_witness :
  MainJs.handler runtime broker (portfolio_request None no_body) (start MainJs.initial) =
    (Ok (json_ok (DRaw (Portfolio (Some quote) (Some [])))),
     mkWorld (1000000 + 40 + 40)
       (([] ++ [(GetAccounts,
                 Replied (Accounts (Some [mkAccount "2000000001" "ACCOUNT_TYPE_TINKOFF"])))]) ++
        [(GetPortfolio "2000000001", Replied (Portfolio (Some quote) (Some [])))])
       0 MainJs.initial) /\
  MainJs.handler runtime vacant (portfolio_request None no_body) (start MainJs.initial) =
    (Ok (json_ok (DRaw empty_portfolio)),
     mkWorld (1000000 + 40) ([] ++ [(GetAccounts, Replied (Accounts (Some [])))])
       0 MainJs.initial).
Proof.
  split.
  - apply (proj1 (proj2 (main_portfolio_never_fails runtime broker None no_body
                           (start MainJs.initial)))
             40 (mkAccount "2000000001" "ACCOUNT_TYPE_TINKOFF") [] 40
             (Portfolio (Some quote) (Some []))); reflexivity.
  - apply (proj2 (proj2 (main_portfolio_never_fails runtime vacant None no_body
                           (start MainJs.initial)))
             40 (Accounts (Some []))); [reflexivity | right; reflexivity].
Defined.




Ltac priced_leaves Q :=
  try congruence;
  eexists _, _; (split; [reflexivity|]);
  unfold last_issued; issued_simpl;
  cbn [List.last List.map status json_ok json_error];
  (split; [repeat constructor; intros ? [= <-]; exact Q |]);
  intros; try discriminate; eexists _, _; (split; [reflexivity|]); exact Q.

(** A price that quotationToFloat made of a quotation of the upstream
    (units below 8 388 608 in size, nano short of a billion, of one sign)
    and that comes back as the price of an order reaches the upstream as
    that quotation, in each of the three variants. *)
Theorem quoted_price_reaches_the_upstream host env tp body u n
    (w0 : World MainJs.Cache) (w : World Maps) :
  (-8388608 < u < 8388608)%Z -> (-1000000000 < n < 1000000000)%Z ->
  (0 <= u /\ 0 <= n \/ u <= 0 /\ n <= 0)%Z ->
  rejected body = false ->
  get_prop body "price" =
    VNum (quotationToFloat
            (Some (mkQuotation (Num.Fin (inject_Z u)) (Some (Num.Fin (inject_Z n)))))) ->
  (exists resp w', MainJs.handler host env (order_request tp body) w0 = (Ok resp, w') /\
     Forall (priced (mkQuotation (Num.Fin (inject_Z u)) (Some (Num.Fin (inject_Z n)))))
       (issued w0 w') /\
     (status resp = 200 -> exists o r, last_issued w0 w' = Some (PostOrder o, r) /\
        o_price o = mkQuotation (Num.Fin (inject_Z u)) (Some (Num.Fin (inject_Z n))))) /\
  (exists resp w', Part000.handler host env (order_request tp body) w = (Ok resp, w') /\
     Forall (priced (mkQuotation (Num.Fin (inject_Z u)) (Some (Num.Fin (inject_Z n)))))
       (issued w w') /\
     (status resp = 200 -> exists o r, last_issued w w' = Some (PostOrder o, r) /\
        o_price o = mkQuotation (Num.Fin (inject_Z u)) (Some (Num.Fin (inject_Z n))))) /\
  (exists resp w', ServerJs.post_order_limit host env body w = (Ok resp, w') /\
     Forall (priced (mkQuotation (Num.Fin (inject_Z u)) (Some (Num.Fin (inject_Z n)))))
       (issued w w') /\
     (status resp = 200 -> exists o r, last_issued w w' = Some (PostOrder o, r) /\
        o_price o = mkQuotation (Num.Fin (inject_Z u)) (Some (Num.Fin (inject_Z n))))).
Proof.
  intros Hu Hn S Hv Hp.
  destruct (quotation_value u n Hu Hn S) as [v [Ev [Bv [V1 [V2 Tv]]]]].
  rewrite Ev in Hp.
  assert (Q := quotation_back u n v Hn Bv V1 V2 Tv).
  assert (Q1 : floatToQuotation (parseFloat host (VNum (Num.Fin v))) =
               mkQuotation (Num.Fin (inject_Z u)) (Some (Num.Fin (inject_Z n)))) by exact Q.
  assert (Q2 : floatToQuotation (toNumber host (VNum (Num.Fin v))) =
               mkQuotation (Num.Fin (inject_Z u)) (Some (Num.Fin (inject_Z n)))) by exact Q.
  clear Ev Bv V1 V2 Tv Q.
  destruct (body_of_valid body Hv) as [fs ->].
  unfold rejected in Hv. unfold get_prop in *. rewrite Hp in *.
  unfold priced.
  split; [|split].
  - unfold MainJs.handler, order_request. cbn [method path json]. eval_eqb.
    unfold MainJs.placeLimitOrder, MainJs.tinkoffRequest.
    repeat exec_step.
    all: try rewrite Hp in *.
    all: priced_leaves Q1.
  - unfold Part000.handler, order_request. cbn [method path json]. eval_eqb.
    unfold Part000.post_order_limit, Part000.getFigiForTicker, Part000.getAccountId,
      Part000.order_direction, Part000.generateOrderId, Part000.tinkoffRequest.
    repeat exec_step.
    all: try rewrite Hp in *.
    all: priced_leaves Q1.
  - unfold ServerJs.post_order_limit, ServerJs.getFigiForTicker, ServerJs.getAccountId,
      ServerJs.generateOrderId, ServerJs.api.
    repeat exec_step.
    all: try rewrite Hp in *.
    all: priced_leaves Q2.
Qed.

(** { ticker: "SBER", quantity: 10, price: 271.5, direction: "buy" }, 271.5
    being the float of { units: 271, nano: 500000000 }. *)
Lemma quoted_price_reaches_the_upstream_witness :
  get_prop (order_body (VStr "buy")) "price" =
    VNum (quotationToFloat
            (Some (mkQuotation (Num.Fin (inject_Z 271))
                     (Some (Num.Fin (inject_Z 500000000)))))) /\
  (exists resp w',
     MainJs.handler runtime broker (order_request None (order_body (VStr "buy")))
       (start MainJs.initial) = (Ok resp, w') /\
     status resp = 200 /\
     exists o r, last_issued (start MainJs.initial) w' = Some (PostOrder o, r) /\
       o_price o = mkQuotation (Num.Fin (inject_Z 271))
                     (Some (Num.Fin (inject_Z 500000000)))) /\
  (exists resp w',
     Part000.handler runtime broker (order_request None (order_body (VStr "buy")))
       (start no_maps) = (Ok resp, w') /\
     status resp = 200 /\
     exists o r, last_issued (start no_maps) w' = Some (PostOrder o, r) /\
       o_price o = mkQuotation (Num.Fin (inject_Z 271))
                     (Some (Num.Fin (inject_Z 500000000)))) /\
  (exists resp w',
     ServerJs.post_order_limit runtime broker (order_body (VStr "buy")) (start no_maps) =
       (Ok resp, w') /\
     status resp = 200 /\
     exists o r, last_issued (start no_maps) w' = Some (PostOrder o, r) /\
       o_price o = mkQuotation (Num.Fin (inject_Z 271))
                     (Some (Num.Fin (inject_Z 500000000)))).
Proof.
  assert (Hp : get_prop (order_body (VStr "buy")) "price" =
               VNum (quotationToFloat
                       (Some (mkQuotation (Num.Fin (inject_Z 271))
                                (Some (Num.Fin (inject_Z 500000000))))))).
  { vm_compute. reflexivity. }
  split; [exact Hp|].
  destruct (quoted_price_reaches_the_upstream runtime broker None (order_body (VStr "buy"))
              271 500000000 (start MainJs.initial) (start no_maps))
    as [[r1 [w1 [E1 [_ S1]]]] [[r2 [w2 [E2 [_ S2]]]] [r3 [w3 [E3 [_ S3]]]]]];
    [lia | lia | lia | reflexivity | exact Hp |].
  assert (C1 : status r1 = 200).
  { vm_compute in E1. injection E1 as <- _. reflexivity. }
  assert (C2 : status r2 = 200).
  { vm_compute in E2. injection E2 as <- _. reflexivity. }
  assert (C3 : status r3 = 200).
  { vm_compute in E3. injection E3 as <- _. reflexivity. }
  split; [|split].
  - exists r1, w1. split; [exact E1|]. split; [exact C1 | exact (S1 C1)].
  - exists r2, w2. split; [exact E2|]. split; [exact C2 | exact (S2 C2)].
  - exists r3, w3. split; [exact E3|]. split; [exact C3 | exact (S3 C3)].
Defined.

(** main.js keeps no memory of instruments or accounts: an order that
    passes the presence check always begins with the search for the
    instrument and leaves the cache as it was, and the answer 200 comes
    after three calls, the search, the accounts and the order. *)
Theorem main_order_is_three_calls host env tp body (w : World MainJs.Cache) :
  rejected body = false ->
  exists resp w', MainJs.handler host env (order_request tp body) w = (Ok resp, w') /\
    cache w' = cache w /\
    (exists r rest, issued w w' = (FindInstrument (get_prop body "ticker"), r) :: rest) /\
    (status resp = 200 ->
     exists p1 p2 o p3,
       issued w w' = [(FindInstrument (get_prop body "ticker"), Replied p1);
                      (GetAccounts, Replied p2); (PostOrder o, Replied p3)]).
Proof.
  intros Hv. destruct (body_of_valid body Hv) as [fs ->].
  unfold MainJs.handler, order_request. cbn [method path json]. eval_eqb.
  unfold MainJs.placeLimitOrder, MainJs.tinkoffRequest.
  unfold rejected in Hv. unfold get_prop in *.
  repeat exec_step.
  all: try congruence.
  all: eexists _, _; (split; [reflexivity|]); (split; [reflexivity|]).
  all: cbn [status json_ok json_error sent]; unfold issued; cbn [sent];
       rewrite <- ?app_assoc, drop_app_length; cbn [app].
  all: split; [eauto | intros; try discriminate; eauto 10].
Qed.

(** An order for SBER one second after its price was fetched and stored. *)
Lemma main_order_is_three_calls_witness :
  exists resp w',
    MainJs.handler runtime broker (order_request None (order_body (VStr "buy")))
      (at_time 1001000 (snd main_first)) = (Ok resp, w') /\
    cache w' = cache (snd main_first) /\
    status resp = 200 /\
    exists p1 p2 o p3,
      issued (at_time 1001000 (snd main_first)) w' =
        [(search "SBER", Replied p1); (GetAccounts, Replied p2); (PostOrder o, Replied p3)].
Proof.
  destruct (main_order_is_three_calls runtime broker None (order_body (VStr "buy"))
              (at_time 1001000 (snd main_first)) eq_refl) as [r [w' [E [C [_ T]]]]].
  exists r, w'. split; [exact E|]. split; [exact C|].
  assert (S : status r = 200).
  { vm_compute in E. injection E as <- _. reflexivity. }
  split; [exact S | exact (T S)].
Defined.

Ltac unresolved_leaves :=
  repeat match goal with H : Replied _ = Replied _ |- _ => injection H as <- end;
  cbn [instruments_of accounts_of] in *;
  try congruence;
  eexists _; (split; [reflexivity|]);
  issued_simpl; cbn [cache existsb is_order fst orb];
  repeat split; try reflexivity; try congruence.

(** An order for a ticker that the upstream does not know (main.js: the
    search gives an empty list; part_000, server.js: a list without an
    instrument of that ticker, in server.js of that ticker and type etf) is
    answered 500 with the text of the error that names the ticker; the
    search was the only call and nothing is stored. *)
Theorem unknown_ticker_order_is_500 host env tp body t lat instruments
    (w0 : World MainJs.Cache) (w : World Maps) :
  rejected body = false ->
  get_prop body "ticker" = VStr t ->
  (upstream env (sent w0) (search t) = (lat, Replied (Instruments (Some []))) ->
   exists w', MainJs.handler host env (order_request tp body) w0 =
                (Ok (json_error 500 ("Instrument not found: " +:+ t)), w') /\
     issued w0 w' = [(search t, Replied (Instruments (Some [])))] /\
     cache w' = cache w0) /\
  (tickerFigiMap (cache w) !! t = None ->
   upstream env (sent w) (search t) = (lat, Replied (Instruments (Some instruments))) ->
   (List.find (fun i => is_string (VStr t) (ticker_of i)) instruments = None ->
    exists w', Part000.handler host env (order_request tp body) w =
                 (Ok (json_error 500 ("Instrument not found for ticker: " +:+ t)), w') /\
      issued w w' = [(search t, Replied (Instruments (Some instruments)))] /\
      cache w' = cache w) /\
   (List.find (fun i => is_string (VStr t) (ticker_of i) &&
                        String.eqb (instrumentType i) "etf") instruments = None ->
    exists w', ServerJs.post_order_limit host env body w =
                 (Ok (json_error 500 ("FIGI not found for ticker: " +:+ t)), w') /\
      issued w w' = [(search t, Replied (Instruments (Some instruments)))] /\
      cache w' = cache w)).
Proof.
  intros Hv Ht. destruct (body_of_valid body Hv) as [fs ->].
  unfold rejected in Hv. unfold get_prop in *. unfold search.
  split; [|intros Hm U; split].
  - intros U.
    unfold MainJs.handler, order_request. cbn [method path json]. eval_eqb.
    unfold MainJs.placeLimitOrder, MainJs.tinkoffRequest.
    repeat exec_step.
    all: rewrite ?Ht in *; rewrite ?U in *; cbn [fst snd instruments_of display] in *.
    all: unresolved_leaves.
  - intros F.
    unfold Part000.handler, order_request. cbn [method path json]. eval_eqb.
    unfold Part000.post_order_limit, Part000.getFigiForTicker, Part000.tinkoffRequest.
    repeat exec_step.
    all: rewrite ?Ht in *; cbn [figi_get] in *; rewrite ?U in *;
         cbn [fst snd instruments_of display] in *.
    all: unresolved_leaves.
  - intros F.
    unfold ServerJs.post_order_limit, ServerJs.getFigiForTicker, ServerJs.api.
    repeat exec_step.
    all: rewrite ?Ht in *; cbn [figi_get] in *; rewrite ?U in *;
         cbn [fst snd instruments_of display] in *.
    all: unresolved_leaves.
Qed.

(** An order for SBER at an upstream that knows no instrument. *)
Lemma unknown_ticker_order_is_500_witness :
  (exists w',
     MainJs.handler runtime vacant (order_request None (order_body (VStr "buy")))
       (start MainJs.initial) = (Ok (json_error 500 "Instrument not found: SBER"), w') /\
     issued (start MainJs.initial) w' = [(search "SBER", Replied (Instruments (Some [])))] /\
     cache w' = MainJs.initial) /\
  (exists w',
     Part000.handler runtime vacant (order_request None (order_body (VStr "buy")))
       (start no_maps) =
       (Ok (json_error 500 "Instrument not found for ticker: SBER"), w') /\
     issued (start no_maps) w' = [(search "SBER", Replied (Instruments (Some [])))] /\
     cache w' = no_maps) /\
  (exists w',
     ServerJs.post_order_limit runtime vacant (order_body (VStr "buy")) (start no_maps) =
       (Ok (json_error 500 "FIGI not found for ticker: SBER"), w') /\
     issued (start no_maps) w' = [(search "SBER", Replied (Instruments (Some [])))] /\
     cache w' = no_maps).
Proof.
  destruct (unknown_ticker_order_is_500 runtime vacant None (order_body (VStr "buy"))
              "SBER" 40 [] (start MainJs.initial) (start no_maps) eq_refl eq_refl)
    as [M PS].
  destruct (PS eq_refl eq_refl) as [P S].
  exact (conj (M eq_refl) (conj (P eq_refl) (S eq_refl))).
Defined.

Ltac accountless_leaves H :=
  repeat match goal with
         | X : snd (upstream _ _ GetAccounts) = _ |- _ => rewrite H in X
         end;
  repeat match goal with X : Replied _ = Replied _ |- _ => injection X as <- end;
  cbn [instruments_of accounts_of] in *;
  repeat match goal with X : Some [] = Some _ |- _ => injection X as <- end;
  cbn [List.find] in *;
  try congruence;
  eexists _, _; (split; [reflexivity|]);
  unfold last_issued; issued_simpl;
  cbn [status json_ok json_error error_of content existsb is_order fst orb
       List.last List.map];
  repeat split; try reflexivity; try congruence; intros; try discriminate;
  try congruence.

(** With no account at the upstream and none in store, an order is
    answered 500 and no order is sent.  Once the instrument is resolved,
    the accounts are asked, the answer that lists none is the last
    exchange of the request, and the error is "No accounts found" in
    part_000, "No suitable investment account found." in server.js, and in
    main.js, which reads accounts.accounts[0].id unguarded, the TypeError
    of the runtime. *)
Theorem no_account_no_order host env tp body
    (w0 : World MainJs.Cache) (w : World Maps) :
  rejected body = false ->
  (forall h, snd (upstream env h GetAccounts) = Replied (Accounts (Some []))) ->
  cached_account (cache w) = None ->
  (exists resp w', MainJs.handler host env (order_request tp body) w0 = (Ok resp, w') /\
     status resp = 500 /\ existsb is_order (issued w0 w') = false /\
     (forall p1 i rest,
        snd (upstream env (sent w0) (FindInstrument (get_prop body "ticker"))) = Replied p1 ->
        instruments_of p1 = Some (i :: rest) ->
        error_of resp = Some (type_error host "accounts.accounts[0].id") /\
        issued w0 w' = [(FindInstrument (get_prop body "ticker"), Replied p1);
                        (GetAccounts, Replied (Accounts (Some [])))])) /\
  (exists resp w', Part000.handler host env (order_request tp body) w = (Ok resp, w') /\
     status resp = 500 /\ existsb is_order (issued w w') = false /\
     (succeeded (Part000.getFigiForTicker host env (get_prop body "ticker") w) = true ->
      error_of resp = Some "No accounts found" /\
      last_issued w w' = Some (GetAccounts, Replied (Accounts (Some []))))) /\
  (exists resp w', ServerJs.post_order_limit host env body w = (Ok resp, w') /\
     status resp = 500 /\ existsb is_order (issued w w') = false /\
     (succeeded (ServerJs.getFigiForTicker host env (get_prop body "ticker") w) = true ->
      error_of resp = Some "No suitable investment account found." /\
      last_issued w w' = Some (GetAccounts, Replied (Accounts (Some []))))).
Proof.
  intros Hv H Hc. destruct (body_of_valid body Hv) as [fs ->].
  unfold rejected in Hv. unfold get_prop in *.
  split; [|split].
  - unfold MainJs.handler, order_request. cbn [method path json]. eval_eqb.
    unfold MainJs.placeLimitOrder, MainJs.tinkoffRequest.
    repeat exec_step.
    all: accountless_leaves H.
    all: match goal with X : Replied _ = Replied _ |- _ => injection X as <- end; reflexivity.
  - unfold Part000.handler, order_request. cbn [method path json]. eval_eqb.
    unfold Part000.post_order_limit, Part000.getFigiForTicker, Part000.getAccountId,
      Part000.order_direction, Part000.generateOrderId, Part000.tinkoffRequest, succeeded.
    repeat exec_step.
    all: rewrite ?cached_account_figi_set in *.
    all: accountless_leaves H.
  - unfold ServerJs.post_order_limit, ServerJs.getFigiForTicker, ServerJs.getAccountId,
      ServerJs.generateOrderId, ServerJs.api, succeeded.
    repeat exec_step.
    all: rewrite ?cached_account_figi_set in *.
    all: accountless_leaves H.
Qed.

(** An order for SBER at an upstream that has no account. *)
Lemma no_account_no_order_witness :
  (exists w',
     MainJs.handler runtime accountless (order_request None (order_body (VStr "buy")))
       (start MainJs.initial) =
       (Ok (json_error 500 (type_error runtime "accounts.accounts[0].id")), w') /\
     issued (start MainJs.initial) w' =
       [(search "SBER",
         Replied (Instruments (Some [mkInstrument "BBG004730N88" "SBER" "etf"])));
        (GetAccounts, Replied (Accounts (Some [])))]) /\
  (exists w',
     Part000.handler runtime accountless (order_request None (order_body (VStr "buy")))
       (start no_maps) = (Ok (json_error 500 "No accounts found"), w') /\
     last_issued (start no_maps) w' = Some (GetAccounts, Replied (Accounts (Some [])))) /\
  (exists w',
     ServerJs.post_order_limit runtime accountless (order_body (VStr "buy"))
       (start no_maps) = (Ok (json_error 500 "No suitable investment account found."), w') /\
     last_issued (start no_maps) w' = Some (GetAccounts, Replied (Accounts (Some [])))).
Proof.
  destruct (no_account_no_order runtime accountless None (order_body (VStr "buy"))
              (start MainJs.initial) (start no_maps) eq_refl (fun h => eq_refl) eq_refl)
    as [[r1 [w1 [E1 [_ [_ M]]]]] [[r2 [w2 [E2 [_ [_ P]]]]] [r3 [w3 [E3 [_ [_ S]]]]]]].
  destruct (M (Instruments (Some [mkInstrument "BBG004730N88" "SBER" "etf"]))
              (mkInstrument "BBG004730N88" "SBER" "etf") [] eq_refl eq_refl) as [M1 M2].
  destruct (P eq_refl) as [P1 P2]. destruct (S eq_refl) as [S1 S2].
  split; [|split].
  - exists w1. split; [|exact M2]. rewrite E1. f_equal. f_equal.
    vm_compute in E1. injection E1 as <- _. reflexivity.
  - exists w2. split; [|exact P2]. rewrite E2. f_equal. f_equal.
    vm_compute in E2. injection E2 as <- _. reflexivity.
  - exists w3. split; [|exact S2]. rewrite E3. f_equal. f_equal.
    vm_compute in E3. injection E3 as <- _. reflexivity.
Defined.
